(** * Bridge process orchestrator of the MCP admin backend

    A shallow embedding of [admin-backend/server.js]: the user records kept
    in [users.json], the in-memory table [bridgeProcesses], the generated
    per-user configuration, and the route handlers that start, stop, update
    and delete a user's bridge process.

    Node runs every callback to completion; an [async] handler is cut at its
    [await].  Each handler is therefore a sequence of atomic segments, each a
    function on [State]; what remains to run after an [await] is a [Task] of
    the [World], resumed when the awaited [exec] callback fires. *)

From stdpp Require Import gmap strings list fin_maps pretty.

Open Scope Z_scope.

Set Warnings "-register-all".

(** ** JSON values and JavaScript truthiness *)

(** A JSON value as [JSON.parse] delivers it.  Numbers are kept as integers:
    the handlers only test them for being zero. *)
Inductive json :=
| JNull
| JBool (b : bool)
| JNum (n : Z)
| JStr (s : string)
| JArr (l : list json)
| JObj (l : list (string * json)).

(** [ToBoolean] of a JSON value. *)
Definition truthy (v : json) : bool :=
  match v with
  | JNull => false
  | JBool b => b
  | JNum n => negb (n =? 0)
  | JStr s => negb (String.eqb s "")
  | JArr _ => true
  | JObj _ => true
  end.

(** [v || d] where [v] may be [undefined] (an absent property). *)
Definition js_or (v : option json) (d : json) : json :=
  match v with
  | Some x => if truthy x then x else d
  | None => d
  end.

(** [!v] where [v] may be [undefined]. *)
Definition js_not (v : option json) : bool :=
  match v with
  | Some x => negb (truthy x)
  | None => true
  end.

(** ** User records *)

Inductive Status := stopped | running.

(** The [pid] property of a record: [null], a number, or [undefined] (the
    property is dropped by [JSON.stringify] and stays absent when read). *)
Inductive pidval :=
| pid_null
| pid_num (n : Z)
| pid_undefined.

Record User := mkUser {
  id : string;
  name : json;
  mcpEndpoint : json;
  braveEnabled : json;
  braveApiKey : json;
  weatherEnabled : json;
  feeds : json;
  status : Status;
  pid : pidval;
  createdAt : string
}.

Definition set_status_pid (st : Status) (p : pidval) (u : User) : User :=
  mkUser (id u) (name u) (mcpEndpoint u) (braveEnabled u) (braveApiKey u)
         (weatherEnabled u) (feeds u) st p (createdAt u).

Definition set_braveApiKey (k : json) (u : User) : User :=
  mkUser (id u) (name u) (mcpEndpoint u) (braveEnabled u) k
         (weatherEnabled u) (feeds u) (status u) (pid u) (createdAt u).

(** [data.users.find(u => u.id === userId)] *)
Fixpoint find (userId : string) (l : list User) : option User :=
  match l with
  | [] => None
  | u :: l' => if String.eqb (id u) userId then Some u else find userId l'
  end.

(** [data.users.findIndex(u => u.id === userId)], [None] for [-1]. *)
Fixpoint findIndex (userId : string) (l : list User) : option nat :=
  match l with
  | [] => None
  | u :: l' =>
      if String.eqb (id u) userId then Some 0%nat
      else S <$> findIndex userId l'
  end.

(** [data.users.splice(idx, 1)] *)
Definition splice1 (idx : nat) (l : list User) : list User :=
  take idx l ++ drop (S idx) l.

(** ** Generated worker configuration *)

Definition PYTHON_PATH : string :=
  "C:\Users\Administrator\AppData\Local\Programs\Python\Python313\python.exe".

Inductive ServerDescriptor :=
| UrlServer (url transport : string)
| CommandServer (command : string) (args : list string) (transport : string).

(** The file name of a user's configuration inside [BRIDGE_PATH]. *)
Definition configPath (userId : string) : string :=
  "config_" +:+ userId +:+ ".json".

(** The object [mcpServers] built by [generateUserConfig]. *)
Definition mcpServers (user : User) : gmap string ServerDescriptor :=
  let m0 : gmap string ServerDescriptor := ∅ in
  let m1 :=
    if truthy (braveEnabled user) && truthy (braveApiKey user)
    then <["brave-search" := UrlServer "http://localhost:8080/sse" "sse"]> m0
    else m0 in
  let m2 :=
    if truthy (weatherEnabled user)
    then <["weather" := CommandServer PYTHON_PATH ["weather-server.py"] "stdio"]> m1
    else m1 in
  <["rss-news" :=
      CommandServer PYTHON_PATH ["rss-server.py"; "--user"; id user] "stdio"]> m2.

(** ** The state of the server and of its environment *)

(** An entry [{ process, pid }] of [bridgeProcesses]; [process] refers to a
    [ChildProcess] object by its position in [procs]. *)
Record Handle := mkHandle {
  process : nat;
  handle_pid : option Z
}.

(** A [ChildProcess] object returned by [spawn]: its [pid] ([None] for
    [undefined]), the id of the [user] captured by its ['exit'] listener,
    whether [kill] was called on it and whether ['exit'] was emitted. *)
Record ChildProcess := mkChild {
  child_pid : option Z;
  child_user : string;
  killed : bool;
  exited : bool
}.

(** What the environment answers to [spawn]: it throws, or it returns an
    object without [pid] whose launch failed (Node emits ['error'] later, and
    no ['exit']), or it returns a running process. *)
Inductive SpawnOutcome :=
| SpawnThrows
| SpawnFails
| Spawned (n : Z).

(** Calls made to the environment, oldest first. *)
Inductive Event :=
| EvKill (p : nat)
| EvSweep (userId : string)
| EvWriteConfig (file : string) (ok : bool)
| EvSpawn (o : SpawnOutcome)
| EvUnlink (file : string) (ok : bool)
| EvWriteUsers.

Record State := mkState {
  bridgeProcesses : gmap string Handle;
  users : list User;
  configs : gmap string (gmap string ServerDescriptor);
  procs : list ChildProcess;
  trace : list Event
}.

Definition set_bridgeProcesses (r : gmap string Handle) (s : State) : State :=
  mkState r (users s) (configs s) (procs s) (trace s).

Definition set_configs (c : gmap string (gmap string ServerDescriptor))
    (s : State) : State :=
  mkState (bridgeProcesses s) (users s) c (procs s) (trace s).

Definition set_procs (ps : list ChildProcess) (s : State) : State :=
  mkState (bridgeProcesses s) (users s) (configs s) ps (trace s).

Definition log (e : Event) (s : State) : State :=
  mkState (bridgeProcesses s) (users s) (configs s) (procs s) (trace s ++ [e]).

Definition readUsers (s : State) : list User := users s.

Definition writeUsers (data : list User) (s : State) : State :=
  log EvWriteUsers
    (mkState (bridgeProcesses s) data (configs s) (procs s) (trace s)).

Definition initial : State := mkState ∅ [] ∅ [] [].

(** What the environment decides while a continuation runs. *)
Record Env := mkEnv {
  env_config_write_ok : bool;
  env_spawn : SpawnOutcome;
  env_unlink_ok : bool
}.

(** ** Bridge process management *)

(** [generateUserConfig]: [None] when [writeFileSync] throws. *)
Definition generateUserConfig (user : User) (write_ok : bool) (s : State)
    : option string * State :=
  let path := configPath (id user) in
  if write_ok
  then (Some path,
        log (EvWriteConfig path true)
            (set_configs (<[path := mcpServers user]> (configs s)) s))
  else (None, log (EvWriteConfig path false) s).

Definition mark_killed (c : ChildProcess) : ChildProcess :=
  mkChild (child_pid c) (child_user c) true (exited c).

Definition mark_exited (c : ChildProcess) : ChildProcess :=
  mkChild (child_pid c) (child_user c) (killed c) true.

(** The body of the promise of [killUserBridge], up to the call of [exec];
    the promise resolves when the callback of [exec] fires. *)
Definition killUserBridge (userId : string) (s : State) : State :=
  let s1 :=
    match bridgeProcesses s !! userId with
    | Some h =>
        set_bridgeProcesses (delete userId (bridgeProcesses s))
          (log (EvKill (process h))
             (set_procs (alter mark_killed (process h) (procs s)) s))
    | None => s
    end in
  log (EvSweep userId) s1.

(** [data.users[idx].status = st; data.users[idx].pid = p] when the user is
    found, and the write of the file. *)
Definition update_status (userId : string) (st : Status) (p : pidval)
    (s : State) : State :=
  let data := readUsers s in
  match findIndex userId data with
  | Some idx => writeUsers (alter (set_status_pid st p) idx data) s
  | None => s
  end.

Definition pidval_of (p : option Z) : pidval :=
  match p with
  | Some n => pid_num n
  | None => pid_undefined
  end.

(** [proc.pid] of the object returned by [spawn]. *)
Definition spawn_pid (o : SpawnOutcome) : option Z :=
  match o with
  | Spawned n => Some n
  | _ => None
  end.

Inductive StartResult :=
| Returned (b : bool)
| Threw.

(** [startUserBridge] after [await killUserBridge(user.id)]. *)
Definition startUserBridge_resume (user : User) (env : Env) (s : State)
    : StartResult * State :=
  if negb (truthy (mcpEndpoint user)) then (Returned false, s)
  else
    match generateUserConfig user (env_config_write_ok env) s with
    | (None, s1) => (Threw, s1)
    | (Some _, s1) =>
        let s2 := log (EvSpawn (env_spawn env)) s1 in
        match env_spawn env with
        | SpawnThrows => (Threw, s2)
        | o =>
            let ppid := spawn_pid o in
            let p := length (procs s2) in
            let s3 := set_procs (procs s2 ++ [mkChild ppid (id user) false false]) s2 in
            let s4 := set_bridgeProcesses
                        (<[id user := mkHandle p ppid]> (bridgeProcesses s3)) s3 in
            (Returned true, update_status (id user) running (pidval_of ppid) s4)
        end
    end.

(** The listener [proc.on('exit', ...)] of the process at position [p]. *)
Definition on_exit (p : nat) (s : State) : State :=
  match procs s !! p with
  | Some c =>
      let s1 := set_procs (alter mark_exited p (procs s)) s in
      let s2 := set_bridgeProcesses
                  (delete (child_user c) (bridgeProcesses s1)) s1 in
      update_status (child_user c) stopped pid_null s2
  | None => s
  end.

(** ['exit'] can be emitted for a launched process that has not exited yet. *)
Definition can_exit (p : nat) (s : State) : bool :=
  match procs s !! p with
  | Some c => negb (exited c) && bool_decide (is_Some (child_pid c))
  | None => false
  end.

(** ** Route handlers *)

Abbreviation Body := (gmap string json).

Inductive Response :=
| Error (code : nat) (error : string)
| UserCreated (user : User)
| UserUpdated (user : User)
| UserDeleted
| BridgeStarted (user_name : json)
| BridgeStopped (user_name : json)
| Rejected.

(** What is left of a handler after its [await]. *)
Inductive Task :=
| AwaitStartRoute (user : User)
| AwaitUpdateRoute (user : User)
| AwaitStopRoute (data : list User) (userId : string) (user : User)
| AwaitDeleteRoute (data : list User) (idx : nat) (userId : string).

(** [GET /api/users] *)
Definition get_users (s : State) : list User :=
  (fun u => set_braveApiKey
              (JStr (if truthy (braveApiKey u) then "***" else "")) u)
    <$> readUsers s.

(** [POST /api/users]; [now] is [Date.now()] and [iso] is
    [new Date().toISOString()]. *)
Definition post_users (body : Body) (now : Z) (iso : string) (s : State)
    : Response * State :=
  if js_not (body !! "name") then (Error 400 "Name is required", s)
  else
    let newUser :=
      mkUser ("user_" +:+ pretty now)
             (default JNull (body !! "name"))
             (js_or (body !! "mcpEndpoint") (JStr ""))
             (js_or (body !! "braveEnabled") (JBool false))
             (js_or (body !! "braveApiKey") (JStr ""))
             (js_or (body !! "weatherEnabled") (JBool false))
             (js_or (body !! "feeds") (JArr []))
             stopped pid_null iso in
    (UserCreated newUser, writeUsers (readUsers s ++ [newUser]) s).

(** The assignments [if (x !== undefined) data.users[idx].x = x] of
    [PUT /api/users/:id]. *)
Definition assign_fields (body : Body) (u : User) : User :=
  mkUser (id u)
         (default (name u) (body !! "name"))
         (default (mcpEndpoint u) (body !! "mcpEndpoint"))
         (default (braveEnabled u) (body !! "braveEnabled"))
         (default (braveApiKey u) (body !! "braveApiKey"))
         (default (weatherEnabled u) (body !! "weatherEnabled"))
         (default (feeds u) (body !! "feeds"))
         (status u) (pid u) (createdAt u).

(** [PUT /api/users/:id], up to its [await] if it reaches one. *)
Definition put_user (userId : string) (body : Body) (s : State)
    : (Response + Task) * State :=
  let data := readUsers s in
  match findIndex userId data with
  | None => (inl (Error 404 "User not found"), s)
  | Some idx =>
      let data' := alter (assign_fields body) idx data in
      let s1 := writeUsers data' s in
      match data' !! idx with
      | Some u =>
          match status u with
          | running => (inr (AwaitUpdateRoute u), killUserBridge (id u) s1)
          | stopped => (inl (UserUpdated u), s1)
          end
      | None => (inl Rejected, s1)
      end
  end.

(** [DELETE /api/users/:id], up to its [await]. *)
Definition delete_user (userId : string) (s : State)
    : (Response + Task) * State :=
  let data := readUsers s in
  match findIndex userId data with
  | None => (inl (Error 404 "User not found"), s)
  | Some idx => (inr (AwaitDeleteRoute data idx userId), killUserBridge userId s)
  end.

(** [POST /api/users/:id/start], up to its [await]. *)
Definition post_user_start (userId : string) (s : State)
    : (Response + Task) * State :=
  let data := readUsers s in
  match find userId data with
  | None => (inl (Error 404 "User not found"), s)
  | Some user =>
      if negb (truthy (mcpEndpoint user))
      then (inl (Error 400 "MCP Endpoint required"), s)
      else (inr (AwaitStartRoute user), killUserBridge (id user) s)
  end.

(** [POST /api/users/:id/stop], up to its [await]. *)
Definition post_user_stop (userId : string) (s : State)
    : (Response + Task) * State :=
  let data := readUsers s in
  match find userId data with
  | None => (inl (Error 404 "User not found"), s)
  | Some user => (inr (AwaitStopRoute data userId user), killUserBridge (id user) s)
  end.

(** [fs.unlinkSync(configPath)] inside [try { } catch { }]: it fails when the
    file is absent or when the environment refuses. *)
Definition unlink_config (userId : string) (unlink_ok : bool) (s : State) : State :=
  let path := configPath userId in
  let ok := unlink_ok && bool_decide (is_Some (configs s !! path)) in
  log (EvUnlink path ok)
      (if ok then set_configs (delete path (configs s)) s else s).

(** The rest of a handler once its [await] completes. *)
Definition resume (t : Task) (env : Env) (s : State) : Response * State :=
  match t with
  | AwaitStartRoute user =>
      match startUserBridge_resume user env s with
      | (Returned _, s') => (BridgeStarted (name user), s')
      | (Threw, s') => (Rejected, s')
      end
  | AwaitUpdateRoute user =>
      match startUserBridge_resume user env s with
      | (Returned _, s') => (UserUpdated user, s')
      | (Threw, s') => (Rejected, s')
      end
  | AwaitStopRoute data userId user =>
      match findIndex userId data with
      | Some idx =>
          (BridgeStopped (name user),
           writeUsers (alter (set_status_pid stopped pid_null) idx data) s)
      | None => (Rejected, s)
      end
  | AwaitDeleteRoute data idx userId =>
      (UserDeleted,
       writeUsers (splice1 idx data) (unlink_config userId (env_unlink_ok env) s))
  end.

(** ** The event loop *)

Record World := mkWorld {
  state : State;
  pending : list Task;
  responses : list Response
}.

Inductive Action :=
| ReqCreate (body : Body) (now : Z) (iso : string)
| ReqUpdate (userId : string) (body : Body)
| ReqDelete (userId : string)
| ReqStart (userId : string)
| ReqStop (userId : string)
| Resume (n : nat) (env : Env)
| ProcExit (p : nat).

Definition enter (r : (Response + Task) * State) (w : World) : World :=
  match r with
  | (inl resp, s) => mkWorld s (pending w) (responses w ++ [resp])
  | (inr t, s) => mkWorld s (pending w ++ [t]) (responses w)
  end.

Definition exec (w : World) (a : Action) : World :=
  match a with
  | ReqCreate body now iso =>
      let '(resp, s) := post_users body now iso (state w) in
      mkWorld s (pending w) (responses w ++ [resp])
  | ReqUpdate userId body => enter (put_user userId body (state w)) w
  | ReqDelete userId => enter (delete_user userId (state w)) w
  | ReqStart userId => enter (post_user_start userId (state w)) w
  | ReqStop userId => enter (post_user_stop userId (state w)) w
  | Resume n env =>
      match pending w !! n with
      | Some t =>
          let '(resp, s) := resume t env (state w) in
          mkWorld s (delete n (pending w)) (responses w ++ [resp])
      | None => w
      end
  | ProcExit p =>
      if can_exit p (state w)
      then mkWorld (on_exit p (state w)) (pending w) (responses w)
      else w
  end.

Definition run (acts : list Action) (w : World) : World :=
  foldl exec w acts.

Definition boot : World := mkWorld initial [] [].

Definition reachable (w : World) : Prop := exists acts, w = run acts boot.


(** ** Handlers run without interruption *)

(** [startUserBridge] when nothing else runs during its [await]. *)
Definition startUserBridge (user : User) (env : Env) (s : State)
    : StartResult * State :=
  startUserBridge_resume user env (killUserBridge (id user) s).

(** A handler whose continuation runs right after its first segment. *)
Definition complete (r : (Response + Task) * State) (env : Env)
    : Response * State :=
  match r with
  | (inl resp, s) => (resp, s)
  | (inr t, s) => resume t env s
  end.

Definition start (userId : string) (env : Env) (s : State) : Response * State :=
  complete (post_user_start userId s) env.

Definition stop (userId : string) (env : Env) (s : State) : Response * State :=
  complete (post_user_stop userId s) env.

Definition destroy (userId : string) (env : Env) (s : State) : Response * State :=
  complete (delete_user userId s) env.

(** ** Observations *)

(** The entries of [bridgeProcesses] stored under a user id. *)
Definition handles_for (userId : string) (s : State) : list Handle :=
  snd <$> filter (fun kv => kv.1 = userId) (map_to_list (bridgeProcesses s)).

(** The list of records after [status] and [pid] of the first record with
    the given id, if any, are overwritten. *)
Definition mark (userId : string) (st : Status) (p : pidval) (l : list User)
    : list User :=
  match findIndex userId l with
  | Some idx => alter (set_status_pid st p) idx l
  | None => l
  end.

(** Everything of a state but the log of environment calls. *)
Definition observable (s : State)
    : gmap string Handle * list User
      * gmap string (gmap string ServerDescriptor) * list ChildProcess :=
  (bridgeProcesses s, users s, configs s, procs s).

(** What the table and the file say about one user. *)
Definition outcome (userId : string) (s : State)
    : option Handle * option (Status * pidval) :=
  (bridgeProcesses s !! userId,
   (fun u => (status u, pid u)) <$> find userId (users s)).

(** The [kill] events of retiring the entry of a user. *)
Definition kill_events (userId : string) (s : State) : list Event :=
  match bridgeProcesses s !! userId with
  | Some h => [EvKill (process h)]
  | None => []
  end.

(** Each registered handle points to a process object launched for that
    user, with the same pid, on which [kill] was not called and which has
    not emitted ['exit']. *)
Definition registry_wf (s : State) : Prop :=
  forall userId h,
    bridgeProcesses s !! userId = Some h ->
    exists c, procs s !! process h = Some c /\
              child_user c = userId /\ child_pid c = handle_pid h /\
              killed c = false /\ exited c = false.

(** ** Config materialisation, user list *)

Definition rss_descriptor (userId : string) : ServerDescriptor :=
  CommandServer PYTHON_PATH ["rss-server.py"; "--user"; userId] "stdio".

Definition masked (u : User) : User :=
  set_braveApiKey (JStr (if truthy (braveApiKey u) then "***" else "")) u.

(** Two records that agree on every field but the key, both keys being
    non-empty. *)
Definition differ_only_in_key (a b : User) : Prop :=
  set_braveApiKey JNull a = set_braveApiKey JNull b /\
  truthy (braveApiKey a) = true /\ truthy (braveApiKey b) = true.

(** ** Example data *)

Definition u1 : User :=
  mkUser "u1" (JStr "User One") (JStr "wss://x") (JBool false) (JStr "")
         (JBool true) (JArr []) stopped pid_null "2024-01-01T00:00:00.000Z".

Definition body_forged : Body :=
  <["pid" := JNum 4242]> (<["status" := JStr "running"]> {["name" := JStr "eve"]}).

Definition two_keys_a : State :=
  mkState ∅ [set_braveApiKey (JStr "BSA-secret-1") u1] ∅ [] [].

Definition two_keys_b : State :=
  mkState ∅ [set_braveApiKey (JStr "another-key-2") u1] ∅ [] [].

Definition env_ok (n : Z) : Env := mkEnv true (Spawned n) true.


(** One stored user, [u1], and nothing running. *)
Definition only_u1 : State := mkState ∅ [u1] ∅ [] [].

(** ** Failing start attempts *)



(** A user without endpoint whose record says running, with a registered
    handle. *)
Definition u2 : User :=
  mkUser "u2" (JStr "No endpoint") (JStr "") (JBool false) (JStr "")
         (JBool false) (JArr []) running (pid_num 41) "2024-01-02T00:00:00.000Z".

Definition u2_registered : World :=
  mkWorld (mkState {["u2" := mkHandle 0 (Some 41)]} [u2] ∅
                   [mkChild (Some 41) "u2" false false] [])
          [] [].

(** ** Termination notifications *)

(** The table holds, under the user of process [p], a handle for [p]. *)
Definition registered_as (p : nat) (c : ChildProcess) (s : State) : Prop :=
  exists h, bridgeProcesses s !! child_user c = Some h /\ process h = p.

(** The statement that a termination notification removes the handle of its
    worker and marks the record stopped when that handle is still
    registered, and otherwise changes neither the table nor the file. *)
Definition exit_reconciliation_claim : Prop :=
  forall (w : World) (p : nat) (c : ChildProcess),
    reachable w ->
    procs (state w) !! p = Some c ->
    can_exit p (state w) = true ->
    let s := state w in
    let s' := on_exit p s in
    (registered_as p c s ->
       bridgeProcesses s' !! child_user c = None /\
       forall u, find (child_user c) (users s) = Some u ->
         find (child_user c) (users s') = Some (set_status_pid stopped pid_null u)) /\
    (~ registered_as p c s ->
       bridgeProcesses s' = bridgeProcesses s /\ users s' = users s).

Definition body_ann : Body :=
  <["mcpEndpoint" := JStr "wss://x"]> {["name" := JStr "ann"]}.

Definition ann : string := "user_1700000000000".

(** [ann] is created and started; her worker runs as process 0, pid 100. *)
Definition ann_running : World :=
  run [ReqCreate body_ann 1700000000000 "2023-11-14T22:13:20.000Z";
       ReqStart ann; Resume 0 (env_ok 100)] boot.

(** A stop request for [ann] has killed the worker and waits for the sweep;
    the record still reads running. *)
Definition ann_stopping : World := run [ReqStop ann] ann_running.

(** [ann] is started again: process 1, pid 200, replaces process 0, whose
    termination has not been notified yet. *)
Definition ann_restarted : World :=
  run [ReqStart ann; Resume 0 (env_ok 200)] ann_running.

(** The record of [ann] while her worker runs. *)
Definition ann_record : User :=
  mkUser ann (JStr "ann") (JStr "wss://x") (JBool false) (JStr "")
         (JBool false) (JArr []) running (pid_num 100)
         "2023-11-14T22:13:20.000Z".

(** ** A start and a stop for the same user *)

(** The two orders in which one request runs to completion before the other
    arrives. *)
Definition start_then_stop (userId : string) (env : Env) : list Action :=
  [ReqStart userId; Resume 0 env; ReqStop userId; Resume 0 env].

Definition stop_then_start (userId : string) (env : Env) : list Action :=
  [ReqStop userId; Resume 0 env; ReqStart userId; Resume 0 env].

(** The orders in which both requests are received before either [await]
    completes; the continuation of the start runs last in the first and the
    third, the continuation of the stop in the other two. *)
Definition start_stop_stop_start (userId : string) (env : Env) : list Action :=
  [ReqStart userId; ReqStop userId; Resume 1 env; Resume 0 env].

Definition start_stop_start_stop (userId : string) (env : Env) : list Action :=
  [ReqStart userId; ReqStop userId; Resume 0 env; Resume 0 env].

Definition stop_start_stop_start (userId : string) (env : Env) : list Action :=
  [ReqStop userId; ReqStart userId; Resume 0 env; Resume 0 env].

Definition stop_start_start_stop (userId : string) (env : Env) : list Action :=
  [ReqStop userId; ReqStart userId; Resume 1 env; Resume 0 env].

Definition start_stop_schedules (userId : string) (env : Env)
    : list (list Action) :=
  [start_then_stop userId env; stop_then_start userId env;
   start_stop_stop_start userId env; start_stop_start_stop userId env;
   stop_start_stop_start userId env; stop_start_start_stop userId env].

(** The statement that a start and a stop of one user, however their
    segments are scheduled, end as one of the two serial orders does. *)
Definition start_stop_serialized : Prop :=
  forall (w : World) (userId : string) (env : Env) (sched : list Action),
    reachable w ->
    pending w = [] ->
    sched ∈ start_stop_schedules userId env ->
    outcome userId (state (run sched w))
      = outcome userId (state (run (start_then_stop userId env) w)) \/
    outcome userId (state (run sched w))
      = outcome userId (state (run (stop_then_start userId env) w)).

(** [ann] is created and nothing runs. *)
Definition ann_created : World :=
  run [ReqCreate body_ann 1700000000000 "2023-11-14T22:13:20.000Z"] boot.

(** ** Updates run without interruption *)

(** [PUT /api/users/:id] when nothing else runs during its [await]. *)
Definition update (userId : string) (body : Body) (env : Env) (s : State)
    : Response * State :=
  complete (put_user userId body s) env.

(** The list of records after [f] is applied to the first record with the
    given id, if any. *)
Definition amend (userId : string) (f : User -> User) (l : list User)
    : list User :=
  match findIndex userId l with
  | Some idx => alter f idx l
  | None => l
  end.

(** ** Single user and feed routes *)

(** [GET /api/users/:id]; [None] stands for the answer 404. *)
Definition get_user (userId : string) (s : State) : option User :=
  find userId (readUsers s).

Definition set_feeds (f : json) (u : User) : User :=
  mkUser (id u) (name u) (mcpEndpoint u) (braveEnabled u) (braveApiKey u)
         (weatherEnabled u) f (status u) (pid u) (createdAt u).

(** [o[k]] for an object given by its members, a later member winning. *)
Fixpoint obj_get (k : string) (l : list (string * json)) : option json :=
  match l with
  | [] => None
  | (k', v) :: l' =>
      match obj_get k l' with
      | Some x => Some x
      | None => if String.eqb k' k then Some v else None
      end
  end.

(** [user.feeds || []] *)
Definition feeds_or_empty (u : User) : json :=
  js_or (Some (feeds u)) (JArr []).

(** [f.id !== feedId] for an element [f] of the feed list; [None] when the
    property access throws ([f] is [null]). *)
Definition feed_kept (feedId : string) (f : json) : option bool :=
  match f with
  | JNull => None
  | JObj l =>
      Some match obj_get "id" l with
           | Some (JStr i) => negb (String.eqb i feedId)
           | _ => true
           end
  | _ => Some true
  end.

(** [l.filter(f => f.id !== feedId)]; [None] when the callback throws. *)
Fixpoint filter_feeds (feedId : string) (l : list json) : option (list json) :=
  match l with
  | [] => Some []
  | f :: l' =>
      match feed_kept feedId f with
      | None => None
      | Some b =>
          match filter_feeds feedId l' with
          | None => None
          | Some r => Some (if b then f :: r else r)
          end
      end
  end.

(** The element is an object whose [id] is the string [feedId]. *)
Definition has_feed_id (feedId : string) (f : json) : bool :=
  match f with
  | JObj l =>
      match obj_get "id" l with
      | Some (JStr i) => String.eqb i feedId
      | _ => false
      end
  | _ => false
  end.

Inductive FeedResponse :=
| FeedError (code : nat) (error : string)
| FeedList (l : json)
| FeedAdded (feed : json)
| FeedDeleted
| FeedThrows.

(** The object [newFeed] of [POST /api/users/:id/feeds]. *)
Definition new_feed (body : Body) (now : Z) : json :=
  JObj [("id", JStr (pretty now));
        ("title", default JNull (body !! "title"));
        ("url", default JNull (body !! "url"));
        ("category", js_or (body !! "category") (JStr "Uncategorized"))].

(** [GET /api/users/:id/feeds] *)
Definition get_feeds (userId : string) (s : State) : FeedResponse :=
  match find userId (readUsers s) with
  | None => FeedError 404 "User not found"
  | Some user => FeedList (feeds_or_empty user)
  end.

(** [POST /api/users/:id/feeds]; [now] is [Date.now()].  [push] exists on
    arrays only: on any other truthy value of [feeds] the handler throws
    before it writes. *)
Definition post_feed (userId : string) (body : Body) (now : Z) (s : State)
    : FeedResponse * State :=
  let data := readUsers s in
  match findIndex userId data with
  | None => (FeedError 404 "User not found", s)
  | Some idx =>
      if js_not (body !! "title") || js_not (body !! "url")
      then (FeedError 400 "Title and URL required", s)
      else
        match data !! idx with
        | Some u =>
            match feeds_or_empty u with
            | JArr l =>
                (FeedAdded (new_feed body now),
                 writeUsers
                   (<[idx := set_feeds (JArr (l ++ [new_feed body now])) u]> data) s)
            | _ => (FeedThrows, s)
            end
        | None => (FeedThrows, s)
        end
  end.

(** [DELETE /api/users/:id/feeds/:feedId]; [filter] exists on arrays only. *)
Definition delete_feed (userId feedId : string) (s : State)
    : FeedResponse * State :=
  let data := readUsers s in
  match findIndex userId data with
  | None => (FeedError 404 "User not found", s)
  | Some idx =>
      match data !! idx with
      | Some u =>
          match feeds_or_empty u with
          | JArr l =>
              match filter_feeds feedId l with
              | Some l' =>
                  (FeedDeleted,
                   writeUsers (<[idx := set_feeds (JArr l') u]> data) s)
              | None => (FeedThrows, s)
              end
          | _ => (FeedThrows, s)
          end
      | None => (FeedThrows, s)
      end
  end.

(** ** Requests of every kind *)

Inductive Request :=
| Core (a : Action)
| ReqFeedAdd (userId : string) (body : Body) (now : Z)
| ReqFeedDelete (userId feedId : string).

(** One step of the server; the answers of the feed routes are not kept. *)
Definition serve (w : World) (r : Request) : World :=
  match r with
  | Core a => exec w a
  | ReqFeedAdd userId body now =>
      mkWorld (snd (post_feed userId body now (state w)))
              (pending w) (responses w)
  | ReqFeedDelete userId feedId =>
      mkWorld (snd (delete_feed userId feedId (state w)))
              (pending w) (responses w)
  end.

Definition served (w : World) : Prop :=
  exists rs : list Request, w = foldl serve boot rs.

(** A record reads stopped exactly when its pid is null. *)
Definition coupled (u : User) : Prop :=
  status u = stopped <-> pid u = pid_null.

(** The snapshot of [users.json] a continuation will write back. *)
Definition task_data (t : Task) : list User :=
  match t with
  | AwaitStopRoute data _ _ => data
  | AwaitDeleteRoute data _ _ => data
  | _ => []
  end.

(** ** Auth middleware *)

(** [s.split(' ')] *)
Fixpoint split_space (s : string) : list string :=
  match s with
  | EmptyString => [""]
  | String c s' =>
      if Ascii.eqb c Ascii.Space
      then "" :: split_space s'
      else match split_space s' with
           | p :: ps => String c p :: ps
           | [] => [String c ""]
           end
  end.

Fixpoint no_space (s : string) : bool :=
  match s with
  | EmptyString => true
  | String c s' => negb (Ascii.eqb c Ascii.Space) && no_space s'
  end.

Inductive AuthOutcome :=
| AuthNext (decoded : json)
| AuthDenied (code : nat) (error : string).

(** [authMiddleware]; [authorization] is [req.headers.authorization] and
    [verify token] is [jwt.verify(token, JWT_SECRET)], [None] when it
    throws. *)
Definition authMiddleware (verify : string -> option json)
    (authorization : option string) : AuthOutcome :=
  let token := authorization ≫= (fun h => split_space h !! 1%nat) in
  match token with
  | None => AuthDenied 401 "No token provided"
  | Some t =>
      if String.eqb t "" then AuthDenied 401 "No token provided"
      else match verify t with
           | Some decoded => AuthNext decoded
           | None => AuthDenied 401 "Invalid token"
           end
  end.

(** ** Example data for the added properties *)

Definition body_feed : Body :=
  <["url" := JStr "https://example.org/rss"]> {["title" := JStr "News"]}.

Definition body_search_on : Body :=
  <["braveApiKey" := JStr "BSA-key"]> {["braveEnabled" := JBool true]}.

Definition body_no_endpoint : Body := {["mcpEndpoint" := JStr ""]}.

Definition body_bob : Body := {["name" := JStr "bob"]}.

Definition verify_abc (t : string) : option json :=
  if String.eqb t "abc" then Some (JObj [("username", JStr "admin")]) else None.

(** ** Other users *)

(** Between [s] and [s'] nothing changed for the user [other]: the same
    handle, the same record, and the process object of the handle as it
    was. *)
Definition untouched (other : string) (s s' : State) : Prop :=
  bridgeProcesses s' !! other = bridgeProcesses s !! other /\
  find other (users s') = find other (users s) /\
  (forall h c,
     bridgeProcesses s !! other = Some h ->
     procs s !! process h = Some c ->
     procs s' !! process h = Some c).

(** Two users, [ann] and [u1]; the worker of [ann] runs. *)
Definition ann_and_u1 : State :=
  mkState {[ann := mkHandle 0 (Some 100)]} [ann_record; u1] ∅
          [mkChild (Some 100) ann false false] [].

(** The records of the file, and of every copy a pending continuation will
    write back, are coupled. *)
Definition world_coupled (w : World) : Prop :=
  Forall coupled (users (state w)) /\
  Forall (fun t => Forall coupled (task_data t)) (pending w).

(** ** Starts and stops with other work in between *)

(** [kill] was called on the process object at position [p]. *)
Definition is_killed (p : nat) (s : State) : Prop :=
  exists c, procs s !! p = Some c /\ killed c = true.

(** The action runs the continuation of a start or of an update of the
    user: the only code that adds a handle for the user to the table. *)
Definition registers_for (userId : string) (w : World) (a : Action) : Prop :=
  match a with
  | Resume n _ =>
      match pending w !! n with
      | Some (AwaitStartRoute u) => id u = userId
      | Some (AwaitUpdateRoute u) => id u = userId
      | _ => False
      end
  | _ => False
  end.

(** None of the actions, run in turn from [w], is such a continuation. *)
Fixpoint no_registration (userId : string) (acts : list Action) (w : World)
    : Prop :=
  match acts with
  | [] => True
  | a :: acts' =>
      ~ registers_for userId w a /\ no_registration userId acts' (exec w a)
  end.

(** The statement that the table holds at most one handle per user, that
    whenever the continuation of a start is about to register a handle
    every handle the table then holds for the user has been retired (its
    process killed), and that the table holds exactly one handle for the
    user after a successful start. *)
Definition start_always_retires : Prop :=
  (forall (w : World) (userId : string),
     reachable w -> (length (handles_for userId (state w)) <= 1)%nat) /\
  (forall (w : World) (n : nat) (user : User) (env : Env) (h : Handle)
          (c : ChildProcess),
     reachable w ->
     pending w !! n = Some (AwaitStartRoute user) ->
     fst (startUserBridge_resume user env (state w)) = Returned true ->
     bridgeProcesses (state w) !! id user = Some h ->
     procs (state w) !! process h = Some c ->
     killed c = true) /\
  (forall (w : World) (n : nat) (user : User) (env : Env),
     reachable w ->
     pending w !! n = Some (AwaitStartRoute user) ->
     fst (startUserBridge_resume user env (state w)) = Returned true ->
     length (handles_for (id user) (state (exec w (Resume n env)))) = 1%nat).

(** The statement that once the continuation of a stop has run the table
    holds no handle for the user and the record reads stopped with a null
    pid, and that a second stop in succession changes nothing observable. *)
Definition stop_always_unregisters : Prop :=
  (forall (w : World) (n : nat) (data : list User) (userId : string)
          (user : User) (env : Env),
     reachable w ->
     pending w !! n = Some (AwaitStopRoute data userId user) ->
     outcome userId (state (exec w (Resume n env)))
       = (None, Some (stopped, pid_null))) /\
  (forall (userId : string) (user : User) (env : Env) (s : State),
     find userId (users s) = Some user ->
     observable (snd (stop userId env (snd (stop userId env s))))
       = observable (snd (stop userId env s))).

(** Two starts of [ann] were received; the continuation of the first has
    registered process 0, that of the second is pending. *)
Definition ann_second_start_pending : World :=
  run [ReqStart ann; ReqStart ann; Resume 0 (env_ok 100)] ann_created.

(** A start and a stop of [ann] were received; the continuation of the
    start has registered process 0, that of the stop is pending. *)
Definition ann_stop_overtaken : World :=
  run [ReqStart ann; ReqStop ann; Resume 0 (env_ok 100)] ann_created.
(** * Properties *)

(** ** Truthiness *)

Lemma truthy_JStr (k : string) : truthy (JStr k) = true <-> k ≠ "".
Proof.
  simpl. rewrite negb_true_iff. split.
  - intros H ->. discriminate.
  - intros H. apply String.eqb_neq. exact H.
Qed.

Lemma truthy_JBool (b : bool) : truthy (JBool b) = b.
Proof. reflexivity. Qed.

Lemma js_or_None (d : json) : js_or None d = d.
Proof. reflexivity. Qed.

(** ** Config materialisation *)

Lemma mcpServers_brave (user : User) :
  is_Some (mcpServers user !! "brave-search") <->
  truthy (braveEnabled user) = true /\ truthy (braveApiKey user) = true.
Proof.
  unfold mcpServers.
  destruct (truthy (braveEnabled user)), (truthy (braveApiKey user)),
    (truthy (weatherEnabled user)); simpl;
    rewrite ?lookup_insert_ne, ?lookup_insert_eq, ?lookup_empty by done;
    split; try (intros [x Hx]; discriminate); try (intros [? ?]; discriminate);
    eauto.
Qed.

Lemma mcpServers_weather (user : User) :
  is_Some (mcpServers user !! "weather") <-> truthy (weatherEnabled user) = true.
Proof.
  unfold mcpServers.
  destruct (truthy (braveEnabled user)), (truthy (braveApiKey user)),
    (truthy (weatherEnabled user)); simpl;
    rewrite ?lookup_insert_ne, ?lookup_insert_eq, ?lookup_empty by done;
    split; try (intros [x Hx]; discriminate); try discriminate; eauto.
Qed.

Lemma mcpServers_rss (user : User) :
  mcpServers user !! "rss-news" = Some (rss_descriptor (id user)).
Proof. unfold mcpServers. apply lookup_insert_eq. Qed.

Lemma mcpServers_weather_only (user : User) :
  truthy (braveEnabled user) = false ->
  truthy (weatherEnabled user) = true ->
  dom (mcpServers user) = ({["weather"; "rss-news"]} : gset string).
Proof.
  intros Hb Hw. unfold mcpServers. rewrite Hb, Hw. simpl.
  rewrite !dom_insert_L, dom_empty_L. set_solver.
Qed.

(** C6: [generateUserConfig] writes, under the user's config path, a map that
    holds ["brave-search"] exactly when both [braveEnabled] and [braveApiKey]
    are truthy (present and non-empty), holds ["weather"] exactly when
    [weatherEnabled] is truthy, always holds ["rss-news"] with a descriptor
    that depends on the user id only, and whose keys are exactly
    ["weather"] and ["rss-news"] when search is off and weather is on. *)
Theorem C6_generateUserConfig_capabilities (user : User) (s : State) :
  fst (generateUserConfig user true s) = Some (configPath (id user)) /\
  configs (snd (generateUserConfig user true s)) !! configPath (id user)
    = Some (mcpServers user) /\
  (is_Some (mcpServers user !! "brave-search") <->
     truthy (braveEnabled user) = true /\ truthy (braveApiKey user) = true) /\
  (is_Some (mcpServers user !! "weather") <->
     truthy (weatherEnabled user) = true) /\
  mcpServers user !! "rss-news" = Some (rss_descriptor (id user)) /\
  (truthy (braveEnabled user) = false ->
   truthy (weatherEnabled user) = true ->
   dom (mcpServers user) = ({["weather"; "rss-news"]} : gset string)).
Proof.
  split; [reflexivity|].
  split; [simpl; apply lookup_insert_eq|].
  split; [apply mcpServers_brave|].
  split; [apply mcpServers_weather|].
  split; [apply mcpServers_rss|].
  apply mcpServers_weather_only.
Qed.

Lemma C6_witness :
  dom (mcpServers u1) = ({["weather"; "rss-news"]} : gset string).
Proof.
  apply (C6_generateUserConfig_capabilities u1 initial); reflexivity.
Defined.

(** ** User creation *)

(** C9: when the body carries a truthy [name], [POST /api/users] appends one
    record with [status = 'stopped'] and [pid = null] whatever else the body
    holds (keys [status] and [pid] included), and every omitted field gets
    its default: empty endpoint, search and weather off, empty key, no
    feeds. *)
Theorem C9_created_user_enters_stopped (body : Body) (now : Z) (iso : string)
    (s : State) :
  js_not (body !! "name") = false ->
  exists user,
    post_users body now iso s
      = (UserCreated user, writeUsers (readUsers s ++ [user]) s) /\
    status user = stopped /\ pid user = pid_null /\
    (body !! "mcpEndpoint" = None -> mcpEndpoint user = JStr "") /\
    (body !! "braveEnabled" = None -> braveEnabled user = JBool false) /\
    (body !! "braveApiKey" = None -> braveApiKey user = JStr "") /\
    (body !! "weatherEnabled" = None -> weatherEnabled user = JBool false) /\
    (body !! "feeds" = None -> feeds user = JArr []).
Proof.
  intros Hname. unfold post_users. rewrite Hname.
  eexists. split; [reflexivity|]. simpl.
  repeat split; intros ->; reflexivity.
Qed.

Lemma C9_witness :
  exists user,
    post_users body_forged 1700000000000 "iso" initial
      = (UserCreated user, writeUsers (readUsers initial ++ [user]) initial) /\
    status user = stopped /\ pid user = pid_null /\
    (body_forged !! "mcpEndpoint" = None -> mcpEndpoint user = JStr "") /\
    (body_forged !! "braveEnabled" = None -> braveEnabled user = JBool false) /\
    (body_forged !! "braveApiKey" = None -> braveApiKey user = JStr "") /\
    (body_forged !! "weatherEnabled" = None -> weatherEnabled user = JBool false) /\
    (body_forged !! "feeds" = None -> feeds user = JArr []).
Proof.
  apply (C9_created_user_enters_stopped body_forged 1700000000000 "iso" initial).
  reflexivity.
Defined.

(** ** User list *)

Lemma masked_differ_only_in_key (a b : User) :
  a = b \/ differ_only_in_key a b -> masked a = masked b.
Proof.
  intros [->|(Heq & Ha & Hb)]; [reflexivity|].
  unfold masked. rewrite Ha, Hb.
  destruct a, b. unfold set_braveApiKey in *. simpl in *. congruence.
Qed.

(** C10: [GET /api/users] lists every stored record with its [braveApiKey]
    replaced by ['***'] when the stored key is non-empty and by [''] when it
    is empty, so two states whose records differ only in the value of a
    non-empty key give the same list. *)
Theorem C10_user_list_hides_key :
  (forall s, get_users s = masked <$> users s) /\
  (forall u, truthy (braveApiKey u) = true -> braveApiKey (masked u) = JStr "***") /\
  (forall u, truthy (braveApiKey u) = false -> braveApiKey (masked u) = JStr "") /\
  (forall u k, braveApiKey u = JStr k ->
     braveApiKey (masked u) = JStr (if String.eqb k "" then "" else "***")) /\
  (forall s1 s2,
     Forall2 (fun a b => a = b \/ differ_only_in_key a b) (users s1) (users s2) ->
     get_users s1 = get_users s2).
Proof.
  split; [reflexivity|].
  split; [intros u H; unfold masked; rewrite H; reflexivity|].
  split; [intros u H; unfold masked; rewrite H; reflexivity|].
  split.
  - intros u k H. unfold masked. rewrite H. simpl.
    destruct (String.eqb k ""); reflexivity.
  - intros s1 s2 H. unfold get_users, readUsers.
    induction H as [|a b l1 l2 Hab _ IH]; [reflexivity|].
    simpl. f_equal; [apply masked_differ_only_in_key, Hab | exact IH].
Qed.

Lemma C10_witness : get_users two_keys_a = get_users two_keys_b.
Proof.
  apply (proj2 (proj2 (proj2 (proj2 C10_user_list_hides_key)))).
  constructor; [|constructor].
  right. repeat split; reflexivity.
Defined.

(** ** Looking up and overwriting a record *)

Lemma find_id (userId : string) (l : list User) (u : User) :
  find userId l = Some u -> id u = userId.
Proof.
  induction l as [|x l IH]; simpl; [discriminate|].
  destruct (String.eqb (id x) userId) eqn:E; [|exact IH].
  intros [= <-]. apply String.eqb_eq, E.
Qed.

Lemma findIndex_find (userId : string) (l : list User) :
  findIndex userId l = None <-> find userId l = None.
Proof.
  induction l as [|x l IH]; simpl; [tauto|].
  destruct (String.eqb (id x) userId); [split; discriminate|].
  destruct (findIndex userId l); simpl.
  - split; [discriminate|]. intros H. apply IH in H. discriminate.
  - split; [intros _; apply IH; reflexivity|reflexivity].
Qed.

Lemma findIndex_lookup (userId : string) (l : list User) (idx : nat) :
  findIndex userId l = Some idx -> l !! idx = find userId l.
Proof.
  revert idx. induction l as [|x l IH]; simpl; intros idx; [discriminate|].
  destruct (String.eqb (id x) userId); [intros [= <-]; reflexivity|].
  destruct (findIndex userId l) as [i|]; simpl; [|discriminate].
  intros [= <-]. simpl. apply IH. reflexivity.
Qed.

Lemma find_Some_findIndex (userId : string) (l : list User) (u : User) :
  find userId l = Some u ->
  exists idx, findIndex userId l = Some idx /\ l !! idx = Some u.
Proof.
  intros H. destruct (findIndex userId l) as [idx|] eqn:E.
  - exists idx. split; [reflexivity|]. rewrite (findIndex_lookup _ _ _ E). exact H.
  - apply findIndex_find in E. congruence.
Qed.

Lemma find_alter_findIndex (f : User -> User) (userId : string)
    (l : list User) (idx : nat) :
  (forall u, id (f u) = id u) ->
  findIndex userId l = Some idx ->
  find userId (alter f idx l) = f <$> find userId l.
Proof.
  intros Hf. revert idx. induction l as [|x l IH]; simpl; intros idx; [discriminate|].
  destruct (String.eqb (id x) userId) eqn:E.
  - intros [= <-]. simpl. rewrite Hf, E. reflexivity.
  - destruct (findIndex userId l) as [i|]; simpl; [|discriminate].
    intros [= <-]. simpl. rewrite E. apply IH. reflexivity.
Qed.

Lemma find_alter_other (f : User -> User) (userId other : string)
    (l : list User) (idx : nat) :
  (forall u, id (f u) = id u) ->
  findIndex userId l = Some idx -> other ≠ userId ->
  find other (alter f idx l) = find other l.
Proof.
  intros Hf. revert idx. induction l as [|x l IH]; simpl; intros idx; [discriminate|].
  destruct (String.eqb (id x) userId) eqn:E.
  - intros [= <-] Hne. simpl. rewrite Hf.
    apply String.eqb_eq in E.
    destruct (String.eqb (id x) other) eqn:E'; [|reflexivity].
    apply String.eqb_eq in E'. congruence.
  - destruct (findIndex userId l) as [i|]; simpl; [|discriminate].
    intros [= <-] Hne. simpl.
    destruct (String.eqb (id x) other); [reflexivity|].
    apply IH; [reflexivity|exact Hne].
Qed.

Lemma find_mark (userId : string) (st : Status) (p : pidval) (l : list User) :
  find userId (mark userId st p l) = set_status_pid st p <$> find userId l.
Proof.
  unfold mark. destruct (findIndex userId l) as [idx|] eqn:E.
  - apply find_alter_findIndex; [reflexivity|exact E].
  - apply findIndex_find in E. rewrite E. reflexivity.
Qed.

Lemma find_mark_other (userId other : string) (st : Status) (p : pidval)
    (l : list User) :
  other ≠ userId -> find other (mark userId st p l) = find other l.
Proof.
  intros Hne. unfold mark. destruct (findIndex userId l) as [idx|] eqn:E;
    [|reflexivity].
  apply (find_alter_other _ userId); [reflexivity|exact E|exact Hne].
Qed.

Lemma findIndex_alter (f : User -> User) (other : string) (l : list User)
    (idx : nat) :
  (forall u, id (f u) = id u) ->
  findIndex other (alter f idx l) = findIndex other l.
Proof.
  intros Hf. revert idx. induction l as [|x l IH]; intros idx; [reflexivity|].
  destruct idx as [|i]; simpl.
  - rewrite Hf. reflexivity.
  - specialize (IH i). unfold alter in IH. rewrite IH. reflexivity.
Qed.

Lemma findIndex_mark (userId other : string) (st : Status) (p : pidval)
    (l : list User) :
  findIndex other (mark userId st p l) = findIndex other l.
Proof.
  unfold mark. destruct (findIndex userId l) as [idx|]; [|reflexivity].
  apply findIndex_alter. reflexivity.
Qed.

Lemma mark_id (userId : string) (st : Status) (p : pidval) (l : list User)
    (u : User) :
  find userId l = Some u -> status u = st -> pid u = p -> mark userId st p l = l.
Proof.
  intros Hf Hs Hp. unfold mark.
  destruct (find_Some_findIndex _ _ _ Hf) as (idx & -> & Hl).
  apply list_eq. intros i. destruct (decide (i = idx)) as [->|Hne].
  - rewrite list_lookup_alter_eq, Hl. simpl. f_equal.
    destruct u. simpl in *. subst. reflexivity.
  - rewrite list_lookup_alter_ne by congruence. reflexivity.
Qed.

Lemma mark_mark (userId : string) (st : Status) (p : pidval) (l : list User) :
  mark userId st p (mark userId st p l) = mark userId st p l.
Proof.
  destruct (find userId l) as [u|] eqn:E.
  - eapply mark_id.
    + rewrite find_mark, E. reflexivity.
    + reflexivity.
    + reflexivity.
  - apply findIndex_find in E. unfold mark at 1. rewrite findIndex_mark, E.
    reflexivity.
Qed.

(** ** What each segment does to the state *)

Lemma killUserBridge_users (userId : string) (s : State) :
  users (killUserBridge userId s) = users s.
Proof. unfold killUserBridge. destruct (bridgeProcesses s !! userId); reflexivity. Qed.

Lemma killUserBridge_configs (userId : string) (s : State) :
  configs (killUserBridge userId s) = configs s.
Proof. unfold killUserBridge. destruct (bridgeProcesses s !! userId); reflexivity. Qed.

Lemma killUserBridge_registry (userId : string) (s : State) :
  bridgeProcesses (killUserBridge userId s) = delete userId (bridgeProcesses s).
Proof.
  unfold killUserBridge. destruct (bridgeProcesses s !! userId) eqn:E; simpl.
  - reflexivity.
  - symmetry. apply delete_id. exact E.
Qed.

Lemma killUserBridge_procs (userId : string) (s : State) :
  procs (killUserBridge userId s) =
  match bridgeProcesses s !! userId with
  | Some h => alter mark_killed (process h) (procs s)
  | None => procs s
  end.
Proof. unfold killUserBridge. destruct (bridgeProcesses s !! userId); reflexivity. Qed.

Lemma killUserBridge_procs_length (userId : string) (s : State) :
  length (procs (killUserBridge userId s)) = length (procs s).
Proof.
  rewrite killUserBridge_procs. destruct (bridgeProcesses s !! userId);
    [apply length_alter|reflexivity].
Qed.

Lemma killUserBridge_trace (userId : string) (s : State) :
  trace (killUserBridge userId s) =
  trace s ++ kill_events userId s ++ [EvSweep userId].
Proof.
  unfold killUserBridge, kill_events.
  destruct (bridgeProcesses s !! userId); simpl; [|reflexivity].
  rewrite <- app_assoc. reflexivity.
Qed.

Lemma killUserBridge_unregistered (userId : string) (s : State) :
  bridgeProcesses s !! userId = None ->
  killUserBridge userId s = log (EvSweep userId) s.
Proof. intros H. unfold killUserBridge. rewrite H. reflexivity. Qed.

Lemma update_status_users (userId : string) (st : Status) (p : pidval)
    (s : State) :
  users (update_status userId st p s) = mark userId st p (users s).
Proof.
  unfold update_status, mark, readUsers.
  destruct (findIndex userId (users s)); reflexivity.
Qed.

Lemma update_status_registry (userId : string) (st : Status) (p : pidval)
    (s : State) :
  bridgeProcesses (update_status userId st p s) = bridgeProcesses s.
Proof. unfold update_status. destruct (findIndex _ _); reflexivity. Qed.

Lemma update_status_procs (userId : string) (st : Status) (p : pidval)
    (s : State) :
  procs (update_status userId st p s) = procs s.
Proof. unfold update_status. destruct (findIndex _ _); reflexivity. Qed.

Lemma update_status_trace (userId : string) (st : Status) (p : pidval)
    (s : State) :
  trace (update_status userId st p s) =
  trace s ++ match findIndex userId (users s) with
             | Some _ => [EvWriteUsers]
             | None => []
             end.
Proof.
  unfold update_status, readUsers. destruct (findIndex _ _); simpl.
  - reflexivity.
  - symmetry. apply app_nil_r.
Qed.

Lemma update_status_configs (userId : string) (st : Status) (p : pidval)
    (s : State) :
  configs (update_status userId st p s) = configs s.
Proof. unfold update_status. destruct (findIndex _ _); reflexivity. Qed.

Lemma writeUsers_users (data : list User) (s : State) :
  users (writeUsers data s) = data.
Proof. reflexivity. Qed.

Lemma writeUsers_registry (data : list User) (s : State) :
  bridgeProcesses (writeUsers data s) = bridgeProcesses s.
Proof. reflexivity. Qed.

Lemma writeUsers_observable (data : list User) (s : State) :
  observable (writeUsers data s)
  = (bridgeProcesses s, data, configs s, procs s).
Proof. reflexivity. Qed.

Lemma writeUsers_trace (data : list User) (s : State) :
  trace (writeUsers data s) = trace s ++ [EvWriteUsers].
Proof. reflexivity. Qed.

#[local] Arguments killUserBridge : simpl never.
#[local] Arguments writeUsers : simpl never.
#[local] Arguments mark : simpl never.

Lemma start_eq (userId : string) (user : User) (env : Env) (s : State) :
  find userId (users s) = Some user ->
  truthy (mcpEndpoint user) = true ->
  start userId env s =
  (match fst (startUserBridge user env s) with
   | Returned _ => BridgeStarted (name user)
   | Threw => Rejected
   end, snd (startUserBridge user env s)).
Proof.
  intros Hf He. unfold start, post_user_start, readUsers. rewrite Hf, He. simpl.
  unfold startUserBridge.
  destruct (startUserBridge_resume user env (killUserBridge (id user) s))
    as [[b|] s']; reflexivity.
Qed.

Lemma stop_eq (userId : string) (user : User) (env : Env) (s : State) :
  find userId (users s) = Some user ->
  stop userId env s =
  (BridgeStopped (name user),
   writeUsers (mark userId stopped pid_null (users s)) (killUserBridge userId s)).
Proof.
  intros Hf. unfold stop, post_user_stop, readUsers. rewrite Hf. simpl.
  rewrite (find_id _ _ _ Hf). unfold mark.
  destruct (find_Some_findIndex _ _ _ Hf) as (idx & -> & _). reflexivity.
Qed.

Lemma destroy_eq (userId : string) (idx : nat) (env : Env) (s : State) :
  findIndex userId (users s) = Some idx ->
  destroy userId env s =
  (UserDeleted,
   writeUsers (splice1 idx (users s))
     (unlink_config userId (env_unlink_ok env) (killUserBridge userId s))).
Proof.
  intros Hf. unfold destroy, delete_user, readUsers. rewrite Hf. reflexivity.
Qed.

(** ** Start without an endpoint *)

(** C3: for a stored user whose [mcpEndpoint] is absent or empty (falsy),
    the start request is answered with the error ["MCP Endpoint required"],
    queues nothing, and leaves the whole state as it was: no call to the
    environment (no kill, no sweep, no spawn), the same table entry and the
    same stored record. *)
Theorem C3_start_without_endpoint (userId : string) (user : User) (env : Env)
    (w : World) :
  find userId (users (state w)) = Some user ->
  truthy (mcpEndpoint user) = false ->
  let s := state w in
  let s' := snd (start userId env s) in
  post_user_start userId s = (inl (Error 400 "MCP Endpoint required"), s) /\
  fst (start userId env s) = Error 400 "MCP Endpoint required" /\
  exec w (ReqStart userId)
    = mkWorld s (pending w) (responses w ++ [Error 400 "MCP Endpoint required"]) /\
  s' = s /\ trace s' = trace s /\ procs s' = procs s /\
  bridgeProcesses s' !! userId = bridgeProcesses s !! userId /\
  find userId (users s') = Some user.
Proof.
  intros Hf He s s'. subst s s'.
  assert (Hp : post_user_start userId (state w)
               = (inl (Error 400 "MCP Endpoint required"), state w)).
  { unfold post_user_start, readUsers. rewrite Hf, He. reflexivity. }
  unfold start. simpl. rewrite Hp. simpl. repeat split; try reflexivity.
  exact Hf.
Qed.

Lemma C3_witness :
  snd (start "u2" (env_ok 7) (state u2_registered)) = state u2_registered.
Proof.
  apply (C3_start_without_endpoint "u2" u2 (env_ok 7) u2_registered);
    reflexivity.
Defined.

(** [startUserBridge] itself, reached with such a user (an update that
    empties the endpoint of a running user), retires the handle before it
    looks at the endpoint, and then returns [false]. *)
Lemma startUserBridge_without_endpoint (user : User) (env : Env) (s : State) :
  truthy (mcpEndpoint user) = false ->
  startUserBridge user env s = (Returned false, killUserBridge (id user) s).
Proof.
  intros He. unfold startUserBridge, startUserBridge_resume. rewrite He.
  reflexivity.
Qed.

(** ** Stop *)

(** A stop of a stored user whose two segments run back to back answers
    success and leaves no entry for the user in the table and
    [status = 'stopped'], [pid = null] in the record; with no handle
    registered the table and the processes are untouched, and a second such
    stop in succession changes nothing observable. *)
Lemma stop_uninterrupted (userId : string) (user : User) (env : Env)
    (s : State) :
  find userId (users s) = Some user ->
  let r := stop userId env s in
  fst r = BridgeStopped (name user) /\
  outcome userId (snd r) = (None, Some (stopped, pid_null)) /\
  (bridgeProcesses s !! userId = None ->
     bridgeProcesses (snd r) = bridgeProcesses s /\
     procs (snd r) = procs s /\ configs (snd r) = configs s /\
     users (snd r) = mark userId stopped pid_null (users s)) /\
  fst (stop userId env (snd r)) = BridgeStopped (name user) /\
  observable (snd (stop userId env (snd r))) = observable (snd r).
Proof.
  intros Hf r. subst r. rewrite (stop_eq _ _ _ _ Hf). cbn [fst snd].
  assert (Hf' : find userId (mark userId stopped pid_null (users s))
                = Some (set_status_pid stopped pid_null user)).
  { rewrite find_mark, Hf. reflexivity. }
  split; [reflexivity|]. split.
  { unfold outcome.
    rewrite writeUsers_registry, writeUsers_users, killUserBridge_registry.
    rewrite lookup_delete_eq, Hf'. reflexivity. }
  split.
  { intros Hn. rewrite (killUserBridge_unregistered _ _ Hn).
    repeat split; reflexivity. }
  set (s1 := writeUsers _ _).
  assert (Hf1 : find userId (users s1) = Some (set_status_pid stopped pid_null user))
    by exact Hf'.
  rewrite (stop_eq _ _ _ _ Hf1). cbn [fst snd]. split; [reflexivity|].
  assert (Hn : bridgeProcesses s1 !! userId = None).
  { subst s1. rewrite writeUsers_registry, killUserBridge_registry.
    apply lookup_delete_eq. }
  rewrite (killUserBridge_unregistered _ _ Hn), writeUsers_observable.
  subst s1. rewrite writeUsers_users, mark_mark. reflexivity.
Qed.

(** ** Deletion *)

Lemma findIndex_lt (userId : string) (l : list User) (idx : nat) :
  findIndex userId l = Some idx -> (idx < length l)%nat.
Proof.
  intros H. apply lookup_lt_is_Some. rewrite (findIndex_lookup _ _ _ H).
  destruct (find userId l) eqn:E; [eauto|].
  apply findIndex_find in E. congruence.
Qed.

Lemma splice1_length (idx : nat) (l : list User) :
  (idx < length l)%nat -> length (splice1 idx l) = pred (length l).
Proof.
  intros H. unfold splice1. rewrite length_app, length_take, length_drop. lia.
Qed.

Lemma find_not_elem (userId : string) (l : list User) :
  userId ∉ id <$> l -> find userId l = None.
Proof.
  induction l as [|x l IH]; simpl; [reflexivity|].
  intros H. apply not_elem_of_cons in H as [Hx Hl].
  destruct (String.eqb (id x) userId) eqn:E.
  - apply String.eqb_eq in E. congruence.
  - apply IH, Hl.
Qed.

Lemma find_splice1 (userId : string) (l : list User) (idx : nat) :
  NoDup (id <$> l) ->
  findIndex userId l = Some idx ->
  find userId (splice1 idx l) = None.
Proof.
  revert idx. induction l as [|x l IH]; simpl; intros idx Hnd; [discriminate|].
  apply NoDup_cons in Hnd as [Hx Hnd].
  destruct (String.eqb (id x) userId) eqn:E.
  - intros [= <-]. unfold splice1. simpl. rewrite drop_0.
    apply String.eqb_eq in E. subst userId. apply find_not_elem, Hx.
  - destruct (findIndex userId l) as [i|] eqn:Ei; simpl; [|discriminate].
    intros [= <-]. unfold splice1. simpl. rewrite E.
    apply (IH i Hnd). reflexivity.
Qed.

Lemma unlink_config_trace (userId : string) (b : bool) (s : State) :
  trace (unlink_config userId b s) =
  trace s ++ [EvUnlink (configPath userId)
                (b && bool_decide (is_Some (configs s !! configPath userId)))].
Proof. unfold unlink_config. destruct (b && _); reflexivity. Qed.

Lemma unlink_config_registry (userId : string) (b : bool) (s : State) :
  bridgeProcesses (unlink_config userId b s) = bridgeProcesses s.
Proof. unfold unlink_config. destruct (b && _); reflexivity. Qed.

Lemma unlink_config_configs (userId : string) (b : bool) (s : State) :
  configs (unlink_config userId b s) =
  if b && bool_decide (is_Some (configs s !! configPath userId))
  then delete (configPath userId) (configs s) else configs s.
Proof. unfold unlink_config. destruct (b && _); reflexivity. Qed.

(** C7: deleting a stored user calls the environment in this order and no
    other: kill of the registered process (if any) and sweep (the stop),
    then [unlink] of the user's config file, then the write of [users.json]
    without the record.  Whether or not [unlink] succeeds the answer is
    success and the record is removed; the table has no entry for the user,
    and when [unlink] succeeds the config file is gone before the record. *)
Theorem C7_destroy_order (userId : string) (idx : nat) (env : Env) (s : State) :
  findIndex userId (users s) = Some idx ->
  let r := destroy userId env s in
  let ok := env_unlink_ok env
            && bool_decide (is_Some (configs s !! configPath userId)) in
  fst r = UserDeleted /\
  trace (snd r) =
    trace s ++ kill_events userId s
      ++ [EvSweep userId; EvUnlink (configPath userId) ok; EvWriteUsers] /\
  bridgeProcesses (snd r) !! userId = None /\
  users (snd r) = splice1 idx (users s) /\
  length (users (snd r)) = pred (length (users s)) /\
  (NoDup (id <$> users s) -> find userId (users (snd r)) = None) /\
  (ok = true -> configs (snd r) !! configPath userId = None).
Proof.
  intros Hf r ok. subst r. rewrite (destroy_eq _ _ _ _ Hf). cbn [fst snd].
  split; [reflexivity|]. split.
  { rewrite writeUsers_trace, unlink_config_trace, killUserBridge_trace.
    rewrite killUserBridge_configs. fold ok.
    rewrite <- !app_assoc. reflexivity. }
  split.
  { rewrite writeUsers_registry, unlink_config_registry, killUserBridge_registry.
    apply lookup_delete_eq. }
  rewrite writeUsers_users.
  split; [reflexivity|]. split.
  { apply splice1_length. eapply findIndex_lt, Hf. }
  split.
  { intros Hnd. apply find_splice1; assumption. }
  intros Hok.
  change (configs (writeUsers ?d ?s0)) with (configs s0).
  rewrite unlink_config_configs, killUserBridge_configs. fold ok. rewrite Hok.
  apply lookup_delete_eq.
Qed.

Lemma C7_witness :
  fst (destroy "u2" (mkEnv true SpawnThrows false) (state u2_registered))
    = UserDeleted /\
  trace (snd (destroy "u2" (mkEnv true SpawnThrows false) (state u2_registered)))
    = [EvKill 0; EvSweep "u2"; EvUnlink "config_u2.json" false; EvWriteUsers] /\
  users (snd (destroy "u2" (mkEnv true SpawnThrows false) (state u2_registered)))
    = [].
Proof.
  pose proof (C7_destroy_order "u2" 0 (mkEnv true SpawnThrows false)
                (state u2_registered) eq_refl) as (H1 & H2 & _ & H4 & _).
  split; [exact H1|]. split; [exact H2|exact H4].
Defined.

(** ** Start *)

Lemma startUserBridge_resume_launch (user : User) (env : Env) (s : State) :
  truthy (mcpEndpoint user) = true ->
  env_config_write_ok env = true ->
  env_spawn env ≠ SpawnThrows ->
  let r := startUserBridge_resume user env s in
  let ppid := spawn_pid (env_spawn env) in
  fst r = Returned true /\
  users (snd r) = mark (id user) running (pidval_of ppid) (users s) /\
  bridgeProcesses (snd r)
    = <[id user := mkHandle (length (procs s)) ppid]> (bridgeProcesses s) /\
  procs (snd r) = procs s ++ [mkChild ppid (id user) false false] /\
  configs (snd r) = <[configPath (id user) := mcpServers user]> (configs s) /\
  trace (snd r) =
    trace s ++ [EvWriteConfig (configPath (id user)) true; EvSpawn (env_spawn env)]
      ++ match findIndex (id user) (users s) with
         | Some _ => [EvWriteUsers]
         | None => []
         end.
Proof.
  intros He Hw Hs r ppid. subst r ppid.
  unfold startUserBridge_resume, generateUserConfig. rewrite He, Hw.
  cbn [negb fst snd].
  destruct (env_spawn env) as [| |n] eqn:Eo; [congruence| |];
    cbn [fst snd]; rewrite update_status_users, update_status_registry,
      update_status_procs, update_status_configs, update_status_trace;
    (repeat split; try reflexivity);
    simpl; rewrite <- !app_assoc; reflexivity.
Qed.

Lemma startUserBridge_resume_failure (user : User) (env : Env) (s : State) :
  truthy (mcpEndpoint user) = false \/
  env_config_write_ok env = false \/
  env_spawn env = SpawnThrows ->
  let r := startUserBridge_resume user env s in
  fst r ≠ Returned true /\
  (truthy (mcpEndpoint user) = true -> fst r = Threw) /\
  users (snd r) = users s /\
  bridgeProcesses (snd r) = bridgeProcesses s /\
  procs (snd r) = procs s.
Proof.
  intros H r. subst r. unfold startUserBridge_resume, generateUserConfig.
  destruct (truthy (mcpEndpoint user)) eqn:He; cbn [negb].
  - destruct (env_config_write_ok env) eqn:Hw.
    + destruct H as [H|[H|H]]; try discriminate. rewrite H.
      cbn [fst snd]. repeat split; try reflexivity. discriminate.
    + cbn [fst snd]. repeat split; try reflexivity. discriminate.
  - cbn [fst snd]. repeat split; try reflexivity; discriminate.
Qed.




(** ** Termination notifications *)

Lemma on_exit_registry (p : nat) (c : ChildProcess) (s : State) :
  procs s !! p = Some c ->
  bridgeProcesses (on_exit p s) = delete (child_user c) (bridgeProcesses s).
Proof.
  intros H. unfold on_exit. rewrite H, update_status_registry. reflexivity.
Qed.

Lemma on_exit_users (p : nat) (c : ChildProcess) (s : State) :
  procs s !! p = Some c ->
  users (on_exit p s) = mark (child_user c) stopped pid_null (users s).
Proof.
  intros H. unfold on_exit. rewrite H, update_status_users. reflexivity.
Qed.

Lemma on_exit_procs (p : nat) (c : ChildProcess) (s : State) :
  procs s !! p = Some c ->
  procs (on_exit p s) = alter mark_exited p (procs s).
Proof.
  intros H. unfold on_exit. rewrite H, update_status_procs. reflexivity.
Qed.

(** C2 (as the code has it): on the termination notification of process [p]
    launched for a user, a handle of [p] still registered for that user is
    removed; the user's record, when it exists, is set to
    [status = 'stopped'], [pid = null]; when the table has no entry for the
    user the table is left as it is, and the file is left as it is when the
    record already reads stopped with a null pid or does not exist; entries
    and records of other users are not touched. *)
Theorem C2_exit_reconciliation (p : nat) (c : ChildProcess) (s : State) :
  procs s !! p = Some c ->
  let s' := on_exit p s in
  let userId := child_user c in
  (registered_as p c s -> bridgeProcesses s' !! userId = None) /\
  find userId (users s')
    = set_status_pid stopped pid_null <$> find userId (users s) /\
  (bridgeProcesses s !! userId = None -> bridgeProcesses s' = bridgeProcesses s) /\
  (forall u, find userId (users s) = Some u ->
     status u = stopped -> pid u = pid_null -> users s' = users s) /\
  (find userId (users s) = None -> users s' = users s) /\
  (forall other, other ≠ userId ->
     bridgeProcesses s' !! other = bridgeProcesses s !! other /\
     find other (users s') = find other (users s)).
Proof.
  intros Hp s' userId. subst s' userId.
  rewrite (on_exit_registry _ _ _ Hp), (on_exit_users _ _ _ Hp).
  split; [intros _; apply lookup_delete_eq|].
  split; [apply find_mark|].
  split; [intros Hn; apply delete_id, Hn|].
  split; [intros u Hu Hs Hpid; eapply mark_id; eassumption|].
  split.
  { intros Hn. apply findIndex_find in Hn. unfold mark. rewrite Hn. reflexivity. }
  intros other Hne. split.
  - apply lookup_delete_ne. congruence.
  - apply find_mark_other, Hne.
Qed.

Lemma C2_witness :
  find ann (users (on_exit 0 (state ann_running)))
    = set_status_pid stopped pid_null <$> find ann (users (state ann_running)).
Proof.
  apply (C2_exit_reconciliation 0 (mkChild (Some 100) ann false false)
           (state ann_running)).
  reflexivity.
Defined.

(** The statement of C2 as written fails: while a stop waits for its sweep
    the table has no entry for the user and the record still reads running;
    the notification then rewrites the record. *)
Lemma C2_counterexample : ~ exit_reconciliation_claim.
Proof.
  intros H.
  assert (Hr : reachable ann_stopping).
  { exists [ReqCreate body_ann 1700000000000 "2023-11-14T22:13:20.000Z";
            ReqStart ann; Resume 0 (env_ok 100); ReqStop ann]. reflexivity. }
  destruct (H ann_stopping 0%nat (mkChild (Some 100) ann true false) Hr
              eq_refl eq_refl) as [_ Hn].
  assert (Hnot : ~ registered_as 0 (mkChild (Some 100) ann true false)
                     (state ann_stopping)).
  { intros (h & Hh & _). vm_compute in Hh. discriminate Hh. }
  destruct (Hn Hnot) as [_ Hu]. vm_compute in Hu. discriminate Hu.
Qed.

(** A notification that arrives after the user was started again removes the
    handle of the new process and marks the record stopped, while the new
    process is neither killed nor terminated. *)
Lemma stale_exit_drops_new_handle :
  let s := state ann_restarted in
  bridgeProcesses s !! ann = Some (mkHandle 1 (Some 200)) /\
  can_exit 0 s = true /\
  bridgeProcesses (on_exit 0 s) !! ann = None /\
  outcome ann (on_exit 0 s) = (None, Some (stopped, pid_null)) /\
  procs (on_exit 0 s) !! 1%nat = Some (mkChild (Some 200) ann false false).
Proof. vm_compute. repeat split; reflexivity. Qed.

(** ** The table of bridge processes *)

Lemma handles_for_lookup (userId : string) (s : State) :
  handles_for userId s =
  match bridgeProcesses s !! userId with
  | Some h => [h]
  | None => []
  end.
Proof.
  unfold handles_for. generalize (bridgeProcesses s). clear s.
  intros m.
  assert (Hperm : snd <$> filter (fun kv : string * Handle => kv.1 = userId)
                            (map_to_list m)
                  ≡ₚ match m !! userId with Some h => [h] | None => [] end).
  { induction m as [|i x m Hi _ IH] using map_first_key_ind.
    - rewrite map_to_list_empty, lookup_empty. reflexivity.
    - rewrite map_to_list_insert by exact Hi.
      rewrite filter_cons. simpl. destruct (decide (i = userId)) as [->|Hne].
      + rewrite lookup_insert_eq. simpl. rewrite IH, Hi. reflexivity.
      + rewrite lookup_insert_ne by exact Hne. exact IH. }
  destruct (m !! userId).
  - apply Permutation_singleton_r in Hperm. exact Hperm.
  - apply Permutation_nil_r in Hperm. exact Hperm.
Qed.

Lemma handles_for_at_most_one (userId : string) (s : State) :
  (length (handles_for userId s) <= 1)%nat.
Proof.
  rewrite handles_for_lookup. destruct (bridgeProcesses s !! userId); simpl; lia.
Qed.

Lemma registry_wf_ext (s s' : State) :
  bridgeProcesses s' = bridgeProcesses s ->
  procs s' = procs s ->
  registry_wf s -> registry_wf s'.
Proof. unfold registry_wf. intros -> ->. auto. Qed.

Lemma registry_wf_retire (f : ChildProcess -> ChildProcess) (userId : string)
    (p : nat) (s s' : State) :
  (forall c, child_user (f c) = child_user c) ->
  (forall c, procs s !! p = Some c -> child_user c = userId) ->
  bridgeProcesses s' = delete userId (bridgeProcesses s) ->
  procs s' = alter f p (procs s) ->
  registry_wf s -> registry_wf s'.
Proof.
  intros Hf Hp Hb Hps Hwf other h Hh.
  rewrite Hb in Hh. apply lookup_delete_Some in Hh as [Hne Hh].
  destruct (Hwf _ _ Hh) as (c & Hc & Hu & Hrest).
  exists c. split; [|split; [exact Hu|exact Hrest]].
  rewrite Hps. rewrite list_lookup_alter_ne; [exact Hc|].
  intros Hpp. apply Hne. rewrite <- Hu. symmetry. apply Hp. rewrite Hpp. exact Hc.
Qed.

Lemma killUserBridge_wf (userId : string) (s : State) :
  registry_wf s -> registry_wf (killUserBridge userId s).
Proof.
  intros Hwf. destruct (bridgeProcesses s !! userId) as [h|] eqn:E.
  - apply (registry_wf_retire mark_killed userId (process h) s).
    + reflexivity.
    + intros c Hc. destruct (Hwf _ _ E) as (c' & Hc' & Hu & _). congruence.
    + apply killUserBridge_registry.
    + rewrite killUserBridge_procs, E. reflexivity.
    + exact Hwf.
  - rewrite (killUserBridge_unregistered _ _ E).
    eapply registry_wf_ext; [| |exact Hwf]; reflexivity.
Qed.

Lemma on_exit_wf (p : nat) (s : State) :
  registry_wf s -> registry_wf (on_exit p s).
Proof.
  intros Hwf. destruct (procs s !! p) as [c|] eqn:E.
  - apply (registry_wf_retire mark_exited (child_user c) p s).
    + reflexivity.
    + intros c' Hc'. congruence.
    + apply (on_exit_registry _ _ _ E).
    + apply (on_exit_procs _ _ _ E).
    + exact Hwf.
  - unfold on_exit. rewrite E. exact Hwf.
Qed.

Lemma startUserBridge_resume_wf (user : User) (env : Env) (s : State) :
  registry_wf s -> registry_wf (snd (startUserBridge_resume user env s)).
Proof.
  intros Hwf.
  assert (Hcases :
    (truthy (mcpEndpoint user) = false \/ env_config_write_ok env = false \/
     env_spawn env = SpawnThrows) \/
    (truthy (mcpEndpoint user) = true /\ env_config_write_ok env = true /\
     env_spawn env ≠ SpawnThrows)).
  { destruct (truthy (mcpEndpoint user)), (env_config_write_ok env),
      (env_spawn env); auto; right; repeat split; discriminate. }
  destruct Hcases as [Hfail|(He & Hw & Hs)].
  - eapply registry_wf_ext; [| |exact Hwf];
      apply startUserBridge_resume_failure; exact Hfail.
  - destruct (startUserBridge_resume_launch user env s He Hw Hs)
      as (_ & _ & Hb & Hp & _).
    intros other h Hh. rewrite Hb in Hh. rewrite Hp.
    apply lookup_insert_Some in Hh as [[<- <-]|[Hne Hh]].
    + eexists. split; [apply list_lookup_middle; reflexivity|].
      repeat split; reflexivity.
    + destruct (Hwf _ _ Hh) as (c & Hc & Hrest).
      exists c. split; [|exact Hrest].
      apply lookup_app_l_Some, Hc.
Qed.

Lemma resume_wf (t : Task) (env : Env) (s : State) :
  registry_wf s -> registry_wf (snd (resume t env s)).
Proof.
  intros Hwf. destruct t as [user|user|data userId user|data idx userId];
    unfold resume.
  - pose proof (startUserBridge_resume_wf user env s Hwf) as H.
    destruct (startUserBridge_resume user env s) as [[b|] s']; exact H.
  - pose proof (startUserBridge_resume_wf user env s Hwf) as H.
    destruct (startUserBridge_resume user env s) as [[b|] s']; exact H.
  - destruct (findIndex userId data); [|exact Hwf].
    eapply registry_wf_ext; [| |exact Hwf]; reflexivity.
  - eapply registry_wf_ext; [| |exact Hwf]; cbn [snd].
    + rewrite writeUsers_registry. apply unlink_config_registry.
    + unfold unlink_config. destruct (_ && _); reflexivity.
Qed.

Lemma enter_wf (r : (Response + Task) * State) (w : World) :
  registry_wf (snd r) -> registry_wf (state (enter r w)).
Proof. destruct r as [[resp|t] s]; simpl; auto. Qed.

Lemma exec_wf (w : World) (a : Action) :
  registry_wf (state w) -> registry_wf (state (exec w a)).
Proof.
  intros Hwf. destruct a as [body now iso|userId body|userId|userId|userId|n env|p];
    unfold exec.
  - unfold post_users. destruct (js_not _); [exact Hwf|].
    eapply registry_wf_ext; [| |exact Hwf]; reflexivity.
  - apply enter_wf. unfold put_user, readUsers.
    destruct (findIndex userId (users (state w))) as [idx|]; [|exact Hwf].
    assert (Hw : registry_wf
                   (writeUsers (alter (assign_fields body) idx (users (state w)))
                      (state w)))
      by (eapply registry_wf_ext; [| |exact Hwf]; reflexivity).
    destruct (alter _ _ _ !! idx) as [u|]; [|exact Hw].
    destruct (status u); [exact Hw|]. apply killUserBridge_wf, Hw.
  - apply enter_wf. unfold delete_user, readUsers.
    destruct (findIndex userId (users (state w))); [|exact Hwf].
    apply killUserBridge_wf, Hwf.
  - apply enter_wf. unfold post_user_start, readUsers.
    destruct (find userId (users (state w))) as [user|]; [|exact Hwf].
    destruct (negb _); [exact Hwf|]. apply killUserBridge_wf, Hwf.
  - apply enter_wf. unfold post_user_stop, readUsers.
    destruct (find userId (users (state w))) as [user|]; [|exact Hwf].
    apply killUserBridge_wf, Hwf.
  - destruct (pending w !! n) as [t|]; [|exact Hwf].
    pose proof (resume_wf t env (state w) Hwf) as H.
    destruct (resume t env (state w)) as [resp s']. exact H.
  - destruct (can_exit p (state w)); [|exact Hwf]. apply on_exit_wf, Hwf.
Qed.

Lemma run_snoc (acts : list Action) (a : Action) (w : World) :
  run (acts ++ [a]) w = exec (run acts w) a.
Proof. unfold run. apply foldl_snoc. Qed.

Lemma reachable_registry_wf (w : World) :
  reachable w -> registry_wf (state w).
Proof.
  intros [acts ->]. induction acts as [|a acts IH] using rev_ind.
  - intros userId h Hh. simpl in Hh. rewrite lookup_empty in Hh. discriminate.
  - rewrite run_snoc. apply exec_wf, IH.
Qed.

Lemma start_env_cases (user : User) (env : Env) :
  (truthy (mcpEndpoint user) = false \/ env_config_write_ok env = false \/
   env_spawn env = SpawnThrows) \/
  (truthy (mcpEndpoint user) = true /\ env_config_write_ok env = true /\
   env_spawn env ≠ SpawnThrows).
Proof.
  destruct (truthy (mcpEndpoint user)), (env_config_write_ok env),
    (env_spawn env); auto; right; repeat split; discriminate.
Qed.

Lemma startUserBridge_resume_true (user : User) (env : Env) (s s' : State) :
  startUserBridge_resume user env s = (Returned true, s') ->
  truthy (mcpEndpoint user) = true /\ env_config_write_ok env = true /\
  env_spawn env ≠ SpawnThrows.
Proof.
  intros H. destruct (start_env_cases user env) as [Hfail|Hok]; [|exact Hok].
  destruct (startUserBridge_resume_failure user env s Hfail) as (Hne & _).
  rewrite H in Hne. exfalso. apply Hne. reflexivity.
Qed.

(** In every state the server can reach, the table [bridgeProcesses] holds
    at most one handle under each user id, and that handle points to a
    process launched for this user that was neither killed nor terminated.
    When the two segments of [startUserBridge] run back to back, the process
    of the handle registered for the user is killed and the handle removed
    before the config is written and the new process spawned and
    registered; whenever the second segment returns [true] the table holds
    exactly one handle for the user, the one of the new process. *)
Lemma startUserBridge_back_to_back :
  (forall (w : World) (userId : string),
     reachable w ->
     (length (handles_for userId (state w)) <= 1)%nat /\
     registry_wf (state w)) /\
  (forall (user : User) (env : Env) (s s' : State),
     startUserBridge_resume user env s = (Returned true, s') ->
     handles_for (id user) s'
       = [mkHandle (length (procs s)) (spawn_pid (env_spawn env))]) /\
  (forall (user : User) (env : Env) (s s' : State),
     startUserBridge user env s = (Returned true, s') ->
     handles_for (id user) s'
       = [mkHandle (length (procs s)) (spawn_pid (env_spawn env))] /\
     (forall h c,
        bridgeProcesses s !! id user = Some h ->
        procs s !! process h = Some c ->
        procs s' !! process h = Some (mark_killed c)) /\
     exists rest,
       trace s' =
       trace s ++ kill_events (id user) s
         ++ [EvSweep (id user); EvWriteConfig (configPath (id user)) true;
             EvSpawn (env_spawn env)] ++ rest).
Proof.
  assert (Hresume : forall user env s s',
    startUserBridge_resume user env s = (Returned true, s') ->
    handles_for (id user) s'
      = [mkHandle (length (procs s)) (spawn_pid (env_spawn env))]).
  { intros user env s s' H.
    destruct (startUserBridge_resume_true _ _ _ _ H) as (He & Hw & Hs).
    destruct (startUserBridge_resume_launch user env s He Hw Hs)
      as (_ & _ & Hb & _).
    rewrite H in Hb. cbn [snd] in Hb.
    rewrite handles_for_lookup, Hb, lookup_insert_eq. reflexivity. }
  split; [|split; [exact Hresume|]].
  - intros w userId Hr. split.
    + apply handles_for_at_most_one.
    + apply reachable_registry_wf, Hr.
  - intros user env s s' H. unfold startUserBridge in H.
    split.
    { rewrite (Hresume _ _ _ _ H), killUserBridge_procs_length. reflexivity. }
    destruct (startUserBridge_resume_true _ _ _ _ H) as (He & Hw & Hs).
    destruct (startUserBridge_resume_launch user env
                (killUserBridge (id user) s) He Hw Hs)
      as (_ & _ & _ & Hp & _ & Ht).
    rewrite H in Hp, Ht. cbn [snd] in Hp, Ht. split.
    + intros h c Hh Hc. rewrite Hp, killUserBridge_procs, Hh.
      apply lookup_app_l_Some. rewrite list_lookup_alter_eq, Hc. reflexivity.
    + eexists. rewrite Ht, killUserBridge_trace, killUserBridge_users.
      rewrite <- !app_assoc. reflexivity.
Qed.

(** ** A start and a stop for the same user *)

(** The statement of C8 as written fails: the code has no per-user
    serialisation; when the continuation of the start runs between the two
    segments of the stop, a handle is registered while the record reads
    stopped, which neither serial order yields. *)
Lemma C8_counterexample : ~ start_stop_serialized.
Proof.
  intros H.
  assert (Hr : reachable ann_created).
  { exists [ReqCreate body_ann 1700000000000 "2023-11-14T22:13:20.000Z"].
    reflexivity. }
  assert (Hin : start_stop_start_stop ann (env_ok 100)
                ∈ start_stop_schedules ann (env_ok 100)).
  { unfold start_stop_schedules. set_solver. }
  specialize (H ann_created ann (env_ok 100) _ Hr eq_refl Hin).
  vm_compute in H. destruct H as [H|H]; discriminate H.
Qed.

Lemma exec_ReqStart (s : State) (pend : list Task) (resp : list Response)
    (userId : string) (user : User) :
  find userId (users s) = Some user ->
  truthy (mcpEndpoint user) = true ->
  exec (mkWorld s pend resp) (ReqStart userId)
  = mkWorld (killUserBridge userId s) (pend ++ [AwaitStartRoute user]) resp.
Proof.
  intros Hf He. unfold exec, post_user_start, readUsers. cbn [state].
  rewrite Hf, He, (find_id _ _ _ Hf). reflexivity.
Qed.

Lemma exec_ReqStop (s : State) (pend : list Task) (resp : list Response)
    (userId : string) (user : User) :
  find userId (users s) = Some user ->
  exec (mkWorld s pend resp) (ReqStop userId)
  = mkWorld (killUserBridge userId s)
            (pend ++ [AwaitStopRoute (users s) userId user]) resp.
Proof.
  intros Hf. unfold exec, post_user_stop, readUsers. cbn [state].
  rewrite Hf, (find_id _ _ _ Hf). reflexivity.
Qed.

Lemma exec_Resume (s : State) (pend : list Task) (resp : list Response)
    (n : nat) (env : Env) (t : Task) :
  pend !! n = Some t ->
  exec (mkWorld s pend resp) (Resume n env)
  = mkWorld (snd (resume t env s)) (delete n pend)
            (resp ++ [fst (resume t env s)]).
Proof.
  intros Hp. unfold exec. cbn [state pending responses]. rewrite Hp.
  destruct (resume t env s) as [r s']. reflexivity.
Qed.

Lemma resume_stop_state (data : list User) (userId : string) (user : User)
    (env : Env) (s : State) :
  find userId data = Some user ->
  snd (resume (AwaitStopRoute data userId user) env s)
  = writeUsers (mark userId stopped pid_null data) s.
Proof.
  intros Hf. unfold resume, mark.
  destruct (find_Some_findIndex _ _ _ Hf) as (idx & -> & _). reflexivity.
Qed.

Lemma resume_start_state (userId : string) (user : User) (env : Env) (n : Z)
    (s : State) :
  id user = userId ->
  truthy (mcpEndpoint user) = true ->
  env_config_write_ok env = true ->
  env_spawn env = Spawned n ->
  let s' := snd (resume (AwaitStartRoute user) env s) in
  bridgeProcesses s' !! userId = Some (mkHandle (length (procs s)) (Some n)) /\
  users s' = mark userId running (pid_num n) (users s).
Proof.
  intros Hid He Hw Hs s'. subst s'. unfold resume.
  assert (Hnt : env_spawn env ≠ SpawnThrows) by (rewrite Hs; discriminate).
  destruct (startUserBridge_resume_launch user env s He Hw Hnt)
    as (Hr & Hu & Hb & _).
  destruct (startUserBridge_resume user env s) as [[b|] s'];
    cbn [fst snd] in *; [|discriminate].
  rewrite Hb, Hu, Hs, Hid. split; [apply lookup_insert_eq|reflexivity].
Qed.

Lemma resume_stop_registry (data : list User) (userId : string) (user : User)
    (env : Env) (s : State) :
  bridgeProcesses (snd (resume (AwaitStopRoute data userId user) env s))
  = bridgeProcesses s.
Proof. unfold resume. destruct (findIndex userId data); reflexivity. Qed.

Lemma writeUsers_procs (data : list User) (s : State) :
  procs (writeUsers data s) = procs s.
Proof. reflexivity. Qed.

Ltac resume_step :=
  match goal with
  | |- context [exec (mkWorld ?s ?pend ?r) (Resume ?n ?e)] =>
      let t := eval cbn in (pend !! n) in
      match t with
      | Some ?t' => rewrite (exec_Resume s pend r n e t' eq_refl)
      end
  end; cbn [delete list_delete].

(** C8 (as the code has it): the handlers take no per-user lock; each runs
    as two segments around its [await].  Take a stored user with an
    endpoint, no continuation pending, a config write and a spawn that
    succeed, and one start and one stop of that user with nothing else
    processed until both have completed (no other request, continuation or
    termination notification).  Of the six schedules of their four
    segments: start then stop, one after the other, leaves no handle and a
    record stopped with a null pid; stop then start, one after the other,
    and the two schedules in which both requests are received first and the
    continuation of the stop runs before that of the start, leave the new
    handle registered and the record running with its pid; the two
    schedules in which both requests are received first and the
    continuation of the start runs before that of the stop leave the new
    handle registered while the record reads stopped with a null pid. *)
Theorem C8_start_stop_schedules (w : World) (userId : string) (user : User)
    (env : Env) (n : Z) :
  pending w = [] ->
  find userId (users (state w)) = Some user ->
  truthy (mcpEndpoint user) = true ->
  env_config_write_ok env = true ->
  env_spawn env = Spawned n ->
  let h := mkHandle (length (procs (state w))) (Some n) in
  let final sched := outcome userId (state (run sched w)) in
  final (start_then_stop userId env) = (None, Some (stopped, pid_null)) /\
  final (stop_then_start userId env) = (Some h, Some (running, pid_num n)) /\
  final (start_stop_stop_start userId env) = (Some h, Some (running, pid_num n)) /\
  final (stop_start_stop_start userId env) = (Some h, Some (running, pid_num n)) /\
  final (start_stop_start_stop userId env) = (Some h, Some (stopped, pid_null)) /\
  final (stop_start_start_stop userId env) = (Some h, Some (stopped, pid_null)).
Proof.
  intros Hpend Hf He Hw Hs h final. subst h final.
  destruct w as [s pend resp]. cbn [pending state] in *. subst pend.
  pose proof (find_id _ _ _ Hf) as Hid.
  set (ur := set_status_pid running (pid_num n) user).
  set (us := set_status_pid stopped pid_null user).
  assert (Hfk : find userId (users (killUserBridge userId s)) = Some user)
    by (rewrite killUserBridge_users; exact Hf).
  split; [|split; [|split; [|split; [|split]]]];
    unfold run, outcome, start_then_stop, stop_then_start,
      start_stop_stop_start, stop_start_stop_start, start_stop_start_stop,
      stop_start_start_stop; cbn [foldl].
  - (* start, then stop *)
    rewrite (exec_ReqStart _ _ _ _ user Hf He). cbn [app]. resume_step.
    destruct (resume_start_state userId user env n (killUserBridge userId s)
                Hid He Hw Hs) as [Hb Hu].
    set (s2 := snd (resume (AwaitStartRoute user) env _)) in *.
    assert (Hf2 : find userId (users s2) = Some ur).
    { rewrite Hu, find_mark, Hfk. reflexivity. }
    rewrite (exec_ReqStop _ _ _ _ ur Hf2). cbn [app]. resume_step.
    cbn [state].
    rewrite resume_stop_registry, killUserBridge_registry, lookup_delete_eq.
    rewrite (resume_stop_state _ _ _ _ _ Hf2), writeUsers_users, find_mark, Hf2.
    reflexivity.
  - (* stop, then start *)
    rewrite (exec_ReqStop _ _ _ _ user Hf). cbn [app]. resume_step.
    rewrite (resume_stop_state _ _ _ _ _ Hf).
    set (s2 := writeUsers _ _).
    assert (Hf2 : find userId (users s2) = Some us).
    { subst s2. rewrite writeUsers_users, find_mark, Hf. reflexivity. }
    rewrite (exec_ReqStart _ _ _ _ us Hf2 He). cbn [app]. resume_step.
    cbn [state].
    destruct (resume_start_state userId us env n (killUserBridge userId s2)
                Hid He Hw Hs) as [Hb Hu].
    rewrite Hb, Hu, find_mark, killUserBridge_users, Hf2.
    rewrite killUserBridge_procs_length. subst s2.
    rewrite writeUsers_procs, killUserBridge_procs_length. reflexivity.
  - (* start, stop, rest of stop, rest of start *)
    rewrite (exec_ReqStart _ _ _ _ user Hf He). cbn [app].
    rewrite (exec_ReqStop _ _ _ _ user Hfk). cbn [app].
    resume_step. resume_step. cbn [state].
    rewrite (resume_stop_state _ _ _ _ _ Hfk).
    set (s3 := writeUsers _ _).
    destruct (resume_start_state userId user env n s3 Hid He Hw Hs) as [Hb Hu].
    rewrite Hb, Hu, find_mark. subst s3.
    rewrite writeUsers_users, find_mark, Hfk, writeUsers_procs.
    rewrite !killUserBridge_procs_length. reflexivity.
  - (* stop, start, rest of stop, rest of start *)
    rewrite (exec_ReqStop _ _ _ _ user Hf). cbn [app].
    rewrite (exec_ReqStart _ _ _ _ user Hfk He). cbn [app].
    resume_step. resume_step. cbn [state].
    rewrite (resume_stop_state _ _ _ _ _ Hf).
    set (s3 := writeUsers _ _).
    destruct (resume_start_state userId user env n s3 Hid He Hw Hs) as [Hb Hu].
    rewrite Hb, Hu, find_mark. subst s3.
    rewrite writeUsers_users, find_mark, Hf, writeUsers_procs.
    rewrite !killUserBridge_procs_length. reflexivity.
  - (* start, stop, rest of start, rest of stop *)
    rewrite (exec_ReqStart _ _ _ _ user Hf He). cbn [app].
    rewrite (exec_ReqStop _ _ _ _ user Hfk). cbn [app].
    resume_step. resume_step. cbn [state].
    rewrite resume_stop_registry, (resume_stop_state _ _ _ _ _ Hfk).
    destruct (resume_start_state userId user env n
                (killUserBridge userId (killUserBridge userId s))
                Hid He Hw Hs) as [Hb Hu].
    rewrite Hb, writeUsers_users, find_mark, Hfk.
    rewrite !killUserBridge_procs_length. reflexivity.
  - (* stop, start, rest of start, rest of stop *)
    rewrite (exec_ReqStop _ _ _ _ user Hf). cbn [app].
    rewrite (exec_ReqStart _ _ _ _ user Hfk He). cbn [app].
    resume_step. resume_step. cbn [state].
    rewrite resume_stop_registry, (resume_stop_state _ _ _ _ _ Hf).
    destruct (resume_start_state userId user env n
                (killUserBridge userId (killUserBridge userId s))
                Hid He Hw Hs) as [Hb Hu].
    rewrite Hb, writeUsers_users, find_mark, Hf.
    rewrite !killUserBridge_procs_length. reflexivity.
Qed.

Lemma C8_witness :
  outcome ann (state (run (start_stop_start_stop ann (env_ok 100)) ann_created))
    = (Some (mkHandle 0 (Some 100)), Some (stopped, pid_null)).
Proof.
  apply (C8_start_stop_schedules ann_created ann
           (set_status_pid stopped pid_null ann_record) (env_ok 100) 100);
    reflexivity.
Defined.

(** Two overlapping starts of one user: the second continuation overwrites
    the handle registered by the first, whose process is left running,
    neither killed nor registered. *)
Lemma overlapping_starts_orphan :
  let s := state (run [ReqStart ann; ReqStart ann;
                       Resume 0 (env_ok 100); Resume 0 (env_ok 200)]
                      ann_created) in
  bridgeProcesses s !! ann = Some (mkHandle 1 (Some 200)) /\
  procs s !! 0%nat = Some (mkChild (Some 100) ann false false).
Proof. vm_compute. split; reflexivity. Qed.

(** ** Stop while termination notifications arrive *)

Lemma run_cons (a : Action) (acts : list Action) (w : World) :
  run (a :: acts) w = run acts (exec w a).
Proof. reflexivity. Qed.

Lemma run_exits (ps : list nat) (userId : string) (w : World) :
  bridgeProcesses (state w) !! userId = None ->
  pending (run (ProcExit <$> ps) w) = pending w /\
  bridgeProcesses (state (run (ProcExit <$> ps) w)) !! userId = None.
Proof.
  revert w. induction ps as [|p ps IH]; intros w Hn; [split; [reflexivity|exact Hn]|].
  rewrite fmap_cons, run_cons.
  assert (Hstep : pending (exec w (ProcExit p)) = pending w /\
                  bridgeProcesses (state (exec w (ProcExit p))) !! userId = None).
  { unfold exec. destruct (can_exit p (state w)); [|split; [reflexivity|exact Hn]].
    cbn [pending state]. split; [reflexivity|].
    destruct (procs (state w) !! p) as [c|] eqn:E.
    - rewrite (on_exit_registry _ _ _ E).
      destruct (decide (child_user c = userId)) as [->|Hne].
      + apply lookup_delete_eq.
      + rewrite lookup_delete_ne by exact Hne. exact Hn.
    - unfold on_exit. rewrite E. exact Hn. }
  destruct Hstep as [Hp Hb]. destruct (IH _ Hb) as [Hp' Hb'].
  split; [congruence|exact Hb'].
Qed.

(** The end state of a stop is the same when termination notifications, of
    the killed worker or of any other, are delivered during its [await]. *)
Lemma stop_with_notifications (w : World) (userId : string) (user : User)
    (ps : list nat) (env : Env) :
  pending w = [] ->
  find userId (users (state w)) = Some user ->
  outcome userId
    (state (run (ReqStop userId :: (ProcExit <$> ps) ++ [Resume 0 env]) w))
  = (None, Some (stopped, pid_null)).
Proof.
  intros Hpend Hf. destruct w as [s pend resp]. cbn [pending state] in *.
  subst pend. rewrite run_cons, run_snoc.
  rewrite (exec_ReqStop _ _ _ _ user Hf). cbn [app].
  set (w1 := mkWorld _ _ _).
  assert (Hn : bridgeProcesses (state w1) !! userId = None).
  { subst w1. cbn [state]. rewrite killUserBridge_registry.
    apply lookup_delete_eq. }
  destruct (run_exits ps userId w1 Hn) as [Hp Hb].
  destruct (run (ProcExit <$> ps) w1) as [s2 pend2 resp2].
  cbn [pending state] in *. subst pend2 w1. cbn [pending] in *.
  resume_step. cbn [state]. unfold outcome.
  rewrite resume_stop_registry, Hb.
  rewrite (resume_stop_state _ _ _ _ _ Hf), writeUsers_users, find_mark, Hf.
  reflexivity.
Qed.

(** * Further properties of the routes *)

(** ** Applying a function to the record of a user *)

Lemma mark_amend (userId : string) (st : Status) (p : pidval) (l : list User) :
  mark userId st p l = amend userId (set_status_pid st p) l.
Proof. reflexivity. Qed.

Lemma find_amend (userId : string) (f : User -> User) (l : list User) :
  (forall u, id (f u) = id u) ->
  find userId (amend userId f l) = f <$> find userId l.
Proof.
  intros Hf. unfold amend. destruct (findIndex userId l) as [idx|] eqn:E.
  - apply find_alter_findIndex; [exact Hf|exact E].
  - apply findIndex_find in E. rewrite E. reflexivity.
Qed.

Lemma find_amend_other (userId other : string) (f : User -> User)
    (l : list User) :
  (forall u, id (f u) = id u) ->
  other ≠ userId ->
  find other (amend userId f l) = find other l.
Proof.
  intros Hf Hne. unfold amend.
  destruct (findIndex userId l) as [idx|] eqn:E; [|reflexivity].
  apply (find_alter_other _ userId); [exact Hf|exact E|exact Hne].
Qed.

Lemma length_amend (userId : string) (f : User -> User) (l : list User) :
  length (amend userId f l) = length l.
Proof.
  unfold amend. destruct (findIndex userId l); [apply length_alter|reflexivity].
Qed.

Lemma put_user_eq (userId : string) (body : Body) (u : User) (s : State) :
  find userId (users s) = Some u ->
  put_user userId body s =
  match status u with
  | running =>
      (inr (AwaitUpdateRoute (assign_fields body u)),
       killUserBridge userId
         (writeUsers (amend userId (assign_fields body) (users s)) s))
  | stopped =>
      (inl (UserUpdated (assign_fields body u)),
       writeUsers (amend userId (assign_fields body) (users s)) s)
  end.
Proof.
  intros Hf. destruct (find_Some_findIndex _ _ _ Hf) as (idx & Hi & Hl).
  unfold put_user, amend, readUsers. rewrite Hi.
  rewrite list_lookup_alter_eq, Hl. cbn [fmap option_fmap option_map].
  cbn [status assign_fields id]. rewrite (find_id _ _ _ Hf).
  destruct (status u); reflexivity.
Qed.

(** X1: updating a stored user whose record reads stopped only rewrites
    [users.json]: the record takes the fields of the body and keeps the
    others, with its id, status, pid and creation date; the records of other
    users, the table, the processes and the config files are as before, and
    the only call to the environment is the write of the file. *)
Theorem update_stopped_user (userId : string) (body : Body) (u : User)
    (env : Env) (s : State) :
  find userId (users s) = Some u ->
  status u = stopped ->
  let r := update userId body env s in
  fst r = UserUpdated (assign_fields body u) /\
  find userId (users (snd r)) = Some (assign_fields body u) /\
  id (assign_fields body u) = id u /\
  status (assign_fields body u) = stopped /\
  pid (assign_fields body u) = pid u /\
  createdAt (assign_fields body u) = createdAt u /\
  (forall other, other ≠ userId ->
     find other (users (snd r)) = find other (users s)) /\
  length (users (snd r)) = length (users s) /\
  bridgeProcesses (snd r) = bridgeProcesses s /\
  procs (snd r) = procs s /\
  configs (snd r) = configs s /\
  trace (snd r) = trace s ++ [EvWriteUsers].
Proof.
  intros Hf Hst r. subst r. unfold update.
  rewrite (put_user_eq _ _ _ _ Hf), Hst. cbn [complete fst snd].
  rewrite writeUsers_users.
  split; [reflexivity|]. split.
  { rewrite find_amend by reflexivity. rewrite Hf. reflexivity. }
  split; [reflexivity|]. split; [exact Hst|].
  split; [reflexivity|]. split; [reflexivity|]. split.
  { intros other Hne. apply find_amend_other; [reflexivity|exact Hne]. }
  split; [apply length_amend|]. repeat split; reflexivity.
Qed.

Lemma update_stopped_user_witness :
  find "u1" (users (snd (update "u1" body_search_on (env_ok 7) only_u1)))
    = Some (assign_fields body_search_on u1).
Proof.
  apply (update_stopped_user "u1" body_search_on u1 (env_ok 7) only_u1);
    reflexivity.
Defined.

(** X2: the update route does not validate what creation validates: a body
    whose [name] is falsy (null, empty, zero, false) is refused by
    [POST /api/users] with 400 and no write, yet the same body sent to
    [PUT /api/users/:id] of a stored user is stored, [name] included. *)
Theorem update_accepts_name_creation_rejects (userId : string) (body : Body)
    (v : json) (u : User) (now : Z) (iso : string) (s : State) :
  find userId (users s) = Some u ->
  body !! "name" = Some v ->
  truthy v = false ->
  post_users body now iso s = (Error 400 "Name is required", s) /\
  exists u',
    find userId (users (snd (put_user userId body s))) = Some u' /\
    name u' = v.
Proof.
  intros Hf Hn Hv. split.
  - unfold post_users, js_not. rewrite Hn, Hv. reflexivity.
  - exists (assign_fields body u). split.
    + rewrite (put_user_eq _ _ _ _ Hf).
      destruct (status u); cbn [snd];
        rewrite ?killUserBridge_users, writeUsers_users;
        rewrite find_amend by reflexivity; rewrite Hf; reflexivity.
    + cbn [name assign_fields]. rewrite Hn. reflexivity.
Qed.

Lemma update_accepts_name_creation_rejects_witness :
  exists u',
    find "u1" (users (snd (put_user "u1" {["name" := JStr ""]} only_u1)))
      = Some u' /\ name u' = JStr "".
Proof.
  apply (update_accepts_name_creation_rejects "u1" {["name" := JStr ""]}
           (JStr "") u1 0 "" only_u1); reflexivity.
Defined.

Lemma kill_events_writeUsers (userId : string) (data : list User) (s : State) :
  kill_events userId (writeUsers data s) = kill_events userId s.
Proof. reflexivity. Qed.

Lemma update_running_eq (userId : string) (body : Body) (u : User) (env : Env)
    (s : State) :
  find userId (users s) = Some u ->
  status u = running ->
  update userId body env s =
  resume (AwaitUpdateRoute (assign_fields body u)) env
    (killUserBridge userId
       (writeUsers (amend userId (assign_fields body) (users s)) s)).
Proof.
  intros Hf Hst. unfold update. rewrite (put_user_eq _ _ _ _ Hf), Hst.
  reflexivity.
Qed.

(** X3: updating a stored user whose record reads running restarts the
    worker with the new settings: the record is written with the new fields,
    the registered process is killed and its handle removed, the config file
    is generated again from the updated record, a new process object is
    registered, and the record is marked running with the new pid.  The
    answer still carries the pid the record had before. *)
Theorem update_running_restarts (userId : string) (body : Body) (u : User)
    (env : Env) (n : Z) (s : State) :
  find userId (users s) = Some u ->
  status u = running ->
  truthy (mcpEndpoint (assign_fields body u)) = true ->
  env_config_write_ok env = true ->
  env_spawn env = Spawned n ->
  let u' := assign_fields body u in
  let r := update userId body env s in
  fst r = UserUpdated u' /\ pid u' = pid u /\
  find userId (users (snd r)) = Some (set_status_pid running (pid_num n) u') /\
  bridgeProcesses (snd r) !! userId
    = Some (mkHandle (length (procs s)) (Some n)) /\
  configs (snd r) !! configPath userId = Some (mcpServers u') /\
  (forall h c,
     bridgeProcesses s !! userId = Some h ->
     procs s !! process h = Some c ->
     procs (snd r) !! process h = Some (mark_killed c) /\
     process h ≠ length (procs s)) /\
  (forall other, other ≠ userId ->
     find other (users (snd r)) = find other (users s)) /\
  trace (snd r) =
    trace s ++ [EvWriteUsers] ++ kill_events userId s
      ++ [EvSweep userId; EvWriteConfig (configPath userId) true;
          EvSpawn (Spawned n); EvWriteUsers].
Proof.
  intros Hf Hst He Hw Hs u' r. subst r.
  rewrite (update_running_eq _ _ _ _ _ Hf Hst). fold u'.
  set (s1 := killUserBridge userId _).
  assert (Hid : id u' = userId) by exact (find_id _ _ _ Hf).
  assert (Hnt : env_spawn env ≠ SpawnThrows) by (rewrite Hs; discriminate).
  destruct (startUserBridge_resume_launch u' env s1 He Hw Hnt)
    as (Hr & Hu & Hb & Hp & Hc & Ht).
  unfold resume.
  destruct (startUserBridge_resume u' env s1) as [[b|] s'] eqn:E;
    cbn [fst snd] in *; [|discriminate].
  rewrite Hid, Hs in *. cbn [spawn_pid pidval_of] in *.
  assert (Hu1 : users s1 = amend userId (assign_fields body) (users s)).
  { subst s1. rewrite killUserBridge_users. reflexivity. }
  assert (Hf1 : find userId (users s1) = Some u').
  { rewrite Hu1, find_amend by reflexivity. rewrite Hf. reflexivity. }
  assert (Hl1 : length (procs s1) = length (procs s)).
  { subst s1. rewrite killUserBridge_procs_length. reflexivity. }
  split; [reflexivity|]. split; [reflexivity|]. split.
  { rewrite Hu, find_mark, Hf1. reflexivity. }
  split; [rewrite Hb, Hl1; apply lookup_insert_eq|].
  split; [rewrite Hc; apply lookup_insert_eq|].
  split.
  { intros h c Hh Hpc. split.
    - rewrite Hp. subst s1. rewrite killUserBridge_procs.
      change (bridgeProcesses (writeUsers ?d s)) with (bridgeProcesses s).
      rewrite Hh. change (procs (writeUsers ?d s)) with (procs s).
      apply lookup_app_l_Some. rewrite list_lookup_alter_eq, Hpc. reflexivity.
    - apply lookup_lt_Some in Hpc. lia. }
  split.
  { intros other Hne. rewrite Hu, find_mark_other by exact Hne.
    rewrite Hu1. apply find_amend_other; [reflexivity|exact Hne]. }
  rewrite Ht. subst s1. rewrite killUserBridge_trace, kill_events_writeUsers.
  rewrite writeUsers_trace, killUserBridge_users, writeUsers_users.
  destruct (findIndex userId (amend userId (assign_fields body) (users s)))
    eqn:Ei.
  - rewrite <- !app_assoc. reflexivity.
  - apply findIndex_find in Ei.
    rewrite find_amend in Ei by reflexivity. rewrite Hf in Ei. discriminate.
Qed.

Lemma update_running_restarts_witness :
  configs (snd (update ann body_search_on (env_ok 200) (state ann_running)))
    !! configPath ann
  = Some (mcpServers (assign_fields body_search_on ann_record)).
Proof.
  apply (update_running_restarts ann body_search_on ann_record (env_ok 200)
           200 (state ann_running)); vm_compute; reflexivity.
Defined.

(** X4: an update that leaves a running user without endpoint kills the
    worker and removes its handle, spawns nothing, and answers success; the
    stored record keeps [status = 'running'] and its old pid until the
    termination of the killed process is notified. *)
Theorem update_clears_endpoint (userId : string) (body : Body) (u : User)
    (env : Env) (s : State) :
  find userId (users s) = Some u ->
  status u = running ->
  truthy (mcpEndpoint (assign_fields body u)) = false ->
  let u' := assign_fields body u in
  let r := update userId body env s in
  fst r = UserUpdated u' /\
  bridgeProcesses (snd r) !! userId = None /\
  find userId (users (snd r)) = Some u' /\
  status u' = running /\ pid u' = pid u /\
  (forall h c,
     bridgeProcesses s !! userId = Some h ->
     procs s !! process h = Some c ->
     procs (snd r) !! process h = Some (mark_killed c)) /\
  trace (snd r) =
    trace s ++ [EvWriteUsers] ++ kill_events userId s ++ [EvSweep userId].
Proof.
  intros Hf Hst He u' r. subst r.
  rewrite (update_running_eq _ _ _ _ _ Hf Hst). fold u'.
  unfold resume, startUserBridge_resume. fold u' in He. rewrite He.
  cbn [negb fst snd].
  split; [reflexivity|]. split.
  { rewrite killUserBridge_registry. apply lookup_delete_eq. }
  split.
  { rewrite killUserBridge_users, writeUsers_users.
    rewrite find_amend by reflexivity. rewrite Hf. reflexivity. }
  split; [exact Hst|]. split; [reflexivity|]. split.
  { intros h c Hh Hpc. rewrite killUserBridge_procs.
    change (bridgeProcesses (writeUsers ?d s)) with (bridgeProcesses s).
    rewrite Hh. change (procs (writeUsers ?d s)) with (procs s).
    rewrite list_lookup_alter_eq, Hpc. reflexivity. }
  rewrite killUserBridge_trace, kill_events_writeUsers, writeUsers_trace.
  rewrite <- !app_assoc. reflexivity.
Qed.

Lemma update_clears_endpoint_witness :
  outcome ann (snd (update ann body_no_endpoint (env_ok 200) (state ann_running)))
    = (None, Some (running, pid_num 100)).
Proof.
  pose proof (update_clears_endpoint ann body_no_endpoint ann_record
                (env_ok 200) (state ann_running)) as H.
  destruct H as (_ & Hb & Hu & _); [vm_compute; reflexivity ..|].
  unfold outcome. rewrite Hb, Hu. reflexivity.
Defined.

(** ** Creation *)

Lemma find_app (userId : string) (l1 l2 : list User) :
  find userId (l1 ++ l2) =
  match find userId l1 with
  | Some u => Some u
  | None => find userId l2
  end.
Proof.
  induction l1 as [|x l1 IH]; simpl; [reflexivity|].
  destruct (String.eqb (id x) userId); [reflexivity|exact IH].
Qed.

Lemma findIndex_app_Some (userId : string) (l1 l2 : list User) (idx : nat) :
  findIndex userId l1 = Some idx -> findIndex userId (l1 ++ l2) = Some idx.
Proof.
  revert idx. induction l1 as [|x l1 IH]; simpl; intros idx; [discriminate|].
  destruct (String.eqb (id x) userId); [tauto|].
  destruct (findIndex userId l1) as [i|]; simpl; [|discriminate].
  intros [= <-]. rewrite (IH i eq_refl). reflexivity.
Qed.

Lemma splice1_app (idx : nat) (l1 l2 : list User) :
  (idx < length l1)%nat -> splice1 idx (l1 ++ l2) = splice1 idx l1 ++ l2.
Proof.
  intros H. unfold splice1.
  rewrite take_app_le by lia. rewrite drop_app_le by lia.
  rewrite <- app_assoc. reflexivity.
Qed.

Lemma post_users_eq (body : Body) (now : Z) (iso : string) (s : State) :
  js_not (body !! "name") = false ->
  exists user,
    id user = "user_" +:+ pretty now /\
    post_users body now iso s
      = (UserCreated user, writeUsers (users s ++ [user]) s).
Proof.
  intros Hn. unfold post_users, readUsers. rewrite Hn.
  eexists. split; [|reflexivity]. reflexivity.
Qed.

(** X5: a user created under an id that no stored record carries can be
    fetched by that id right away; every record that could be fetched before
    still can, and creation touches neither the table, nor the processes,
    nor the config files. *)
Theorem create_then_get (body : Body) (now : Z) (iso : string) (s : State) :
  js_not (body !! "name") = false ->
  find ("user_" +:+ pretty now) (users s) = None ->
  let r := post_users body now iso s in
  exists user,
    fst r = UserCreated user /\
    id user = "user_" +:+ pretty now /\
    get_user (id user) (snd r) = Some user /\
    (forall other u, find other (users s) = Some u ->
       get_user other (snd r) = Some u) /\
    length (users (snd r)) = S (length (users s)) /\
    bridgeProcesses (snd r) = bridgeProcesses s /\
    procs (snd r) = procs s /\
    configs (snd r) = configs s.
Proof.
  intros Hn Hfresh r. subst r.
  destruct (post_users_eq body now iso s Hn) as (user & Hid & ->).
  exists user. cbn [fst snd]. unfold get_user, readUsers.
  rewrite writeUsers_users.
  split; [reflexivity|]. split; [exact Hid|]. split.
  { rewrite find_app, Hid, Hfresh. simpl. rewrite <- Hid at 1.
    rewrite String.eqb_refl. reflexivity. }
  split.
  { intros other u Hu. rewrite find_app, Hu. reflexivity. }
  split; [rewrite length_app; simpl; lia|].
  repeat split; reflexivity.
Qed.

Lemma create_then_get_witness :
  exists user,
    fst (post_users body_bob 1700000000001 "t" (state ann_running))
      = UserCreated user /\
    id user = "user_1700000000001" /\
    get_user (id user)
      (snd (post_users body_bob 1700000000001 "t" (state ann_running)))
      = Some user.
Proof.
  destruct (create_then_get body_bob 1700000000001 "t" (state ann_running))
    as (user & H1 & H2 & H3 & _); [vm_compute; reflexivity ..|].
  exists user. split; [exact H1|]. split; [|exact H3].
  rewrite H2. vm_compute. reflexivity.
Defined.

(** X6: creation does not check that the id it derives from the clock is
    free.  When a stored record already carries that id, the new record is
    stored behind it and every lookup by id still yields the older one;
    once the older one is deleted (ids being distinct before), the newer
    one is what the id yields. *)
Theorem create_duplicate_id (body : Body) (now : Z) (iso : string)
    (old : User) (env : Env) (s : State) :
  js_not (body !! "name") = false ->
  find ("user_" +:+ pretty now) (users s) = Some old ->
  NoDup (id <$> users s) ->
  let userId := "user_" +:+ pretty now in
  let r := post_users body now iso s in
  exists user,
    fst r = UserCreated user /\ id user = userId /\
    users (snd r) = users s ++ [user] /\
    get_user userId (snd r) = Some old /\
    get_user userId (snd (destroy userId env (snd r))) = Some user.
Proof.
  intros Hn Hold Hnd userId r. subst r.
  destruct (post_users_eq body now iso s Hn) as (user & Hid & ->).
  exists user. cbn [fst snd]. unfold get_user, readUsers.
  rewrite writeUsers_users.
  split; [reflexivity|]. split; [exact Hid|]. split; [reflexivity|]. split.
  { rewrite find_app. fold userId in Hold. rewrite Hold. reflexivity. }
  destruct (find_Some_findIndex _ _ _ Hold) as (idx & Hi & _).
  fold userId in Hi.
  assert (Hi' : findIndex userId (users (writeUsers (users s ++ [user]) s))
                = Some idx).
  { rewrite writeUsers_users. apply findIndex_app_Some, Hi. }
  rewrite (destroy_eq _ _ _ _ Hi'), !writeUsers_users. cbn [snd].
  rewrite writeUsers_users.
  rewrite splice1_app by (eapply findIndex_lt, Hi).
  rewrite find_app, (find_splice1 _ _ _ Hnd Hi). simpl.
  fold userId in Hid. rewrite Hid, String.eqb_refl. reflexivity.
Qed.

Lemma create_duplicate_id_witness :
  exists user,
    fst (post_users body_bob 1700000000000 "t" (state ann_running))
      = UserCreated user /\
    get_user ann (snd (post_users body_bob 1700000000000 "t" (state ann_running)))
      = Some ann_record.
Proof.
  destruct (create_duplicate_id body_bob 1700000000000 "t" ann_record
              (env_ok 7) (state ann_running))
    as (user & H1 & _ & _ & H4 & _).
  - reflexivity.
  - vm_compute. reflexivity.
  - vm_compute. apply NoDup_singleton.
  - exists user. split; [exact H1|exact H4].
Defined.

(** ** Feeds *)

Lemma insert_alter_lookup (f : User -> User) (idx : nat) (u : User)
    (l : list User) :
  l !! idx = Some u -> <[idx := f u]> l = alter f idx l.
Proof.
  intros H. apply list_eq. intros i. destruct (decide (i = idx)) as [->|Hne].
  - rewrite list_lookup_alter_eq, H. apply list_lookup_insert_eq.
    eapply lookup_lt_Some, H.
  - rewrite list_lookup_alter_ne, list_lookup_insert_ne by congruence.
    reflexivity.
Qed.

Lemma post_feed_eq (userId : string) (body : Body) (now : Z) (u : User)
    (l : list json) (s : State) :
  find userId (users s) = Some u ->
  js_not (body !! "title") = false ->
  js_not (body !! "url") = false ->
  feeds_or_empty u = JArr l ->
  post_feed userId body now s =
  (FeedAdded (new_feed body now),
   writeUsers
     (amend userId (set_feeds (JArr (l ++ [new_feed body now]))) (users s)) s).
Proof.
  intros Hf Ht Hu Hl. destruct (find_Some_findIndex _ _ _ Hf) as (idx & Hi & Hx).
  unfold post_feed, amend, readUsers. rewrite Hi, Ht, Hu, Hx, Hl.
  cbn [orb]. rewrite <- (insert_alter_lookup _ _ _ _ Hx). reflexivity.
Qed.

Lemma delete_feed_eq (userId feedId : string) (u : User) (l l' : list json)
    (s : State) :
  find userId (users s) = Some u ->
  feeds_or_empty u = JArr l ->
  filter_feeds feedId l = Some l' ->
  delete_feed userId feedId s =
  (FeedDeleted, writeUsers (amend userId (set_feeds (JArr l')) (users s)) s).
Proof.
  intros Hf Hl Hk. destruct (find_Some_findIndex _ _ _ Hf) as (idx & Hi & Hx).
  unfold delete_feed, amend, readUsers. rewrite Hi, Hx, Hl, Hk.
  rewrite <- (insert_alter_lookup _ _ _ _ Hx). reflexivity.
Qed.

Lemma get_feeds_amend (userId : string) (l : list json) (u : User)
    (data : list User) (s : State) :
  find userId data = Some u ->
  get_feeds userId (writeUsers (amend userId (set_feeds (JArr l)) data) s)
  = FeedList (JArr l).
Proof.
  intros Hf. unfold get_feeds, readUsers.
  rewrite writeUsers_users, find_amend by reflexivity. rewrite Hf. reflexivity.
Qed.

(** X7: a feed added to a stored user whose [feeds] is a list (or is falsy,
    which counts as the empty list) is answered with the new feed and is the
    last element of what [GET /api/users/:id/feeds] returns next; the feeds
    already there keep their place.  The new feed has the clock value as id,
    the title and url of the body, and the category of the body or
    ["Uncategorized"]. *)
Theorem feed_add_then_list (userId : string) (body : Body) (now : Z) (u : User)
    (l : list json) (s : State) :
  find userId (users s) = Some u ->
  js_not (body !! "title") = false ->
  js_not (body !! "url") = false ->
  feeds_or_empty u = JArr l ->
  let r := post_feed userId body now s in
  exists title url,
    body !! "title" = Some title /\ body !! "url" = Some url /\
    fst r = FeedAdded (JObj [("id", JStr (pretty now)); ("title", title);
                             ("url", url);
                             ("category",
                              js_or (body !! "category") (JStr "Uncategorized"))]) /\
    get_feeds userId s = FeedList (JArr l) /\
    get_feeds userId (snd r) = FeedList (JArr (l ++ [new_feed body now])).
Proof.
  intros Hf Ht Hu Hl r. subst r.
  rewrite (post_feed_eq _ _ _ _ _ _ Hf Ht Hu Hl). cbn [fst snd].
  destruct (body !! "title") as [title|] eqn:Et; [|discriminate].
  destruct (body !! "url") as [url|] eqn:Eu; [|discriminate].
  exists title, url. split; [reflexivity|]. split; [reflexivity|]. split.
  { unfold new_feed. rewrite Et, Eu. reflexivity. }
  split.
  { unfold get_feeds, readUsers. rewrite Hf, Hl. reflexivity. }
  apply (get_feeds_amend _ _ u), Hf.
Qed.

Lemma feed_add_then_list_witness :
  get_feeds "u1" (snd (post_feed "u1" body_feed 1700000000500 only_u1))
    = FeedList (JArr ([] ++ [new_feed body_feed 1700000000500])).
Proof.
  destruct (feed_add_then_list "u1" body_feed 1700000000500 u1 [] only_u1)
    as (title & url & _ & _ & _ & _ & H); [reflexivity ..|exact H].
Defined.

Lemma amend_set_feeds_frame (userId k : string) (v : json) (l : list User) :
  set_feeds JNull <$> find k (amend userId (set_feeds v) l)
  = set_feeds JNull <$> find k l.
Proof.
  destruct (decide (k = userId)) as [->|Hne].
  - rewrite find_amend by reflexivity. destruct (find userId l); reflexivity.
  - rewrite find_amend_other by (reflexivity || exact Hne). reflexivity.
Qed.

Lemma post_feed_frame (userId : string) (body : Body) (now : Z) (s : State) :
  let s' := snd (post_feed userId body now s) in
  bridgeProcesses s' = bridgeProcesses s /\ procs s' = procs s /\
  configs s' = configs s /\ length (users s') = length (users s) /\
  (forall k, set_feeds JNull <$> find k (users s')
             = set_feeds JNull <$> find k (users s)).
Proof.
  intros s'. subst s'. unfold post_feed, readUsers.
  destruct (findIndex userId (users s)) as [idx|] eqn:Ei;
    [|repeat split; reflexivity].
  destruct (js_not _ || js_not _); [repeat split; reflexivity|].
  destruct (users s !! idx) as [u|] eqn:Ex; [|repeat split; reflexivity].
  destruct (feeds_or_empty u) as [| | | |l|]; try (repeat split; reflexivity).
  rewrite (insert_alter_lookup (set_feeds _) _ _ _ Ex).
  cbn [snd]. rewrite writeUsers_users.
  repeat split; try reflexivity; [apply length_alter|].
  intros k.
  pose proof (amend_set_feeds_frame userId k
                (JArr (l ++ [new_feed body now])) (users s)) as H.
  unfold amend in H. rewrite Ei in H. exact H.
Qed.

Lemma delete_feed_frame (userId feedId : string) (s : State) :
  let s' := snd (delete_feed userId feedId s) in
  bridgeProcesses s' = bridgeProcesses s /\ procs s' = procs s /\
  configs s' = configs s /\ length (users s') = length (users s) /\
  (forall k, set_feeds JNull <$> find k (users s')
             = set_feeds JNull <$> find k (users s)).
Proof.
  intros s'. subst s'. unfold delete_feed, readUsers.
  destruct (findIndex userId (users s)) as [idx|] eqn:Ei;
    [|repeat split; reflexivity].
  destruct (users s !! idx) as [u|] eqn:Ex; [|repeat split; reflexivity].
  destruct (feeds_or_empty u) as [| | | |l|]; try (repeat split; reflexivity).
  destruct (filter_feeds feedId l) as [l'|]; [|repeat split; reflexivity].
  rewrite (insert_alter_lookup (set_feeds _) _ _ _ Ex).
  cbn [snd]. rewrite writeUsers_users.
  repeat split; try reflexivity; [apply length_alter|].
  intros k.
  pose proof (amend_set_feeds_frame userId k (JArr l') (users s)) as H.
  unfold amend in H. rewrite Ei in H. exact H.
Qed.

(** X8: the feed routes never touch the worker side: whatever the request
    and its answer, adding or deleting a feed leaves the table, the
    processes and the config files as they are, keeps the number of records,
    and changes no field of any record other than [feeds] (so neither
    status nor pid); a running worker is not restarted. *)
Theorem feed_routes_leave_workers_alone (userId feedId : string) (body : Body)
    (now : Z) (s : State) :
  (let s' := snd (post_feed userId body now s) in
   bridgeProcesses s' = bridgeProcesses s /\ procs s' = procs s /\
   configs s' = configs s /\ length (users s') = length (users s) /\
   (forall k, set_feeds JNull <$> find k (users s')
              = set_feeds JNull <$> find k (users s))) /\
  (let s' := snd (delete_feed userId feedId s) in
   bridgeProcesses s' = bridgeProcesses s /\ procs s' = procs s /\
   configs s' = configs s /\ length (users s') = length (users s) /\
   (forall k, set_feeds JNull <$> find k (users s')
              = set_feeds JNull <$> find k (users s))).
Proof. split; [apply post_feed_frame|apply delete_feed_frame]. Qed.

Lemma feed_kept_has_feed_id (feedId : string) (f : json) :
  f ≠ JNull -> feed_kept feedId f = Some (negb (has_feed_id feedId f)).
Proof.
  intros Hf. destruct f as [| | | | |l]; try reflexivity; [congruence|].
  simpl. destruct (obj_get "id" l) as [[| | |i| |]|]; reflexivity.
Qed.

Lemma filter_feeds_spec (feedId : string) (l : list json) :
  JNull ∉ l ->
  filter_feeds feedId l
  = Some (filter (fun f => has_feed_id feedId f = false) l).
Proof.
  induction l as [|f l IH]; intros Hn; [reflexivity|].
  apply not_elem_of_cons in Hn as [Hf Hl]. simpl.
  rewrite (feed_kept_has_feed_id _ _ (not_eq_sym Hf)), (IH Hl).
  rewrite filter_cons.
  destruct (decide (has_feed_id feedId f = false)) as [E|E].
  - rewrite E. reflexivity.
  - apply not_false_is_true in E. rewrite E. reflexivity.
Qed.

Lemma filter_feeds_null (feedId : string) (l : list json) :
  JNull ∈ l -> filter_feeds feedId l = None.
Proof.
  induction l as [|f l IH]; intros Hn; [inversion Hn|].
  apply elem_of_cons in Hn as [<-|Hl]; [reflexivity|]. simpl.
  rewrite (IH Hl). destruct (feed_kept feedId f); reflexivity.
Qed.

Lemma filter_feeds_app (feedId : string) (l1 l2 r1 r2 : list json) :
  filter_feeds feedId l1 = Some r1 ->
  filter_feeds feedId l2 = Some r2 ->
  filter_feeds feedId (l1 ++ l2) = Some (r1 ++ r2).
Proof.
  revert r1. induction l1 as [|f l1 IH]; simpl; intros r1 H1 H2.
  - injection H1 as <-. exact H2.
  - destruct (feed_kept feedId f) as [b|]; [|discriminate].
    destruct (filter_feeds feedId l1) as [r|]; [|discriminate].
    injection H1 as <-. rewrite (IH r eq_refl H2).
    destruct b; reflexivity.
Qed.

Lemma feeds_or_empty_set_feeds (l : list json) (u : User) :
  feeds_or_empty (set_feeds (JArr l) u) = JArr l.
Proof. reflexivity. Qed.

(** X9: deleting a feed id from a stored user whose [feeds] is a list
    without [null] keeps, in order, exactly the elements that are not
    objects with that string as [id]; when no element carries the id the
    list is unchanged, and deleting the same id again changes nothing. *)
Theorem feed_delete_filters (userId feedId : string) (u : User)
    (l : list json) (s : State) :
  find userId (users s) = Some u ->
  feeds_or_empty u = JArr l ->
  JNull ∉ l ->
  let l' := filter (fun f => has_feed_id feedId f = false) l in
  let r := delete_feed userId feedId s in
  fst r = FeedDeleted /\
  get_feeds userId (snd r) = FeedList (JArr l') /\
  Forall (fun f => has_feed_id feedId f = false) l' /\
  (Forall (fun f => has_feed_id feedId f = false) l -> l' = l) /\
  fst (delete_feed userId feedId (snd r)) = FeedDeleted /\
  get_feeds userId (snd (delete_feed userId feedId (snd r)))
    = FeedList (JArr l').
Proof.
  intros Hf Hl Hn l' r. subst r.
  pose proof (filter_feeds_spec feedId l Hn) as Hk. fold l' in Hk.
  rewrite (delete_feed_eq _ _ _ _ _ _ Hf Hl Hk). cbn [fst snd].
  split; [reflexivity|]. split; [apply (get_feeds_amend _ _ u), Hf|].
  assert (Hall : Forall (fun f => has_feed_id feedId f = false) l').
  { subst l'. apply Forall_forall. intros f Hin.
    apply list_elem_of_filter in Hin as [Hp _]. exact Hp. }
  split; [exact Hall|]. split.
  { intros Hno. subst l'. clear -Hno. induction Hno as [|f l Hf _ IH];
      [reflexivity|].
    rewrite filter_cons, decide_True by exact Hf. f_equal. exact IH. }
  set (s1 := writeUsers _ _).
  assert (Hf1 : find userId (users s1) = Some (set_feeds (JArr l') u)).
  { subst s1. rewrite writeUsers_users, find_amend by reflexivity.
    rewrite Hf. reflexivity. }
  assert (Hn' : JNull ∉ l').
  { subst l'. intros Hin. apply list_elem_of_filter in Hin as [_ Hin].
    exact (Hn Hin). }
  assert (Hk' : filter_feeds feedId l' = Some l').
  { rewrite (filter_feeds_spec feedId l' Hn'). f_equal.
    clear -Hall. induction Hall as [|f k Hf _ IH]; [reflexivity|].
    rewrite filter_cons, decide_True by exact Hf. f_equal. exact IH. }
  rewrite (delete_feed_eq _ _ _ _ _ _ Hf1 (feeds_or_empty_set_feeds l' u) Hk').
  cbn [fst snd]. split; [reflexivity|].
  apply (get_feeds_amend _ _ (set_feeds (JArr l') u)), Hf1.
Qed.

Lemma feed_delete_filters_witness :
  get_feeds "u1"
    (snd (delete_feed "u1" "1700000000500"
            (snd (post_feed "u1" body_feed 1700000000500 only_u1))))
  = FeedList (JArr []).
Proof.
  pose proof (feed_delete_filters "u1" "1700000000500"
                (set_feeds (JArr [new_feed body_feed 1700000000500]) u1)
                [new_feed body_feed 1700000000500]
                (snd (post_feed "u1" body_feed 1700000000500 only_u1))) as H.
  destruct H as (_ & H & _).
  - reflexivity.
  - reflexivity.
  - intros Hin. apply list_elem_of_singleton in Hin. discriminate Hin.
  - exact H.
Defined.

Lemma put_user_users (userId : string) (body : Body) (u : User) (s : State) :
  find userId (users s) = Some u ->
  users (snd (put_user userId body s))
  = amend userId (assign_fields body) (users s).
Proof.
  intros Hf. rewrite (put_user_eq _ _ _ _ Hf).
  destruct (status u); cbn [snd]; rewrite ?killUserBridge_users; reflexivity.
Qed.

Lemma feeds_not_list_throw (userId : string) (u : User) (s : State) :
  find userId (users s) = Some u ->
  truthy (feeds u) = true ->
  (forall l, feeds u ≠ JArr l) ->
  (forall body now,
     js_not (body !! "title") = false -> js_not (body !! "url") = false ->
     post_feed userId body now s = (FeedThrows, s)) /\
  (forall feedId, delete_feed userId feedId s = (FeedThrows, s)) /\
  get_feeds userId s = FeedList (feeds u).
Proof.
  intros Hf Ht Hna. destruct (find_Some_findIndex _ _ _ Hf) as (idx & Hi & Hx).
  assert (Hfe : feeds_or_empty u = feeds u).
  { unfold feeds_or_empty, js_or. rewrite Ht. reflexivity. }
  split; [|split].
  - intros body now Hti Hu. unfold post_feed, readUsers.
    rewrite Hi, Hti, Hu, Hx, Hfe. cbn [orb].
    destruct (feeds u) as [| | | |l|]; try reflexivity.
    exfalso. exact (Hna l eq_refl).
  - intros feedId. unfold delete_feed, readUsers. rewrite Hi, Hx, Hfe.
    destruct (feeds u) as [| | | |l|]; try reflexivity.
    exfalso. exact (Hna l eq_refl).
  - unfold get_feeds, readUsers. rewrite Hf, Hfe. reflexivity.
Qed.

(** X10: the update route stores any JSON value as [feeds].  Once it has
    stored a truthy value that is not a list (a string, a number, [true], an
    object), the feed list route returns that value as it is, and adding or
    deleting a feed of this user throws before anything is written.
    Deleting also throws, with nothing written, when the list holds a
    [null]. *)
Theorem feed_routes_throw_after_update (userId : string) (body : Body)
    (v : json) (u : User) (s : State) :
  find userId (users s) = Some u ->
  body !! "feeds" = Some v ->
  truthy v = true ->
  (forall l, v ≠ JArr l) ->
  let s1 := snd (put_user userId body s) in
  (forall body' now,
     js_not (body' !! "title") = false -> js_not (body' !! "url") = false ->
     post_feed userId body' now s1 = (FeedThrows, s1)) /\
  (forall feedId, delete_feed userId feedId s1 = (FeedThrows, s1)) /\
  get_feeds userId s1 = FeedList v /\
  (forall l feedId,
     feeds u = JArr l -> JNull ∈ l ->
     delete_feed userId feedId s = (FeedThrows, s)).
Proof.
  intros Hf Hb Ht Hna s1.
  assert (Hf1 : find userId (users s1) = Some (assign_fields body u)).
  { subst s1. rewrite (put_user_users _ _ _ _ Hf), find_amend by reflexivity.
    rewrite Hf. reflexivity. }
  assert (Hv : feeds (assign_fields body u) = v).
  { cbn [feeds assign_fields]. rewrite Hb. reflexivity. }
  destruct (feeds_not_list_throw userId _ s1 Hf1) as (H1 & H2 & H3).
  { rewrite Hv. exact Ht. }
  { rewrite Hv. exact Hna. }
  rewrite Hv in H3. split; [exact H1|]. split; [exact H2|].
  split; [exact H3|].
  intros l feedId Hl Hin.
  destruct (find_Some_findIndex _ _ _ Hf) as (idx & Hi & Hx).
  unfold delete_feed, readUsers. rewrite Hi, Hx.
  unfold feeds_or_empty, js_or. rewrite Hl. cbn [truthy].
  rewrite (filter_feeds_null _ _ Hin). reflexivity.
Qed.

Lemma feed_routes_throw_after_update_witness :
  get_feeds "u1" (snd (put_user "u1" {["feeds" := JStr "none"]} only_u1))
    = FeedList (JStr "none").
Proof.
  apply (feed_routes_throw_after_update "u1" {["feeds" := JStr "none"]}
           (JStr "none") u1 only_u1); try reflexivity.
  intros l H. discriminate H.
Defined.

Lemma feed_kept_new_feed (body : Body) (now : Z) :
  feed_kept (pretty now) (new_feed body now) = Some false.
Proof.
  unfold new_feed, feed_kept. cbn [obj_get String.eqb Ascii.eqb Bool.eqb].
  rewrite String.eqb_refl. reflexivity.
Qed.

(** X11: feed ids are the clock value alone.  Two feeds added to a user at
    the same clock value are both stored, with the same id, and one
    deletion by that id removes both (together with any older feed of that
    id). *)
Theorem feeds_added_at_same_clock (userId : string) (b1 b2 : Body) (now : Z)
    (u : User) (l l' : list json) (s : State) :
  find userId (users s) = Some u ->
  js_not (b1 !! "title") = false -> js_not (b1 !! "url") = false ->
  js_not (b2 !! "title") = false -> js_not (b2 !! "url") = false ->
  feeds_or_empty u = JArr l ->
  filter_feeds (pretty now) l = Some l' ->
  let s2 := snd (post_feed userId b2 now (snd (post_feed userId b1 now s))) in
  get_feeds userId s2
    = FeedList (JArr (l ++ [new_feed b1 now; new_feed b2 now])) /\
  has_feed_id (pretty now) (new_feed b1 now) = true /\
  has_feed_id (pretty now) (new_feed b2 now) = true /\
  get_feeds userId (snd (delete_feed userId (pretty now) s2))
    = FeedList (JArr l').
Proof.
  intros Hf Ht1 Hu1 Ht2 Hu2 Hl Hk s2. subst s2.
  rewrite (post_feed_eq _ _ _ _ _ _ Hf Ht1 Hu1 Hl). cbn [snd].
  set (s1 := writeUsers _ _).
  assert (Hf1 : find userId (users s1)
                = Some (set_feeds (JArr (l ++ [new_feed b1 now])) u)).
  { subst s1. rewrite writeUsers_users, find_amend by reflexivity.
    rewrite Hf. reflexivity. }
  rewrite (post_feed_eq _ _ _ _ _ _ Hf1 Ht2 Hu2 (feeds_or_empty_set_feeds _ u)).
  cbn [snd]. set (s2 := writeUsers _ _).
  assert (Hf2 : find userId (users s2)
                = Some (set_feeds
                          (JArr ((l ++ [new_feed b1 now]) ++ [new_feed b2 now]))
                          (set_feeds (JArr (l ++ [new_feed b1 now])) u))).
  { subst s2. rewrite writeUsers_users, find_amend by reflexivity.
    rewrite Hf1. reflexivity. }
  assert (Hid : forall b, has_feed_id (pretty now) (new_feed b now) = true).
  { intros b. unfold new_feed, has_feed_id.
    cbn [obj_get String.eqb Ascii.eqb Bool.eqb]. apply String.eqb_refl. }
  split.
  { unfold get_feeds, readUsers. rewrite Hf2. rewrite <- app_assoc. reflexivity. }
  split; [apply Hid|]. split; [apply Hid|].
  assert (Hk2 : filter_feeds (pretty now)
                  ((l ++ [new_feed b1 now]) ++ [new_feed b2 now]) = Some l').
  { rewrite <- app_assoc.
    rewrite (filter_feeds_app _ l [new_feed b1 now; new_feed b2 now] l' []).
    - rewrite app_nil_r. reflexivity.
    - exact Hk.
    - cbn [filter_feeds]. rewrite !feed_kept_new_feed. reflexivity. }
  rewrite (delete_feed_eq _ _ _ _ _ _ Hf2 (feeds_or_empty_set_feeds _ _) Hk2).
  cbn [snd]. apply (get_feeds_amend _ _ _ _ _ Hf2).
Qed.

Lemma feeds_added_at_same_clock_witness :
  get_feeds "u1"
    (snd (delete_feed "u1" (pretty 1700000000500)
       (snd (post_feed "u1" body_feed 1700000000500
          (snd (post_feed "u1" body_feed 1700000000500 only_u1))))))
  = FeedList (JArr []).
Proof.
  apply (feeds_added_at_same_clock "u1" body_feed body_feed 1700000000500
           u1 [] [] only_u1); reflexivity.
Defined.

(** ** Requests that arrive during an [await] *)

Lemma exec_ReqCreate (s : State) (pend : list Task) (resp : list Response)
    (body : Body) (now : Z) (iso : string) :
  js_not (body !! "name") = false ->
  exists user,
    id user = "user_" +:+ pretty now /\
    exec (mkWorld s pend resp) (ReqCreate body now iso)
    = mkWorld (writeUsers (users s ++ [user]) s) pend
              (resp ++ [UserCreated user]).
Proof.
  intros Hn. destruct (post_users_eq body now iso s Hn) as (user & Hid & Hp).
  exists user. split; [exact Hid|]. unfold exec. cbn [state pending responses].
  rewrite Hp. reflexivity.
Qed.

Lemma exec_ReqDelete (s : State) (pend : list Task) (resp : list Response)
    (userId : string) (idx : nat) :
  findIndex userId (users s) = Some idx ->
  exec (mkWorld s pend resp) (ReqDelete userId)
  = mkWorld (killUserBridge userId s)
            (pend ++ [AwaitDeleteRoute (users s) idx userId]) resp.
Proof.
  intros Hi. unfold exec, delete_user, readUsers. cbn [state].
  rewrite Hi. reflexivity.
Qed.

Lemma resume_start_eq (user : User) (env : Env) (s : State) :
  resume (AwaitStartRoute user) env s =
  (match fst (startUserBridge_resume user env s) with
   | Returned _ => BridgeStarted (name user)
   | Threw => Rejected
   end, snd (startUserBridge_resume user env s)).
Proof.
  unfold resume. destruct (startUserBridge_resume user env s) as [[b|] s'];
    reflexivity.
Qed.

(** X12: the continuations of stop and of delete write back the copy of
    [users.json] they read before their [await].  A user created while a
    stop or a delete of another (or the same) stored user waits for its
    sweep is answered as created, and is gone from the file once that
    continuation has run. *)
Theorem continuation_overwrites_creation (w : World) (userId : string)
    (user : User) (body : Body) (now : Z) (iso : string) (env : Env) :
  pending w = [] ->
  find userId (users (state w)) = Some user ->
  js_not (body !! "name") = false ->
  let w1 := run [ReqStop userId; ReqCreate body now iso; Resume 0 env] w in
  let w2 := run [ReqDelete userId; ReqCreate body now iso; Resume 0 env] w in
  (exists created,
     responses w1
       = responses w ++ [UserCreated created; BridgeStopped (name user)] /\
     users (state w1) = mark userId stopped pid_null (users (state w)) /\
     length (users (state w1)) = length (users (state w))) /\
  (exists created idx,
     responses w2 = responses w ++ [UserCreated created; UserDeleted] /\
     findIndex userId (users (state w)) = Some idx /\
     users (state w2) = splice1 idx (users (state w)) /\
     length (users (state w2)) = pred (length (users (state w)))).
Proof.
  intros Hpend Hf Hn w1 w2. subst w1 w2.
  destruct w as [s pend resp]. cbn [pending state responses] in *. subst pend.
  unfold run. cbn [foldl]. split.
  - rewrite (exec_ReqStop _ _ _ _ user Hf). cbn [app].
    destruct (exec_ReqCreate (killUserBridge userId s)
                [AwaitStopRoute (users s) userId user] resp body now iso Hn)
      as (created & _ & ->).
    resume_step. cbn [state responses].
    exists created.
    rewrite (resume_stop_state _ _ _ _ _ Hf), writeUsers_users.
    unfold resume. destruct (find_Some_findIndex _ _ _ Hf) as (idx & -> & _).
    cbn [fst]. rewrite <- app_assoc. split; [reflexivity|].
    split; [reflexivity|]. rewrite mark_amend. apply length_amend.
  - destruct (find_Some_findIndex _ _ _ Hf) as (idx & Hi & _).
    rewrite (exec_ReqDelete _ _ _ _ idx Hi). cbn [app].
    destruct (exec_ReqCreate (killUserBridge userId s)
                [AwaitDeleteRoute (users s) idx userId] resp body now iso Hn)
      as (created & _ & ->).
    resume_step. cbn [state responses resume fst snd].
    exists created, idx. rewrite writeUsers_users, <- app_assoc.
    split; [reflexivity|]. split; [exact Hi|]. split; [reflexivity|].
    apply splice1_length. eapply findIndex_lt, Hi.
Qed.

Lemma continuation_overwrites_creation_witness :
  users (state (run [ReqStop ann; ReqCreate body_bob 1700000000777 "t";
                     Resume 0 (env_ok 7)] ann_running))
  = mark ann stopped pid_null (users (state ann_running)).
Proof.
  destruct (continuation_overwrites_creation ann_running ann ann_record
              body_bob 1700000000777 "t" (env_ok 7))
    as [(created & _ & H & _) _]; [vm_compute; reflexivity ..|exact H].
Defined.

(** X13: a delete does not cancel a start that is waiting for its sweep.
    When the continuation of the delete runs first, the continuation of the
    start still writes the config file, spawns the worker and registers its
    handle: the user has no record any more, yet a worker runs for it and
    its config file exists again. *)
Theorem delete_during_start (w : World) (userId : string) (user : User)
    (env : Env) (n : Z) :
  pending w = [] ->
  find userId (users (state w)) = Some user ->
  NoDup (id <$> users (state w)) ->
  truthy (mcpEndpoint user) = true ->
  env_config_write_ok env = true ->
  env_spawn env = Spawned n ->
  let w' := run [ReqStart userId; ReqDelete userId;
                 Resume 1 env; Resume 0 env] w in
  responses w' = responses w ++ [UserDeleted; BridgeStarted (name user)] /\
  pending w' = [] /\
  find userId (users (state w')) = None /\
  bridgeProcesses (state w') !! userId
    = Some (mkHandle (length (procs (state w))) (Some n)) /\
  procs (state w') !! length (procs (state w))
    = Some (mkChild (Some n) userId false false) /\
  configs (state w') !! configPath userId = Some (mcpServers user).
Proof.
  intros Hpend Hf Hnd He Hw Hs w'. subst w'.
  destruct w as [s pend resp]. cbn [pending state responses] in *. subst pend.
  pose proof (find_id _ _ _ Hf) as Hid.
  destruct (find_Some_findIndex _ _ _ Hf) as (idx & Hi & _).
  unfold run. cbn [foldl].
  rewrite (exec_ReqStart _ _ _ _ user Hf He). cbn [app].
  assert (Hi' : findIndex userId (users (killUserBridge userId s)) = Some idx)
    by (rewrite killUserBridge_users; exact Hi).
  rewrite (exec_ReqDelete _ _ _ _ idx Hi'). cbn [app].
  resume_step. resume_step. cbn [state responses pending].
  set (s3 := snd (resume (AwaitDeleteRoute _ _ _) env _)).
  assert (Hu3 : users s3 = splice1 idx (users s)).
  { subst s3. cbn [resume snd]. rewrite writeUsers_users, killUserBridge_users.
    reflexivity. }
  assert (Hp3 : procs s3 = procs (killUserBridge userId (killUserBridge userId s))).
  { subst s3. cbn [resume snd]. unfold unlink_config.
    destruct (_ && _); reflexivity. }
  assert (Hnt : env_spawn env ≠ SpawnThrows) by (rewrite Hs; discriminate).
  destruct (startUserBridge_resume_launch user env s3 He Hw Hnt)
    as (Hr & Hu & Hb & Hp & Hc & _).
  rewrite !resume_start_eq.
  destruct (startUserBridge_resume user env s3) as [[b|] s4];
    cbn [fst snd] in *; [|discriminate].
  rewrite Hid, Hs in *. cbn [spawn_pid pidval_of] in *.
  assert (Hl3 : length (procs s3) = length (procs s)).
  { rewrite Hp3, !killUserBridge_procs_length. reflexivity. }
  split.
  { rewrite <- app_assoc. reflexivity. }
  split; [reflexivity|]. split.
  { rewrite Hu, find_mark, Hu3, (find_splice1 _ _ _ Hnd Hi). reflexivity. }
  split; [rewrite Hb, Hl3; apply lookup_insert_eq|].
  split; [rewrite Hp, <- Hl3; apply list_lookup_middle; reflexivity|].
  rewrite Hc. apply lookup_insert_eq.
Qed.

Lemma delete_during_start_witness :
  outcome ann (state (run [ReqStart ann; ReqDelete ann;
                           Resume 1 (env_ok 100); Resume 0 (env_ok 100)]
                          ann_created))
  = (Some (mkHandle 0 (Some 100)), None).
Proof.
  destruct (delete_during_start ann_created ann
              (set_status_pid stopped pid_null ann_record) (env_ok 100) 100)
    as (_ & _ & Hu & Hb & _).
  - reflexivity.
  - vm_compute. reflexivity.
  - vm_compute. apply NoDup_singleton.
  - reflexivity.
  - reflexivity.
  - reflexivity.
  - unfold outcome. rewrite Hb, Hu. reflexivity.
Defined.

(** ** Other users *)

Lemma untouched_refl (other : string) (s : State) : untouched other s s.
Proof. repeat split; auto. Qed.

Lemma untouched_trans (other : string) (s1 s2 s3 : State) :
  untouched other s1 s2 -> untouched other s2 s3 -> untouched other s1 s3.
Proof.
  intros (Hb1 & Hu1 & Hp1) (Hb2 & Hu2 & Hp2). repeat split.
  - congruence.
  - congruence.
  - intros h c Hh Hc. apply Hp2; [congruence|]. apply Hp1; assumption.
Qed.

Lemma killUserBridge_untouched (userId other : string) (s : State) :
  registry_wf s -> other ≠ userId ->
  untouched other s (killUserBridge userId s).
Proof.
  intros Hwf Hne. split; [|split].
  - rewrite killUserBridge_registry. apply lookup_delete_ne. congruence.
  - rewrite killUserBridge_users. reflexivity.
  - intros h c Hh Hc. rewrite killUserBridge_procs.
    destruct (bridgeProcesses s !! userId) as [h0|] eqn:E; [|exact Hc].
    rewrite list_lookup_alter_ne; [exact Hc|].
    intros Heq. destruct (Hwf _ _ E) as (c0 & Hc0 & Hu0 & _).
    destruct (Hwf _ _ Hh) as (c1 & Hc1 & Hu1 & _).
    rewrite Heq in Hc0. congruence.
Qed.

Lemma startUserBridge_resume_untouched (user : User) (env : Env)
    (other : string) (s : State) :
  other ≠ id user ->
  untouched other s (snd (startUserBridge_resume user env s)).
Proof.
  intros Hne. destruct (start_env_cases user env) as [Hfail|(He & Hw & Hs)].
  - destruct (startUserBridge_resume_failure user env s Hfail)
      as (_ & _ & Hu & Hb & Hp).
    split; [rewrite Hb; reflexivity|]. split; [rewrite Hu; reflexivity|].
    intros h c _ Hc. rewrite Hp. exact Hc.
  - destruct (startUserBridge_resume_launch user env s He Hw Hs)
      as (_ & Hu & Hb & Hp & _).
    split; [|split].
    + rewrite Hb. apply lookup_insert_ne. congruence.
    + rewrite Hu. apply find_mark_other, Hne.
    + intros h c _ Hc. rewrite Hp. apply lookup_app_l_Some, Hc.
Qed.

Lemma writeUsers_untouched (other : string) (data : list User) (s : State) :
  find other data = find other (users s) ->
  untouched other s (writeUsers data s).
Proof. intros H. repeat split; auto. Qed.

Lemma find_splice1_other (userId other : string) (l : list User) (idx : nat) :
  findIndex userId l = Some idx -> other ≠ userId ->
  find other (splice1 idx l) = find other l.
Proof.
  revert idx. induction l as [|x l IH]; simpl; intros idx; [discriminate|].
  destruct (String.eqb (id x) userId) eqn:E.
  - intros [= <-] Hne. unfold splice1. simpl. rewrite drop_0.
    apply String.eqb_eq in E.
    destruct (String.eqb (id x) other) eqn:E'; [|reflexivity].
    apply String.eqb_eq in E'. congruence.
  - destruct (findIndex userId l) as [i|]; simpl; [|discriminate].
    intros [= <-] Hne. unfold splice1. simpl.
    destruct (String.eqb (id x) other); [reflexivity|].
    apply (IH i eq_refl Hne).
Qed.

Lemma unlink_config_untouched (other userId : string) (b : bool) (s : State) :
  untouched other s (unlink_config userId b s).
Proof. unfold unlink_config. destruct (_ && _); repeat split; auto. Qed.

Lemma unlink_config_users (userId : string) (b : bool) (s : State) :
  users (unlink_config userId b s) = users s.
Proof. unfold unlink_config. destruct (_ && _); reflexivity. Qed.

(** X14: a start, a stop, a delete or an update of one user that runs
    without interruption, whatever its outcome, leaves every other user as
    it was: the same handle in the table, the same record in the file, and
    the process of that handle neither killed nor otherwise changed. *)
Theorem other_users_untouched (userId other : string) (body : Body)
    (env : Env) (s : State) :
  registry_wf s ->
  other ≠ userId ->
  untouched other s (snd (start userId env s)) /\
  untouched other s (snd (stop userId env s)) /\
  untouched other s (snd (destroy userId env s)) /\
  untouched other s (snd (update userId body env s)).
Proof.
  intros Hwf Hne.
  assert (Hk := killUserBridge_untouched userId other s Hwf Hne).
  split; [|split; [|split]].
  - unfold start, post_user_start, readUsers.
    destruct (find userId (users s)) as [user|] eqn:Hf;
      [|apply untouched_refl].
    pose proof (find_id _ _ _ Hf) as Hid.
    destruct (negb _); [apply untouched_refl|]. cbn [complete].
    rewrite resume_start_eq, Hid. cbn [snd].
    eapply untouched_trans; [exact Hk|].
    apply startUserBridge_resume_untouched. congruence.
  - destruct (find userId (users s)) as [user|] eqn:Hf.
    + rewrite (stop_eq _ _ _ _ Hf). cbn [snd].
      eapply untouched_trans; [exact Hk|].
      apply writeUsers_untouched. rewrite killUserBridge_users.
      apply find_mark_other, Hne.
    + unfold stop, post_user_stop, readUsers. rewrite Hf. apply untouched_refl.
  - destruct (findIndex userId (users s)) as [idx|] eqn:Hi.
    + rewrite (destroy_eq _ _ _ _ Hi). cbn [snd].
      eapply untouched_trans; [exact Hk|].
      eapply untouched_trans; [apply unlink_config_untouched|].
      apply writeUsers_untouched.
      rewrite unlink_config_users, killUserBridge_users.
      apply (find_splice1_other _ _ _ _ Hi Hne).
    + unfold destroy, delete_user, readUsers. rewrite Hi. apply untouched_refl.
  - destruct (find userId (users s)) as [u|] eqn:Hf.
    + assert (Hw : untouched other s
                     (writeUsers (amend userId (assign_fields body) (users s)) s)).
      { apply writeUsers_untouched.
        apply find_amend_other; [reflexivity|exact Hne]. }
      unfold update. rewrite (put_user_eq _ _ _ _ Hf).
      destruct (status u); cbn [complete snd]; [exact Hw|].
      eapply untouched_trans; [exact Hw|].
      eapply untouched_trans.
      { apply killUserBridge_untouched; [|exact Hne].
        eapply registry_wf_ext; [| |exact Hwf]; reflexivity. }
      unfold resume.
      pose proof (startUserBridge_resume_untouched (assign_fields body u) env
                    other (killUserBridge userId
                             (writeUsers (amend userId (assign_fields body)
                                            (users s)) s))) as H.
      destruct (startUserBridge_resume _ _ _) as [[b|] s']; cbn [snd] in *;
        apply H; cbn [id assign_fields]; rewrite (find_id _ _ _ Hf);
        exact Hne.
    + unfold update, put_user, readUsers.
      apply findIndex_find in Hf. rewrite Hf. apply untouched_refl.
Qed.

Lemma other_users_untouched_witness :
  untouched "u1" ann_and_u1 (snd (destroy ann (env_ok 7) ann_and_u1)).
Proof.
  apply (other_users_untouched ann "u1" body_bob (env_ok 7) ann_and_u1).
  - intros userId h Hh. unfold ann_and_u1 in Hh. cbn [bridgeProcesses] in Hh.
    apply lookup_singleton_Some in Hh as [<- <-].
    eexists. split; [reflexivity|]. repeat split; reflexivity.
  - discriminate.
Defined.

(** ** Status and pid of the stored records *)

Lemma coupled_stopped (u : User) : coupled (set_status_pid stopped pid_null u).
Proof. split; reflexivity. Qed.

Lemma coupled_running (p : option Z) (u : User) :
  coupled (set_status_pid running (pidval_of p) u).
Proof. split; [discriminate|]. destruct p; discriminate. Qed.

Lemma Forall_coupled_amend (userId : string) (f : User -> User)
    (l : list User) :
  (forall u, coupled u -> coupled (f u)) ->
  Forall coupled l -> Forall coupled (amend userId f l).
Proof.
  intros Hf Hl. unfold amend. destruct (findIndex userId l); [|exact Hl].
  apply Forall_alter; [exact Hl|]. intros x _ Hx. apply Hf, Hx.
Qed.

Lemma update_status_coupled (userId : string) (st : Status) (p : pidval)
    (s : State) :
  (forall u, coupled (set_status_pid st p u)) ->
  Forall coupled (users s) ->
  Forall coupled (users (update_status userId st p s)).
Proof.
  intros Hc Hl. rewrite update_status_users, mark_amend.
  apply Forall_coupled_amend; [intros u _; apply Hc|exact Hl].
Qed.

Lemma startUserBridge_resume_coupled (user : User) (env : Env) (s : State) :
  Forall coupled (users s) ->
  Forall coupled (users (snd (startUserBridge_resume user env s))).
Proof.
  intros Hl. destruct (start_env_cases user env) as [Hfail|(He & Hw & Hs)].
  - destruct (startUserBridge_resume_failure user env s Hfail)
      as (_ & _ & -> & _). exact Hl.
  - destruct (startUserBridge_resume_launch user env s He Hw Hs)
      as (_ & -> & _). rewrite mark_amend.
    apply Forall_coupled_amend; [|exact Hl].
    intros u _. apply coupled_running.
Qed.

Lemma resume_coupled (t : Task) (env : Env) (s : State) :
  Forall coupled (task_data t) ->
  Forall coupled (users s) ->
  Forall coupled (users (snd (resume t env s))).
Proof.
  intros Ht Hl. destruct t as [user|user|data userId user|data idx userId];
    unfold resume.
  - pose proof (startUserBridge_resume_coupled user env s Hl) as H.
    destruct (startUserBridge_resume user env s) as [[b|] s']; exact H.
  - pose proof (startUserBridge_resume_coupled user env s Hl) as H.
    destruct (startUserBridge_resume user env s) as [[b|] s']; exact H.
  - cbn [task_data] in Ht. destruct (findIndex userId data); [|exact Hl].
    cbn [snd]. rewrite writeUsers_users.
    apply Forall_alter; [exact Ht|]. intros x _ _. apply coupled_stopped.
  - cbn [task_data snd] in *. rewrite writeUsers_users. unfold splice1.
    apply Forall_app_2; [apply Forall_take|apply Forall_drop]; exact Ht.
Qed.

Lemma enter_coupled (r : (Response + Task) * State) (w : World) :
  Forall coupled (users (snd r)) ->
  (forall t, fst r = inr t -> Forall coupled (task_data t)) ->
  Forall (fun t => Forall coupled (task_data t)) (pending w) ->
  world_coupled (enter r w).
Proof.
  intros Hu Ht Hp. destruct r as [[resp|t] s]; cbn [enter fst snd] in *;
    split; cbn [state pending]; auto.
  apply Forall_app_2; [exact Hp|]. apply Forall_singleton. apply Ht.
  reflexivity.
Qed.

Lemma exec_coupled (w : World) (a : Action) :
  world_coupled w -> world_coupled (exec w a).
Proof.
  intros [Hu Hp].
  destruct a as [body now iso|userId body|userId|userId|userId|n env|p];
    unfold exec.
  - unfold post_users, readUsers. destruct (js_not _); [split; assumption|].
    split; [|exact Hp]. cbn [state]. rewrite writeUsers_users.
    apply Forall_app_2; [exact Hu|]. apply Forall_singleton. split; reflexivity.
  - apply enter_coupled; [| |exact Hp].
    + unfold put_user, readUsers.
      destruct (findIndex userId (users (state w))) as [idx|]; [|exact Hu].
      assert (Ha : Forall coupled
                     (alter (assign_fields body) idx (users (state w)))).
      { apply Forall_alter; [exact Hu|]. intros x _ Hx. exact Hx. }
      destruct (alter _ _ _ !! idx) as [u|]; [|exact Ha].
      destruct (status u); cbn [snd]; rewrite ?killUserBridge_users; exact Ha.
    + intros t Ht. unfold put_user, readUsers in Ht.
      destruct (findIndex userId (users (state w))) as [idx|];
        [|discriminate].
      destruct (alter _ _ _ !! idx) as [u|]; [|discriminate].
      destruct (status u); [discriminate|].
      injection Ht as <-. constructor.
  - apply enter_coupled; [| |exact Hp].
    + unfold delete_user, readUsers.
      destruct (findIndex userId (users (state w))); [|exact Hu].
      cbn [snd]. rewrite killUserBridge_users. exact Hu.
    + intros t Ht. unfold delete_user, readUsers in Ht.
      destruct (findIndex userId (users (state w))); [|discriminate].
      injection Ht as <-. exact Hu.
  - apply enter_coupled; [| |exact Hp].
    + unfold post_user_start, readUsers.
      destruct (find userId (users (state w))); [|exact Hu].
      destruct (negb _); [exact Hu|].
      cbn [snd]. rewrite killUserBridge_users. exact Hu.
    + intros t Ht. unfold post_user_start, readUsers in Ht.
      destruct (find userId (users (state w))); [|discriminate].
      destruct (negb _); [discriminate|]. injection Ht as <-. constructor.
  - apply enter_coupled; [| |exact Hp].
    + unfold post_user_stop, readUsers.
      destruct (find userId (users (state w))); [|exact Hu].
      cbn [snd]. rewrite killUserBridge_users. exact Hu.
    + intros t Ht. unfold post_user_stop, readUsers in Ht.
      destruct (find userId (users (state w))); [|discriminate].
      injection Ht as <-. exact Hu.
  - destruct (pending w !! n) as [t|] eqn:E; [|split; assumption].
    pose proof (resume_coupled t env (state w)
                  (Forall_lookup_1 _ _ _ _ Hp E) Hu) as H.
    destruct (resume t env (state w)) as [resp s']. split; [exact H|].
    cbn [pending]. apply Forall_delete, Hp.
  - destruct (can_exit p (state w)); [|split; assumption].
    split; [|exact Hp]. cbn [state]. unfold on_exit.
    destruct (procs (state w) !! p); [|exact Hu].
    apply update_status_coupled; [apply coupled_stopped|exact Hu].
Qed.

Lemma serve_coupled (w : World) (r : Request) :
  world_coupled w -> world_coupled (serve w r).
Proof.
  intros Hw. destruct r as [a|userId body now|userId feedId];
    [apply exec_coupled, Hw| |]; destruct Hw as [Hu Hp];
    (split; [|exact Hp]); cbn [serve state].
  - unfold post_feed, readUsers.
    destruct (findIndex userId (users (state w))) as [idx|]; [|exact Hu].
    destruct (_ || _); [exact Hu|].
    destruct (users (state w) !! idx) as [u|] eqn:Ex; [|exact Hu].
    destruct (feeds_or_empty u); try exact Hu.
    cbn [snd]. rewrite writeUsers_users.
    apply Forall_insert; [exact Hu|]. exact (Forall_lookup_1 _ _ _ _ Hu Ex).
  - unfold delete_feed, readUsers.
    destruct (findIndex userId (users (state w))) as [idx|]; [|exact Hu].
    destruct (users (state w) !! idx) as [u|] eqn:Ex; [|exact Hu].
    destruct (feeds_or_empty u); try exact Hu.
    destruct (filter_feeds _ _); [|exact Hu].
    cbn [snd]. rewrite writeUsers_users.
    apply Forall_insert; [exact Hu|]. exact (Forall_lookup_1 _ _ _ _ Hu Ex).
Qed.

Lemma serve_wf (w : World) (r : Request) :
  registry_wf (state w) -> registry_wf (state (serve w r)).
Proof.
  intros Hwf. destruct r as [a|userId body now|userId feedId]; cbn [serve state].
  - apply exec_wf, Hwf.
  - destruct (post_feed_frame userId body now (state w)) as (Hb & Hp & _).
    eapply registry_wf_ext; [exact Hb|exact Hp|exact Hwf].
  - destruct (delete_feed_frame userId feedId (state w)) as (Hb & Hp & _).
    eapply registry_wf_ext; [exact Hb|exact Hp|exact Hwf].
Qed.

(** X15: whatever requests, continuations and termination notifications the
    server has processed, in whatever order, every record of [users.json]
    reads stopped exactly when its pid is null (a running record has a pid,
    or none at all after a failed launch, never null), and every registered
    handle still points to a process launched for its user that was neither
    killed nor notified as terminated. *)
Theorem served_records_coupled (w : World) :
  served w ->
  Forall coupled (users (state w)) /\ registry_wf (state w).
Proof.
  intros [rs ->].
  assert (H : world_coupled (foldl serve boot rs)
              /\ registry_wf (state (foldl serve boot rs))).
  { induction rs as [|r rs IH] using rev_ind.
    - split; [split; constructor|].
      intros userId h Hh. cbn in Hh. rewrite lookup_empty in Hh. discriminate.
    - rewrite foldl_snoc. destruct IH as [Hc Hwf].
      split; [apply serve_coupled, Hc|apply serve_wf, Hwf]. }
  destruct H as [[Hu _] Hwf]. split; assumption.
Qed.

Lemma served_records_coupled_witness :
  Forall coupled (users (state ann_stopping)).
Proof.
  apply (served_records_coupled ann_stopping).
  exists (Core <$> [ReqCreate body_ann 1700000000000 "2023-11-14T22:13:20.000Z";
                    ReqStart ann; Resume 0 (env_ok 100); ReqStop ann]).
  vm_compute. reflexivity.
Defined.

(** ** Start, then termination *)

Lemma start_launch (userId : string) (user : User) (env : Env) (n : Z)
    (s : State) :
  find userId (users s) = Some user ->
  truthy (mcpEndpoint user) = true ->
  env_config_write_ok env = true ->
  env_spawn env = Spawned n ->
  let r := start userId env s in
  let p := length (procs s) in
  fst r = BridgeStarted (name user) /\
  outcome userId (snd r) = (Some (mkHandle p (Some n)), Some (running, pid_num n)) /\
  procs (snd r) !! p = Some (mkChild (Some n) userId false false) /\
  length (procs (snd r)) = S p /\
  configs (snd r) !! configPath userId = Some (mcpServers user) /\
  (registry_wf s -> registry_wf (snd r)) /\
  trace (snd r) =
    trace s ++ kill_events userId s
      ++ [EvSweep userId; EvWriteConfig (configPath userId) true;
          EvSpawn (Spawned n); EvWriteUsers] /\
  (forall h c,
     bridgeProcesses s !! userId = Some h ->
     procs s !! process h = Some c ->
     procs (snd r) !! process h = Some (mark_killed c)).
Proof.
  intros Hf He Hw Hs r p. subst r p.
  pose proof (find_id _ _ _ Hf) as Hid.
  rewrite (start_eq _ _ _ _ Hf He). unfold startUserBridge. rewrite Hid.
  set (s1 := killUserBridge userId s).
  assert (Hnt : env_spawn env ≠ SpawnThrows) by (rewrite Hs; discriminate).
  destruct (startUserBridge_resume_launch user env s1 He Hw Hnt)
    as (Hr & Hu & Hb & Hp & Hc & Ht).
  pose proof (startUserBridge_resume_wf user env s1) as Hwf1.
  destruct (startUserBridge_resume user env s1) as [[b|] s'];
    cbn [fst snd] in *; [|discriminate].
  rewrite Hid, Hs in *. cbn [spawn_pid pidval_of] in *.
  assert (Hl1 : length (procs s1) = length (procs s))
    by (subst s1; apply killUserBridge_procs_length).
  assert (Hf1 : find userId (users s1) = Some user)
    by (subst s1; rewrite killUserBridge_users; exact Hf).
  split; [reflexivity|]. split.
  { unfold outcome. rewrite Hb, Hu, find_mark, Hf1, Hl1, lookup_insert_eq.
    reflexivity. }
  split; [rewrite Hp, <- Hl1; apply list_lookup_middle; reflexivity|].
  split; [rewrite Hp, length_app, Hl1; simpl; lia|].
  split; [rewrite Hc; apply lookup_insert_eq|].
  split; [intros Hwf; apply Hwf1; subst s1; apply killUserBridge_wf, Hwf|].
  split.
  { rewrite Ht. subst s1. rewrite killUserBridge_trace, killUserBridge_users.
    destruct (find_Some_findIndex _ _ _ Hf) as (idx & -> & _).
    rewrite <- !app_assoc. reflexivity. }
  intros h c Hh Hpc. rewrite Hp. subst s1. rewrite killUserBridge_procs, Hh.
  apply lookup_app_l_Some. rewrite list_lookup_alter_eq, Hpc. reflexivity.
Qed.


(** X16: a start of a stored user with an endpoint, run without
    interruption with a launch that succeeds, answers success and leaves
    the table, the file, the process and the config file in agreement: the
    handle registered for the user is the new process object, its pid is
    the pid of that process and the pid of the record, which reads running,
    and the config file holds the servers generated from the record as it
    was read by the request. *)
Theorem start_success (userId : string) (user : User) (env : Env) (n : Z)
    (s : State) :
  find userId (users s) = Some user ->
  truthy (mcpEndpoint user) = true ->
  env_config_write_ok env = true ->
  env_spawn env = Spawned n ->
  let r := start userId env s in
  let p := length (procs s) in
  fst r = BridgeStarted (name user) /\
  outcome userId (snd r) = (Some (mkHandle p (Some n)), Some (running, pid_num n)) /\
  procs (snd r) !! p = Some (mkChild (Some n) userId false false) /\
  length (procs (snd r)) = S p /\
  configs (snd r) !! configPath userId = Some (mcpServers user) /\
  (registry_wf s -> registry_wf (snd r)) /\
  trace (snd r) =
    trace s ++ kill_events userId s
      ++ [EvSweep userId; EvWriteConfig (configPath userId) true;
          EvSpawn (Spawned n); EvWriteUsers].
Proof.
  intros Hf He Hw Hs r p.
  destruct (start_launch userId user env n s Hf He Hw Hs)
    as (H1 & H2 & H3 & H4 & H5 & H6 & H7 & _).
  repeat split; assumption.
Qed.

Lemma start_success_witness :
  outcome "u1" (snd (start "u1" (env_ok 55) only_u1))
    = (Some (mkHandle 0 (Some 55)), Some (running, pid_num 55)).
Proof.
  apply (start_success "u1" u1 (env_ok 55) 55 only_u1); reflexivity.
Defined.

(** X17: when the worker started by such a start terminates, its
    notification can be delivered once; it removes the handle and marks the
    record stopped with a null pid, and nothing is launched again: no
    process object is added, the only call to the environment is the write
    of [users.json], and the config file stays. *)
Theorem start_then_termination (userId : string) (user : User) (env : Env)
    (n : Z) (s : State) :
  find userId (users s) = Some user ->
  truthy (mcpEndpoint user) = true ->
  env_config_write_ok env = true ->
  env_spawn env = Spawned n ->
  let s1 := snd (start userId env s) in
  let p := length (procs s) in
  let s2 := on_exit p s1 in
  can_exit p s1 = true /\
  outcome userId s2 = (None, Some (stopped, pid_null)) /\
  can_exit p s2 = false /\
  length (procs s2) = length (procs s1) /\
  configs s2 = configs s1 /\
  trace s2 = trace s1 ++ [EvWriteUsers].
Proof.
  intros Hf He Hw Hs s1 p s2.
  destruct (start_launch userId user env n s Hf He Hw Hs)
    as (_ & Ho & Hp & _). fold s1 p in Ho, Hp.
  unfold outcome in Ho. injection Ho as Hb Hu.
  assert (Hfu : exists u', find userId (users s1) = Some u').
  { destruct (find userId (users s1)) as [u'|]; [eauto|discriminate]. }
  destruct Hfu as (u' & Hu').
  split; [unfold can_exit; rewrite Hp; reflexivity|]. subst s2.
  split.
  { unfold outcome.
    rewrite (on_exit_registry _ _ _ Hp), (on_exit_users _ _ _ Hp).
    cbn [child_user]. rewrite lookup_delete_eq, find_mark, Hu'. reflexivity. }
  split.
  { unfold can_exit. rewrite (on_exit_procs _ _ _ Hp).
    rewrite list_lookup_alter_eq, Hp. reflexivity. }
  split; [rewrite (on_exit_procs _ _ _ Hp); apply length_alter|].
  unfold on_exit. rewrite Hp. cbn [child_user].
  rewrite update_status_configs, update_status_trace. cbn [users trace configs
    set_bridgeProcesses set_procs].
  destruct (find_Some_findIndex _ _ _ Hu') as (idx & -> & _).
  split; reflexivity.
Qed.

Lemma start_then_termination_witness :
  outcome "u1" (on_exit 0 (snd (start "u1" (env_ok 55) only_u1)))
    = (None, Some (stopped, pid_null)).
Proof.
  apply (start_then_termination "u1" u1 (env_ok 55) 55 only_u1); reflexivity.
Defined.

(** ** After deletion *)

(** X18: in the state that a delete leaves when its two segments run back
    to back (ids being distinct before), every route that takes the deleted
    id answers 404 and changes nothing: fetch, update, delete, start, stop,
    and the three feed routes. *)
Theorem deleted_user_is_unknown (userId : string) (idx : nat) (env : Env)
    (s : State) :
  findIndex userId (users s) = Some idx ->
  NoDup (id <$> users s) ->
  let s' := snd (destroy userId env s) in
  get_user userId s' = None /\
  (forall body, put_user userId body s' = (inl (Error 404 "User not found"), s')) /\
  delete_user userId s' = (inl (Error 404 "User not found"), s') /\
  post_user_start userId s' = (inl (Error 404 "User not found"), s') /\
  post_user_stop userId s' = (inl (Error 404 "User not found"), s') /\
  get_feeds userId s' = FeedError 404 "User not found" /\
  (forall body now,
     post_feed userId body now s' = (FeedError 404 "User not found", s')) /\
  (forall feedId,
     delete_feed userId feedId s' = (FeedError 404 "User not found", s')).
Proof.
  intros Hi Hnd s'.
  assert (Hf : find userId (users s') = None).
  { subst s'. rewrite (destroy_eq _ _ _ _ Hi). cbn [snd].
    rewrite writeUsers_users. apply find_splice1; assumption. }
  assert (Hfi : findIndex userId (users s') = None)
    by (apply findIndex_find, Hf).
  unfold get_user, put_user, delete_user, post_user_start, post_user_stop,
    get_feeds, post_feed, delete_feed, readUsers.
  rewrite Hf, Hfi. repeat split; reflexivity.
Qed.

Lemma deleted_user_is_unknown_witness :
  post_user_start ann (snd (destroy ann (env_ok 7) ann_and_u1))
    = (inl (Error 404 "User not found"), snd (destroy ann (env_ok 7) ann_and_u1)).
Proof.
  apply (deleted_user_is_unknown ann 0 (env_ok 7) ann_and_u1).
  - reflexivity.
  - vm_compute. apply NoDup_cons. split.
    + intros Hin. apply list_elem_of_singleton in Hin. discriminate Hin.
    + apply NoDup_singleton.
Defined.

(** ** Auth middleware *)

Lemma split_space_word (w : string) :
  no_space w = true -> split_space w = [w].
Proof.
  induction w as [|c w IH]; [reflexivity|]. simpl.
  intros H. apply andb_true_iff in H as [Hc Hw].
  apply negb_true_iff in Hc. rewrite Hc, (IH Hw). reflexivity.
Qed.

Lemma split_space_app (w r : string) :
  no_space w = true ->
  split_space (w +:+ " " +:+ r) = w :: split_space r.
Proof.
  induction w as [|c w IH]; [reflexivity|]. simpl.
  intros H. apply andb_true_iff in H as [Hc Hw].
  apply negb_true_iff in Hc. rewrite Hc.
  specialize (IH Hw). simpl in IH. rewrite IH. reflexivity.
Qed.

(** X19: the middleware takes as token what stands between the first and
    the second space of the [Authorization] header: the word before the
    first space (the scheme) is never looked at, and what follows a second
    space is ignored.  An absent header, a header without a space, and a
    header whose first space is followed by another space or by nothing are
    refused with "No token provided" whatever [jwt.verify] would say. *)
Theorem auth_token_is_second_word (verify : string -> option json)
    (scheme t rest : string) :
  no_space scheme = true ->
  no_space t = true ->
  let verdict :=
    if String.eqb t "" then AuthDenied 401 "No token provided"
    else match verify t with
         | Some decoded => AuthNext decoded
         | None => AuthDenied 401 "Invalid token"
         end in
  authMiddleware verify (Some (scheme +:+ " " +:+ t)) = verdict /\
  authMiddleware verify (Some (scheme +:+ " " +:+ t +:+ " " +:+ rest)) = verdict /\
  authMiddleware verify (Some scheme) = AuthDenied 401 "No token provided" /\
  authMiddleware verify (Some (scheme +:+ " ")) = AuthDenied 401 "No token provided" /\
  authMiddleware verify (Some (scheme +:+ " " +:+ " " +:+ rest))
    = AuthDenied 401 "No token provided" /\
  authMiddleware verify None = AuthDenied 401 "No token provided".
Proof.
  intros Hs Ht verdict. unfold authMiddleware. cbn [mbind option_bind].
  change (scheme +:+ " ") with (scheme +:+ " " +:+ "").
  rewrite !(split_space_app scheme) by exact Hs.
  rewrite (split_space_word t Ht), (split_space_app t rest Ht).
  rewrite (split_space_word scheme Hs).
  repeat split; reflexivity.
Qed.

Lemma auth_token_is_second_word_witness :
  authMiddleware verify_abc (Some "Basic abc trailing")
    = AuthNext (JObj [("username", JStr "admin")]).
Proof.
  apply (auth_token_is_second_word verify_abc "Basic" "abc" "trailing");
    reflexivity.
Defined.

(** ** Late notifications and overlapping starts *)

(** X20: the ['exit'] listener removes the table entry of its user without
    looking at which process the entry holds.  When a running user is
    started again and the termination of the old, killed process is
    notified only after the new one is registered, the notification
    removes the handle of the new process and marks the record stopped
    with a null pid, while the new process keeps running, neither killed
    nor registered. *)
Theorem late_termination_after_restart (userId : string) (user : User)
    (h : Handle) (c : ChildProcess) (env : Env) (n : Z) (s : State) :
  find userId (users s) = Some user ->
  truthy (mcpEndpoint user) = true ->
  env_config_write_ok env = true ->
  env_spawn env = Spawned n ->
  bridgeProcesses s !! userId = Some h ->
  procs s !! process h = Some c ->
  child_user c = userId ->
  exited c = false ->
  is_Some (child_pid c) ->
  let s1 := snd (start userId env s) in
  let p := length (procs s) in
  let s2 := on_exit (process h) s1 in
  outcome userId s1 = (Some (mkHandle p (Some n)), Some (running, pid_num n)) /\
  can_exit (process h) s1 = true /\
  outcome userId s2 = (None, Some (stopped, pid_null)) /\
  procs s2 !! p = Some (mkChild (Some n) userId false false).
Proof.
  intros Hf He Hw Hs Hh Hc Hcu Hex Hpid s1 p s2.
  destruct (start_launch userId user env n s Hf He Hw Hs)
    as (_ & Ho & Hp & _ & _ & _ & _ & Hk). fold s1 p in Ho, Hp, Hk.
  specialize (Hk h c Hh Hc).
  split; [exact Ho|]. split.
  { unfold can_exit. rewrite Hk. cbn [exited mark_killed child_pid].
    rewrite Hex. cbn [negb andb]. apply bool_decide_eq_true_2, Hpid. }
  unfold outcome in Ho. injection Ho as Hb Hu.
  assert (Hfu : exists u', find userId (users s1) = Some u').
  { destruct (find userId (users s1)) as [u'|]; [eauto|discriminate]. }
  destruct Hfu as (u' & Hu'). subst s2. split.
  - unfold outcome.
    rewrite (on_exit_registry _ _ _ Hk), (on_exit_users _ _ _ Hk).
    cbn [child_user mark_killed]. rewrite Hcu, lookup_delete_eq, find_mark, Hu'.
    reflexivity.
  - rewrite (on_exit_procs _ _ _ Hk). rewrite list_lookup_alter_ne; [exact Hp|].
    apply lookup_lt_Some in Hc. subst p. lia.
Qed.

Lemma late_termination_after_restart_witness :
  outcome ann (on_exit 0 (snd (start ann (env_ok 200) (state ann_running))))
    = (None, Some (stopped, pid_null)).
Proof.
  apply (late_termination_after_restart ann ann_record (mkHandle 0 (Some 100))
           (mkChild (Some 100) ann false false) (env_ok 200) 200
           (state ann_running)); try (vm_compute; reflexivity).
  eexists. reflexivity.
Defined.

Lemma resume_start_launch (userId : string) (user : User) (env : Env) (n : Z)
    (s : State) :
  id user = userId ->
  truthy (mcpEndpoint user) = true ->
  env_config_write_ok env = true ->
  env_spawn env = Spawned n ->
  let r := resume (AwaitStartRoute user) env s in
  fst r = BridgeStarted (name user) /\
  bridgeProcesses (snd r)
    = <[userId := mkHandle (length (procs s)) (Some n)]> (bridgeProcesses s) /\
  users (snd r) = mark userId running (pid_num n) (users s) /\
  procs (snd r) = procs s ++ [mkChild (Some n) userId false false].
Proof.
  intros Hid He Hw Hs r. subst r. rewrite resume_start_eq.
  assert (Hnt : env_spawn env ≠ SpawnThrows) by (rewrite Hs; discriminate).
  destruct (startUserBridge_resume_launch user env s He Hw Hnt)
    as (Hr & Hu & Hb & Hp & _).
  cbn [fst snd]. rewrite Hr, Hu, Hb, Hp, Hs, Hid. repeat split; reflexivity.
Qed.

(** X21: two starts of one stored user that are both received before either
    sweep completes both spawn a worker.  The handle of the second replaces
    the handle of the first in the table, the record carries the pid of the
    second, and the first process keeps running, neither killed nor
    registered; both requests are answered as started. *)
Theorem overlapping_starts (w : World) (userId : string) (user : User)
    (env1 env2 : Env) (n1 n2 : Z) :
  pending w = [] ->
  find userId (users (state w)) = Some user ->
  truthy (mcpEndpoint user) = true ->
  env_config_write_ok env1 = true -> env_spawn env1 = Spawned n1 ->
  env_config_write_ok env2 = true -> env_spawn env2 = Spawned n2 ->
  let w' := run [ReqStart userId; ReqStart userId;
                 Resume 0 env1; Resume 0 env2] w in
  let p := length (procs (state w)) in
  responses w'
    = responses w ++ [BridgeStarted (name user); BridgeStarted (name user)] /\
  outcome userId (state w')
    = (Some (mkHandle (S p) (Some n2)), Some (running, pid_num n2)) /\
  procs (state w') !! p = Some (mkChild (Some n1) userId false false) /\
  procs (state w') !! S p = Some (mkChild (Some n2) userId false false).
Proof.
  intros Hpend Hf He Hw1 Hs1 Hw2 Hs2 w' p. subst w' p.
  destruct w as [s pend resp]. cbn [pending state responses] in *. subst pend.
  pose proof (find_id _ _ _ Hf) as Hid.
  assert (Hfk : find userId (users (killUserBridge userId s)) = Some user)
    by (rewrite killUserBridge_users; exact Hf).
  unfold run. cbn [foldl].
  rewrite (exec_ReqStart _ _ _ _ user Hf He). cbn [app].
  rewrite (exec_ReqStart _ _ _ _ user Hfk He). cbn [app].
  resume_step. resume_step. cbn [state responses].
  set (s2 := killUserBridge userId (killUserBridge userId s)).
  destruct (resume_start_launch userId user env1 n1 s2 Hid He Hw1 Hs1)
    as (Hr3 & Hb3 & Hu3 & Hp3).
  set (s3 := snd (resume (AwaitStartRoute user) env1 s2)) in *.
  destruct (resume_start_launch userId user env2 n2 s3 Hid He Hw2 Hs2)
    as (Hr4 & Hb4 & Hu4 & Hp4).
  assert (Hl2 : length (procs s2) = length (procs s)).
  { subst s2. rewrite !killUserBridge_procs_length. reflexivity. }
  rewrite Hr3, Hr4, <- app_assoc. split; [reflexivity|].
  unfold outcome. rewrite Hb4, Hu4, Hp4, Hu3, Hp3, lookup_insert_eq.
  rewrite length_app, Hl2. cbn [length].
  rewrite !find_mark. subst s2. rewrite !killUserBridge_users, Hf.
  split; [repeat f_equal; lia|]. split.
  - rewrite <- app_assoc. rewrite <- Hl2.
    apply list_lookup_middle. reflexivity.
  - replace (S (length (procs s)))
      with (length (procs (killUserBridge userId (killUserBridge userId s))
                    ++ [mkChild (Some n1) userId false false])).
    + apply list_lookup_middle. reflexivity.
    + rewrite length_app, Hl2. simpl. lia.
Qed.

Lemma overlapping_starts_witness :
  outcome ann (state (run [ReqStart ann; ReqStart ann;
                           Resume 0 (env_ok 100); Resume 0 (env_ok 200)]
                          ann_created))
  = (Some (mkHandle 1 (Some 200)), Some (running, pid_num 200)).
Proof.
  apply (overlapping_starts ann_created ann
           (set_status_pid stopped pid_null ann_record)
           (env_ok 100) (env_ok 200) 100 200); vm_compute; reflexivity.
Defined.

Lemma stop_with_notifications_witness :
  outcome ann
    (state (run (ReqStop ann :: (ProcExit <$> [0%nat; 0%nat; 3%nat])
                   ++ [Resume 0 (env_ok 7)]) ann_running))
  = (None, Some (stopped, pid_null)).
Proof.
  apply (stop_with_notifications ann_running ann ann_record
           [0%nat; 0%nat; 3%nat] (env_ok 7)); vm_compute; reflexivity.
Defined.

(** * Starts and stops with other work in between *)

Lemma state_enter (r : (Response + Task) * State) (w : World) :
  state (enter r w) = snd r.
Proof. destruct r as [[resp|t] s]; reflexivity. Qed.

Lemma exec_Resume_state (w : World) (n : nat) (env : Env) (t : Task) :
  pending w !! n = Some t ->
  state (exec w (Resume n env)) = snd (resume t env (state w)) /\
  responses (exec w (Resume n env))
    = responses w ++ [fst (resume t env (state w))].
Proof.
  intros Hp. destruct w as [s pend resp]. cbn [pending state] in *.
  rewrite (exec_Resume _ _ _ _ _ _ Hp). split; reflexivity.
Qed.

Lemma killUserBridge_keeps_unregistered (userId other : string) (s : State) :
  bridgeProcesses s !! userId = None ->
  bridgeProcesses (killUserBridge other s) !! userId = None.
Proof.
  intros Hn. rewrite killUserBridge_registry. apply lookup_delete_None.
  right. exact Hn.
Qed.

Lemma startUserBridge_resume_keeps_unregistered (user : User) (env : Env)
    (userId : string) (s : State) :
  id user ≠ userId ->
  bridgeProcesses s !! userId = None ->
  bridgeProcesses (snd (startUserBridge_resume user env s)) !! userId = None.
Proof.
  intros Hne Hn.
  destruct (startUserBridge_resume_untouched user env userId s) as (Hb & _).
  - congruence.
  - rewrite Hb. exact Hn.
Qed.

Lemma resume_keeps_unregistered (t : Task) (env : Env) (userId : string)
    (s : State) :
  match t with
  | AwaitStartRoute u => id u ≠ userId
  | AwaitUpdateRoute u => id u ≠ userId
  | _ => True
  end ->
  bridgeProcesses s !! userId = None ->
  bridgeProcesses (snd (resume t env s)) !! userId = None.
Proof.
  intros Ht Hn. destruct t as [u|u|data uid u|data idx uid]; unfold resume.
  - pose proof (startUserBridge_resume_keeps_unregistered u env userId s Ht Hn)
      as H.
    destruct (startUserBridge_resume u env s) as [[b|] s']; exact H.
  - pose proof (startUserBridge_resume_keeps_unregistered u env userId s Ht Hn)
      as H.
    destruct (startUserBridge_resume u env s) as [[b|] s']; exact H.
  - destruct (findIndex uid data); exact Hn.
  - cbn [snd]. rewrite writeUsers_registry, unlink_config_registry. exact Hn.
Qed.

Lemma exec_keeps_unregistered (userId : string) (w : World) (a : Action) :
  ~ registers_for userId w a ->
  bridgeProcesses (state w) !! userId = None ->
  bridgeProcesses (state (exec w a)) !! userId = None.
Proof.
  intros Hnr Hn.
  destruct a as [body now iso|uid body|uid|uid|uid|n env|p]; unfold exec.
  - unfold post_users. destruct (js_not _); exact Hn.
  - rewrite state_enter. unfold put_user, readUsers.
    destruct (findIndex uid (users (state w))) as [idx|]; [|exact Hn].
    destruct (alter _ _ _ !! idx) as [u|]; [|exact Hn].
    destruct (status u); cbn [snd]; [exact Hn|].
    apply killUserBridge_keeps_unregistered. exact Hn.
  - rewrite state_enter. unfold delete_user, readUsers.
    destruct (findIndex uid (users (state w))); [|exact Hn].
    apply killUserBridge_keeps_unregistered, Hn.
  - rewrite state_enter. unfold post_user_start, readUsers.
    destruct (find uid (users (state w))) as [u|]; [|exact Hn].
    destruct (negb _); [exact Hn|].
    apply killUserBridge_keeps_unregistered, Hn.
  - rewrite state_enter. unfold post_user_stop, readUsers.
    destruct (find uid (users (state w))) as [u|]; [|exact Hn].
    apply killUserBridge_keeps_unregistered, Hn.
  - cbn [registers_for] in Hnr.
    destruct (pending w !! n) as [t|] eqn:E; [|exact Hn].
    pose proof (resume_keeps_unregistered t env userId (state w)) as H.
    destruct (resume t env (state w)) as [resp s']. cbn [state snd] in *.
    apply H; [|exact Hn]. destruct t; auto.
  - destruct (can_exit p (state w)); [|exact Hn]. cbn [state].
    destruct (procs (state w) !! p) as [c|] eqn:E.
    + rewrite (on_exit_registry _ _ _ E). apply lookup_delete_None.
      right. exact Hn.
    + unfold on_exit. rewrite E. exact Hn.
Qed.

Lemma run_keeps_unregistered (userId : string) (acts : list Action)
    (w : World) :
  no_registration userId acts w ->
  bridgeProcesses (state w) !! userId = None ->
  bridgeProcesses (state (run acts w)) !! userId = None.
Proof.
  revert w. induction acts as [|a acts IH]; intros w Hno Hn; [exact Hn|].
  destruct Hno as [Ha Hrest]. rewrite run_cons.
  apply IH; [exact Hrest|]. apply exec_keeps_unregistered; assumption.
Qed.

Lemma is_killed_alter (f : ChildProcess -> ChildProcess) (p q : nat)
    (s s' : State) :
  (forall c, killed c = true -> killed (f c) = true) ->
  procs s' = alter f q (procs s) ->
  is_killed p s -> is_killed p s'.
Proof.
  intros Hf Hp (c & Hc & Hk). unfold is_killed. rewrite Hp.
  destruct (decide (q = p)) as [->|Hne].
  - exists (f c). rewrite list_lookup_alter_eq, Hc. split; [reflexivity|].
    apply Hf, Hk.
  - exists c. rewrite list_lookup_alter_ne by exact Hne. split; assumption.
Qed.

Lemma is_killed_ext (p : nat) (s s' : State) :
  procs s' = procs s -> is_killed p s -> is_killed p s'.
Proof. unfold is_killed. intros ->. auto. Qed.

Lemma killUserBridge_is_killed (userId : string) (p : nat) (s : State) :
  is_killed p s -> is_killed p (killUserBridge userId s).
Proof.
  intros H. pose proof (killUserBridge_procs userId s) as Hp.
  destruct (bridgeProcesses s !! userId) as [h|].
  - eapply is_killed_alter; [|exact Hp|exact H]. reflexivity.
  - eapply is_killed_ext; [exact Hp|exact H].
Qed.

Lemma startUserBridge_resume_is_killed (user : User) (env : Env) (p : nat)
    (s : State) :
  is_killed p s -> is_killed p (snd (startUserBridge_resume user env s)).
Proof.
  intros (c & Hc & Hk).
  destruct (start_env_cases user env) as [Hfail|(He & Hw & Hs)].
  - destruct (startUserBridge_resume_failure user env s Hfail)
      as (_ & _ & _ & _ & Hp).
    exists c. rewrite Hp. split; assumption.
  - destruct (startUserBridge_resume_launch user env s He Hw Hs)
      as (_ & _ & _ & Hp & _).
    exists c. rewrite Hp. split; [apply lookup_app_l_Some, Hc|exact Hk].
Qed.

Lemma resume_is_killed (t : Task) (env : Env) (p : nat) (s : State) :
  is_killed p s -> is_killed p (snd (resume t env s)).
Proof.
  intros H. destruct t as [u|u|data uid u|data idx uid]; unfold resume.
  - pose proof (startUserBridge_resume_is_killed u env p s H) as H'.
    destruct (startUserBridge_resume u env s) as [[b|] s']; exact H'.
  - pose proof (startUserBridge_resume_is_killed u env p s H) as H'.
    destruct (startUserBridge_resume u env s) as [[b|] s']; exact H'.
  - destruct (findIndex uid data); exact H.
  - cbn [snd]. eapply is_killed_ext; [|exact H].
    unfold unlink_config. destruct (_ && _); reflexivity.
Qed.

Lemma exec_is_killed (p : nat) (w : World) (a : Action) :
  is_killed p (state w) -> is_killed p (state (exec w a)).
Proof.
  intros H.
  destruct a as [body now iso|uid body|uid|uid|uid|n env|q]; unfold exec.
  - unfold post_users. destruct (js_not _); exact H.
  - rewrite state_enter. unfold put_user, readUsers.
    destruct (findIndex uid (users (state w))) as [idx|]; [|exact H].
    destruct (alter _ _ _ !! idx) as [u|]; [|exact H].
    destruct (status u); cbn [snd]; [exact H|].
    apply killUserBridge_is_killed. exact H.
  - rewrite state_enter. unfold delete_user, readUsers.
    destruct (findIndex uid (users (state w))); [|exact H].
    apply killUserBridge_is_killed, H.
  - rewrite state_enter. unfold post_user_start, readUsers.
    destruct (find uid (users (state w))) as [u|]; [|exact H].
    destruct (negb _); [exact H|]. apply killUserBridge_is_killed, H.
  - rewrite state_enter. unfold post_user_stop, readUsers.
    destruct (find uid (users (state w))) as [u|]; [|exact H].
    apply killUserBridge_is_killed, H.
  - destruct (pending w !! n) as [t|]; [|exact H].
    pose proof (resume_is_killed t env p (state w) H) as H'.
    destruct (resume t env (state w)) as [resp s']. exact H'.
  - destruct (can_exit q (state w)); [|exact H]. cbn [state].
    destruct (procs (state w) !! q) as [c|] eqn:E.
    + eapply is_killed_alter; [|exact (on_exit_procs _ _ _ E)|exact H].
      intros c0 Hc0. exact Hc0.
    + unfold on_exit. rewrite E. exact H.
Qed.

Lemma run_is_killed (p : nat) (acts : list Action) (w : World) :
  is_killed p (state w) -> is_killed p (state (run acts w)).
Proof.
  revert w. induction acts as [|a acts IH]; intros w H; [exact H|].
  rewrite run_cons. apply IH, exec_is_killed, H.
Qed.

Lemma exec_ReqStart_world (w : World) (userId : string) (user : User) :
  find userId (users (state w)) = Some user ->
  truthy (mcpEndpoint user) = true ->
  exec w (ReqStart userId)
  = mkWorld (killUserBridge userId (state w))
            (pending w ++ [AwaitStartRoute user]) (responses w).
Proof.
  intros Hf He. destruct w as [s pend resp]. cbn [state pending responses] in *.
  apply exec_ReqStart; assumption.
Qed.

Lemma exec_ReqStop_world (w : World) (userId : string) (user : User) :
  find userId (users (state w)) = Some user ->
  exec w (ReqStop userId)
  = mkWorld (killUserBridge userId (state w))
            (pending w ++ [AwaitStopRoute (users (state w)) userId user])
            (responses w).
Proof.
  intros Hf. destruct w as [s pend resp]. cbn [state pending responses] in *.
  apply exec_ReqStop; assumption.
Qed.

Lemma killUserBridge_kills (userId : string) (h : Handle) (c : ChildProcess)
    (s : State) :
  bridgeProcesses s !! userId = Some h ->
  procs s !! process h = Some c ->
  is_killed (process h) (killUserBridge userId s).
Proof.
  intros Hh Hc. exists (mark_killed c).
  rewrite killUserBridge_procs, Hh, list_lookup_alter_eq, Hc.
  split; reflexivity.
Qed.

Lemma resume_start_handles (w : World) (n : nat) (user : User) (env : Env) :
  pending w !! n = Some (AwaitStartRoute user) ->
  fst (startUserBridge_resume user env (state w)) = Returned true ->
  handles_for (id user) (state (exec w (Resume n env)))
  = [mkHandle (length (procs (state w))) (spawn_pid (env_spawn env))].
Proof.
  intros Hp Hr. destruct (exec_Resume_state w n env _ Hp) as [-> _].
  rewrite resume_start_eq. cbn [snd].
  destruct (startUserBridge_resume user env (state w)) as [r s'] eqn:E.
  cbn [fst snd] in *. subst r.
  destruct (startUserBridge_resume_true _ _ _ _ E) as (He & Hw & Hs).
  destruct (startUserBridge_resume_launch user env (state w) He Hw Hs)
    as (_ & _ & Hb & _).
  rewrite E in Hb. cbn [snd] in Hb.
  rewrite handles_for_lookup, Hb, lookup_insert_eq. reflexivity.
Qed.

(** C1 (as the code has it): in every state the server can reach, the table
    [bridgeProcesses] holds at most one handle under each user id, and that
    handle points to a process launched for this user that was neither
    killed nor notified as terminated.  The first segment of a start of a
    stored user with an endpoint retires the handle registered for the
    user: its process is killed and the handle removed.  If no continuation
    of a start or of an update of the same user runs between that segment
    and the continuation of the start, then, whatever else is processed in
    between, the table holds no handle for the user when the continuation
    registers the new one, and the process of the old handle is killed.
    Whenever the continuation of a start returns [true], the table holds
    exactly one handle for the user, the one of the new process. *)
Theorem C1_single_handle_no_overlap :
  (forall (w : World) (userId : string),
     reachable w ->
     (length (handles_for userId (state w)) <= 1)%nat /\
     registry_wf (state w)) /\
  (forall (w : World) (userId : string) (user : User) (acts : list Action),
     find userId (users (state w)) = Some user ->
     truthy (mcpEndpoint user) = true ->
     let w1 := exec w (ReqStart userId) in
     let w2 := run acts w1 in
     let retired (s : State) :=
       forall h c,
         bridgeProcesses (state w) !! userId = Some h ->
         procs (state w) !! process h = Some c ->
         is_killed (process h) s in
     bridgeProcesses (state w1) !! userId = None /\
     retired (state w1) /\
     (no_registration userId acts w1 ->
      bridgeProcesses (state w2) !! userId = None /\
      retired (state w2) /\
      forall (n : nat) (env : Env),
        pending w2 !! n = Some (AwaitStartRoute user) ->
        fst (startUserBridge_resume user env (state w2)) = Returned true ->
        handles_for userId (state (exec w2 (Resume n env)))
          = [mkHandle (length (procs (state w2))) (spawn_pid (env_spawn env))] /\
        retired (state (exec w2 (Resume n env))))) /\
  (forall (w : World) (n : nat) (user : User) (env : Env),
     pending w !! n = Some (AwaitStartRoute user) ->
     fst (startUserBridge_resume user env (state w)) = Returned true ->
     handles_for (id user) (state (exec w (Resume n env)))
       = [mkHandle (length (procs (state w))) (spawn_pid (env_spawn env))]).
Proof.
  split; [|split].
  - intros w userId Hr. split.
    + apply handles_for_at_most_one.
    + apply reachable_registry_wf, Hr.
  - intros w userId user acts Hf He w1 w2 retired.
    assert (H1 : state w1 = killUserBridge userId (state w)).
    { subst w1. rewrite (exec_ReqStart_world _ _ _ Hf He). reflexivity. }
    assert (Hn1 : bridgeProcesses (state w1) !! userId = None).
    { rewrite H1, killUserBridge_registry. apply lookup_delete_eq. }
    assert (Hk1 : retired (state w1)).
    { intros h c Hh Hc. rewrite H1. eapply killUserBridge_kills; eassumption. }
    split; [exact Hn1|]. split; [exact Hk1|].
    intros Hno.
    assert (Hk2 : retired (state w2)).
    { intros h c Hh Hc. apply run_is_killed. eapply Hk1; eassumption. }
    split; [apply run_keeps_unregistered; assumption|].
    split; [exact Hk2|].
    intros n env Hp Hr. split.
    + rewrite <- (find_id _ _ _ Hf). apply resume_start_handles; assumption.
    + intros h c Hh Hc. apply exec_is_killed. eapply Hk2; eassumption.
  - apply resume_start_handles.
Qed.

Lemma C1_witness :
  handles_for ann
    (state (exec (run [ProcExit 0; ReqCreate body_bob 1700000000777 "t"]
                      (exec ann_running (ReqStart ann)))
                 (Resume 0 (env_ok 200))))
  = [mkHandle 1 (Some 200)].
Proof.
  pose proof (proj1 (proj2 C1_single_handle_no_overlap) ann_running ann
                ann_record [ProcExit 0; ReqCreate body_bob 1700000000777 "t"])
    as H.
  cbv zeta in H. destruct H as (_ & _ & H).
  - vm_compute. reflexivity.
  - reflexivity.
  - destruct H as (_ & _ & H).
    + vm_compute. repeat split; intros [].
    + destruct (H 0%nat (env_ok 200)) as [Hh _].
      * vm_compute. reflexivity.
      * vm_compute. reflexivity.
      * rewrite Hh. vm_compute. reflexivity.
Defined.

(** The statement of C1 as written fails: when two starts of one user are
    both received before either sweep completes, the continuation of the
    second registers its handle while the table holds the handle of the
    first, whose process was never killed. *)
Lemma C1_counterexample : ~ start_always_retires.
Proof.
  intros (_ & H & _).
  assert (Hr : reachable ann_second_start_pending).
  { exists [ReqCreate body_ann 1700000000000 "2023-11-14T22:13:20.000Z";
            ReqStart ann; ReqStart ann; Resume 0 (env_ok 100)].
    vm_compute. reflexivity. }
  assert (Hp : pending ann_second_start_pending !! 0%nat
               = Some (AwaitStartRoute
                         (set_status_pid stopped pid_null ann_record)))
    by (vm_compute; reflexivity).
  assert (Hs : fst (startUserBridge_resume
                      (set_status_pid stopped pid_null ann_record)
                      (env_ok 200) (state ann_second_start_pending))
               = Returned true)
    by (vm_compute; reflexivity).
  assert (Hh : bridgeProcesses (state ann_second_start_pending)
                 !! id (set_status_pid stopped pid_null ann_record)
               = Some (mkHandle 0 (Some 100)))
    by (vm_compute; reflexivity).
  assert (Hc : procs (state ann_second_start_pending)
                 !! process (mkHandle 0 (Some 100))
               = Some (mkChild (Some 100) ann false false))
    by (vm_compute; reflexivity).
  specialize (H _ _ _ _ _ _ Hr Hp Hs Hh Hc). discriminate H.
Qed.

(** C4 (as the code has it): for a stored user and a stop request, whatever
    is processed between the request and its continuation, once the
    continuation has run the stop is answered as success and the record
    reads [status = 'stopped'], [pid = null]; the table holds no handle for
    the user provided no continuation of a start or of an update of the
    same user ran between the request and its continuation.  A stop whose
    two segments run back to back on a user without handle leaves the
    table, the processes and the config files untouched, and a second such
    stop in succession changes nothing observable. *)
Theorem C4_stop_end_state :
  (forall (w : World) (userId : string) (user : User) (acts : list Action)
          (n : nat) (env : Env),
     find userId (users (state w)) = Some user ->
     let w2 := run acts (exec w (ReqStop userId)) in
     let w3 := exec w2 (Resume n env) in
     pending w2 !! n = Some (AwaitStopRoute (users (state w)) userId user) ->
     responses w3 = responses w2 ++ [BridgeStopped (name user)] /\
     (fun u => (status u, pid u)) <$> find userId (users (state w3))
       = Some (stopped, pid_null) /\
     (no_registration userId acts (exec w (ReqStop userId)) ->
      outcome userId (state w3) = (None, Some (stopped, pid_null)))) /\
  (forall (userId : string) (user : User) (env : Env) (s : State),
     find userId (users s) = Some user ->
     let r := stop userId env s in
     fst r = BridgeStopped (name user) /\
     outcome userId (snd r) = (None, Some (stopped, pid_null)) /\
     (bridgeProcesses s !! userId = None ->
        bridgeProcesses (snd r) = bridgeProcesses s /\
        procs (snd r) = procs s /\ configs (snd r) = configs s /\
        users (snd r) = mark userId stopped pid_null (users s)) /\
     fst (stop userId env (snd r)) = BridgeStopped (name user) /\
     observable (snd (stop userId env (snd r))) = observable (snd r)).
Proof.
  split; [|exact stop_uninterrupted].
  intros w userId user acts n env Hf w2 w3 Hp.
  destruct (exec_Resume_state w2 n env _ Hp) as [Hst Hresp]. fold w3 in Hst, Hresp.
  assert (Hu : (fun u => (status u, pid u)) <$> find userId (users (state w3))
               = Some (stopped, pid_null)).
  { rewrite Hst, (resume_stop_state _ _ _ _ _ Hf), writeUsers_users.
    rewrite find_mark, Hf. reflexivity. }
  split.
  { rewrite Hresp. unfold resume.
    destruct (find_Some_findIndex _ _ _ Hf) as (idx & -> & _). reflexivity. }
  split; [exact Hu|].
  intros Hno. unfold outcome. rewrite Hu. f_equal.
  rewrite Hst, resume_stop_registry. subst w2.
  apply run_keeps_unregistered; [exact Hno|].
  rewrite (exec_ReqStop_world _ _ _ Hf). cbn [state].
  rewrite killUserBridge_registry. apply lookup_delete_eq.
Qed.

Lemma C4_witness :
  outcome ann
    (state (exec (run [ProcExit 0; ReqCreate body_bob 1700000000777 "t"]
                      (exec ann_running (ReqStop ann)))
                 (Resume 0 (env_ok 7))))
  = (None, Some (stopped, pid_null)).
Proof.
  pose proof (proj1 C4_stop_end_state ann_running ann ann_record
                [ProcExit 0; ReqCreate body_bob 1700000000777 "t"]
                0%nat (env_ok 7)) as H.
  cbv zeta in H. destruct H as (_ & _ & H).
  - vm_compute. reflexivity.
  - vm_compute. reflexivity.
  - apply H. vm_compute. repeat split; intros [].
Defined.

(** The statement of C4 as written fails: when the continuation of a start
    of the same user runs between the two segments of a stop, the stop
    completes, is answered as success, and the table holds the handle the
    start registered. *)
Lemma C4_counterexample : ~ stop_always_unregisters.
Proof.
  intros (H & _).
  assert (Hr : reachable ann_stop_overtaken).
  { exists [ReqCreate body_ann 1700000000000 "2023-11-14T22:13:20.000Z";
            ReqStart ann; ReqStop ann; Resume 0 (env_ok 100)].
    vm_compute. reflexivity. }
  assert (Hp : pending ann_stop_overtaken !! 0%nat
               = Some (AwaitStopRoute
                         [set_status_pid stopped pid_null ann_record] ann
                         (set_status_pid stopped pid_null ann_record)))
    by (vm_compute; reflexivity).
  specialize (H _ _ _ _ _ (env_ok 7) Hr Hp).
  vm_compute in H. discriminate H.
Qed.
